(** * The recommendation engine of the PC recommendation backend

    A shallow embedding of [app/api/services/recommendation_engine.py]
    (class [RecommendationEngine]) together with what it takes from
    [app/core/cache.py] ([Cache] and [generate_cache_key]) and from
    [app/api/models] (the shapes of [UserProfile], [Budget],
    [MatchReason] and [TradeOff]).

    Conventions of the embedding.
    - Python numbers ([int] and [float]) are exact rationals [Q]; in the
      engine the rounding of IEEE doubles, [nan] and [inf] are not
      represented, and results are compared with [==] ([Qeq]). Where a
      statement depends on the amounts of a budget being doubles (the
      cache key holds their [repr]) it says so with [double_budget];
      the values of a request ([pyobj]) include [nan] and the
      infinities.
    - A value read out of a MongoDB document is a [pyval]: a number, a
      string or [None] (an array at such a place is not represented);
      an operation Python refuses on a non-number yields [None] in the
      [option] monad, and [try_except] is the handler of a [try] block.
    - Python [str] is [string] (the UTF-8 bytes of the text).
    - A [dict] read with [.get] is a [gmap string _].
    - A collection is the list of its documents; the queries the engine
      sends are evaluated on that list. The store fails only by refusing
      a pipeline that multiplies a string.
    - The cache is threaded through [generate_recommendations] as a
      state, and the clock reading is an input.
    - Logging, the texts of explanations and the [components] summaries
      of a result (a display join on well-formed component documents)
      are left out; the theorem on when the scorer returns a candidate
      is stated for configurations whose components carry no id, for
      which no component document is read. *)

From Stdlib Require Import QArith Qround Lqa.
From stdpp Require Import gmap strings list sorting.

Open Scope Q_scope.

(** ** Python primitives *)

Inductive pyval :=
  | PNum (q : Q)
  | PStr (s : string)
  | PNone.

(** [isinstance(v, (int, float))], also the operand check of [<], [*], ... *)
Definition as_num (v : pyval) : option Q :=
  match v with
  | PNum q => Some q
  | _ => None
  end.

(** [try: body  except Exception: return handler] *)
Definition try_except {A : Type} (body : option A) (handler : A) : A :=
  default handler body.

(** [d.get(key, dflt)] *)
Definition dict_get {V : Type} (d : gmap string V) (key : string) (dflt : V) : V :=
  default dflt (d !! key).

Definition Qltb (x y : Q) : bool := if Qlt_le_dec x y then true else false.
Definition Qleb (x y : Q) : bool := if Qlt_le_dec y x then false else true.
Definition Qeqb (x y : Q) : bool := if Qeq_dec x y then true else false.

Notation "x <? y" := (Qltb x y) : Q_scope.
Notation "x <=? y" := (Qleb x y) : Q_scope.
Notation "x >? y" := (Qltb y x) (at level 70) : Q_scope.
Notation "x >=? y" := (Qleb y x) (at level 70) : Q_scope.
Notation "x =? y" := (Qeqb x y) : Q_scope.

(** [max(a, b)]: the first argument unless the second is larger. *)
Definition py_max (a b : Q) : Q := if a <? b then b else a.

(** [min(a, b)]: the first argument unless the second is smaller. *)
Definition py_min (a b : Q) : Q := if b <? a then b else a.

(** [abs(x)] *)
Definition py_abs (x : Q) : Q := if x <? 0 then - x else x.

(** [int(x)]: truncation towards zero. *)
Definition py_int (x : Q) : Z := Z.quot (Qnum x) (Zpos (Qden x)).

(** [round(x, 1)]: to the nearest tenth, a tie going to the even digit.
    The tie is that of the rational; a double that prints as a tie lies
    beside it. *)
Definition py_round1 (x : Q) : Q :=
  let t := x * 10 in
  let f := Qfloor t in
  let r := t - inject_Z f in
  let n := if r <? 0.5 then f
           else if 0.5 <? r then (f + 1)%Z
           else if Z.even f then f else (f + 1)%Z in
  inject_Z n / 10.

(** ** Data model *)

(** [app/api/models/user_profile.py], class [Budget]. The validator that
    would force [max > min] is commented out in the source, so any pair of
    amounts is a value of this type. *)
Module Budget.
Record t := mk { min : Q; max : Q }.
End Budget.

(** [UserProfile]: the requirement fields and the identity fields. The
    engine itself tests [user_profile.budget] for absence, and applies
    [or []] to the two lists, so these three are optional here. *)
Module UserProfile.
Record t := mk {
  purpose : string;
  budget : option Budget.t;
  performance_level : string;
  preferred_brands : option (list string);
  must_have_features : option (list string);
  session_id : string;
  user_id : option string
}.
End UserProfile.

(** The dictionary of the four scoring weights. *)
Record Weights := {
  w_purpose : Q;
  w_budget : Q;
  w_performance : Q;
  w_brand : Q
}.

(** [sum(weights.values())], in insertion order. *)
Definition weights_sum (w : Weights) : Q :=
  0 + w_purpose w + w_budget w + w_performance w + w_brand w.

Definition base_weights : Weights :=
  {| w_purpose := 0.4; w_budget := 0.3; w_performance := 0.2; w_brand := 0.1 |}.

(** ** Sub-scores, normal mode *)

(** [purpose_mapping.get(purpose, 'general')] *)
Definition purpose_mapping (purpose : string) : string :=
  match purpose with
  | "gaming" => "gaming"
  | "office" => "office"
  | "creative" => "creative"
  | "programming" => "programming"
  | "general" => "general"
  | _ => "general"
  end%string.

(** [_calculate_purpose_score]: no handler of its own, so an error is the
    caller's to catch. *)
Definition _calculate_purpose_score
    (purpose : string) (suitability_scores : gmap string pyval) : option Q :=
  let purpose_key := purpose_mapping purpose in
  base_score ← as_num (dict_get suitability_scores purpose_key (PNum 50));
  let weight :=
    match purpose with
    | "gaming" => 1.2
    | "creative" => 1.15
    | "programming" => 1.0
    | "office" => 0.9
    | "general" => 1.0
    | _ => 1.0
    end%string in
  Some (py_min 100 (base_score * weight)).

(** [_calculate_budget_fit], on the Pydantic [Budget] the profile carries. *)
Definition _calculate_budget_fit (price : pyval) (budget : Budget.t) : Q :=
  match as_num price with
  | None => 0
  | Some price =>
    if price <? 0 then 0 else
    let budget_min := Budget.min budget in
    let budget_max := Budget.max budget in
    if (budget_min >=? budget_max) || (budget_min <? 0) || (budget_max <? 0)
    then 0 else
    let budget_range := budget_max - budget_min in
    if budget_range <=? 0 then (if price =? budget_min then 100 else 50) else
    let tightness_factor := py_max 0.5 (py_min 2.0 (1000 / budget_range)) in
    let center := (budget_min + budget_max) / 2 in
    let distance_from_center := py_abs (price - center) in
    let max_distance := budget_range / 2 in
    if max_distance <=? 0 then 50 else
    let fit_score :=
      py_max 0 (100 * (1 - distance_from_center / max_distance) * tightness_factor) in
    if py_abs (price - budget_min) <? budget_range * 0.1
    then py_min 100 (fit_score + 15)
    else if py_abs (price - budget_max) <? budget_range * 0.1
    then py_min 100 (fit_score + 10)
    else fit_score
  end.

(** [performance_weights.get(level, 0.2)] of [_calculate_dynamic_weights] *)
Definition performance_weights (level : string) : Q :=
  match level with
  | "basic" => 0.15
  | "standard" => 0.2
  | "high" => 0.25
  | "professional" => 0.3
  | _ => 0.2
  end%string.

(** The table [purpose_weights] of [_calculate_dynamic_weights]; [None]
    when the purpose is not a key. *)
Definition purpose_weights (purpose : string) : option Weights :=
  match purpose with
  | "gaming" =>
      Some {| w_purpose := 0.45; w_performance := 0.3; w_budget := 0.2; w_brand := 0.05 |}
  | "creative" =>
      Some {| w_purpose := 0.4; w_performance := 0.3; w_budget := 0.2; w_brand := 0.1 |}
  | "programming" =>
      Some {| w_purpose := 0.35; w_performance := 0.3; w_budget := 0.25; w_brand := 0.1 |}
  | "office" =>
      Some {| w_purpose := 0.3; w_performance := 0.2; w_budget := 0.4; w_brand := 0.1 |}
  | "general" =>
      Some {| w_purpose := 0.35; w_performance := 0.25; w_budget := 0.3; w_brand := 0.1 |}
  | _ => None
  end%string.

(** [_calculate_dynamic_weights] on a validated profile. With amounts
    that are numbers nothing in the body can raise, so the [except]
    branch (which returns the base weights) has no counterpart here; the
    function with its handler, on a profile object of any shape, is
    [_calculate_dynamic_weights_try] below. *)
Definition _calculate_dynamic_weights (user_profile : UserProfile.t) : Weights :=
  let weights := base_weights in
  match UserProfile.budget user_profile with
  | None => weights
  | Some b =>
    let budget_range := Budget.max b - Budget.min b in
    let weights :=
      if budget_range <? 500 then
        {| w_purpose := 0.3; w_budget := 0.4; w_performance := 0.2; w_brand := 0.1 |}
      else if budget_range >? 2000 then
        {| w_purpose := 0.4; w_budget := 0.2; w_performance := 0.3; w_brand := 0.1 |}
      else weights in
    let weights :=
      {| w_purpose := w_purpose weights;
         w_budget := w_budget weights;
         w_performance :=
           performance_weights (UserProfile.performance_level user_profile);
         w_brand := w_brand weights |} in
    let weights :=
      match purpose_weights (UserProfile.purpose user_profile) with
      | Some purpose_weight => purpose_weight
      | None => weights
      end in
    let total_weight := weights_sum weights in
    if total_weight >? 0 then
      {| w_purpose := w_purpose weights / total_weight;
         w_budget := w_budget weights / total_weight;
         w_performance := w_performance weights / total_weight;
         w_brand := w_brand weights / total_weight |}
    else base_weights
  end.

(** The per-purpose component weights of [_calculate_performance_score],
    in the order the dictionary lists them. *)
Definition component_weights (purpose : string) : list (string * Q) :=
  match purpose with
  | "gaming" => [("gpu", 0.5); ("cpu", 0.3); ("ram", 0.15); ("storage", 0.05)]
  | "creative" => [("gpu", 0.4); ("cpu", 0.35); ("ram", 0.2); ("storage", 0.05)]
  | "programming" => [("cpu", 0.4); ("ram", 0.3); ("gpu", 0.2); ("storage", 0.1)]
  | "office" => [("cpu", 0.3); ("ram", 0.3); ("gpu", 0.2); ("storage", 0.2)]
  | "general" => [("cpu", 0.3); ("gpu", 0.3); ("ram", 0.2); ("storage", 0.2)]
  | _ => [("cpu", 0.3); ("gpu", 0.3); ("ram", 0.2); ("storage", 0.2)]
  end%string.

(** [level_mapping.get(required_level, 50)], normal mode *)
Definition level_mapping (required_level : string) : Q :=
  match required_level with
  | "basic" => 30
  | "standard" => 50
  | "high" => 70
  | "professional" => 85
  | _ => 50
  end%string.

(** [_calculate_performance_score]: a component score that is not a number
    is skipped, so the body never raises. *)
Definition _calculate_performance_score
    (required_level : string) (performance_profile : gmap string pyval)
    (purpose : string) : Q :=
  let required_score := level_mapping required_level in
  let weighted_performance :=
    foldl (λ acc cw,
             match as_num (dict_get performance_profile
                             (fst cw +:+ "_performance") (PNum 50)) with
             | Some component_score => acc + component_score * snd cw
             | None => acc
             end)
          0 (component_weights purpose) in
  if weighted_performance >=? required_score then 100
  else if weighted_performance >=? required_score * 0.8 then 75
  else if weighted_performance >=? required_score * 0.6 then 50
  else 25.

(** ** Sub-scores, safe mode *)

Definition _calculate_purpose_score_safe
    (purpose : string) (suitability_scores : gmap string pyval) : Q :=
  try_except
    (let purpose_key := purpose_mapping purpose in
     base_score ← as_num (dict_get suitability_scores purpose_key (PNum 50));
     Some (py_max 60 (py_min 100 base_score)))
    70.

Definition _calculate_budget_fit_safe (price : pyval) (budget : Budget.t) : Q :=
  try_except
    (let budget_min := Budget.min budget in
     let budget_max := Budget.max budget in
     price ← as_num price;
     if price <? budget_min then Some 70
     else if price >? budget_max then Some 60
     else
       let budget_range := budget_max - budget_min in
       if budget_range =? 0 then Some 85 else
       let center := (budget_min + budget_max) / 2 in
       let distance_from_center := py_abs (price - center) in
       let max_distance := budget_range / 2 in
       let fit_score := py_max 70 (100 * (1 - distance_from_center / max_distance)) in
       Some fit_score)
    75.

(** [level_mapping.get(required_level, 50)], safe mode *)
Definition level_mapping_safe (required_level : string) : Q :=
  match required_level with
  | "basic" => 40
  | "standard" => 50
  | "high" => 60
  | "professional" => 70
  | _ => 50
  end%string.

Definition _calculate_performance_score_safe
    (required_level : string) (performance_profile : gmap string pyval) : Q :=
  try_except
    (let required_score := level_mapping_safe required_level in
     overall_performance ←
       as_num (dict_get performance_profile "overall_performance" (PNum 50));
     if overall_performance >=? required_score
     then Some (py_max 85 (py_min 100 overall_performance))
     else if overall_performance >=? required_score * 0.7 then Some 75
     else if overall_performance >=? required_score * 0.5 then Some 70
     else Some 65)
    70.

(** ** Catalog documents and scored candidates *)

(** A field of a document that the code expects to hold a sub-document:
    absent, present with a value that is not a dictionary, or a
    dictionary. *)
Inductive pyfield :=
  | FMissing
  | FValue (v : pyval)
  | FDict (d : gmap string pyval).

(** One entry of a configuration's [components] list; the key
    [component_id] may be absent. *)
Record ComponentRef := { component_id : option string }.

(** A document of the [components] collection. *)
Module Component.
Record t := mk { _id : string; brand : option string }.
End Component.

(** A document of the [pc_configurations] collection, with the
    [_fallback_type] mark that [_try_fallback_query] writes on it. An
    absent [total_price] and a [None] one are both [PNone]: the query
    operators and the scorer treat them alike. *)
Module Config.
Record t := mk {
  _id : string;
  name : option string;
  total_price : pyval;
  suitability_scores : pyfield;
  performance_profile : pyfield;
  components : list ComponentRef;
  _fallback_type : option string
}.
End Config.

(** The text of a [MatchReason], by template: the interpolated figures
    are display only and are not carried. *)
Inductive Explanation :=
  | SafeModePurpose | SafeModeBudget | SafeModePerformance | SafeModeBrands
  | PurposeExcellent | PurposeGood | PurposeFair | PurposeBasic
  | BudgetBelowMinimum | BudgetExceedsMaximum
  | BudgetOptimal | BudgetFitsWell | BudgetHigherEnd | BudgetLowerEnd
  | PerformanceExceeds | PerformanceMeets | PerformancePartial | PerformanceBelow
  | IncludesPreferredBrands
  | NoteBrandsRelaxed | NotePerformanceRelaxed | NoteBudgetExpanded
  | NoteConstraintsRemoved.

Record MatchReason := {
  factor : string;
  weight : Q;
  explanation : Explanation
}.

(** The constructor [MatchReason(...)]: the Pydantic model refuses a
    weight outside [[0, 1]]. *)
Definition new_MatchReason
    (factor : string) (weight : Q) (explanation : Explanation) : option MatchReason :=
  if (0 <=? weight) && (weight <=? 1)
  then Some {| factor := factor; weight := weight; explanation := explanation |}
  else None.

(** A [TradeOff], without its description text. *)
Record TradeOff := { type : string; impact : string }.

(** The dictionary [_score_configuration] returns, without the
    [components] summaries (a display join on the components collection
    that does not take part in scoring). *)
Module Scored.
Record t := mk {
  configuration_id : string;
  name : string;
  total_price : Q;
  confidence_score : Q;
  match_reasons : list MatchReason;
  trade_offs : list TradeOff;
  fallback_type : option string
}.
End Scored.

(** ** Explanations and trade-offs *)

(** [_generate_purpose_explanation]: guarded by its own handler, whose
    text is not a template of its own here. *)
Definition _generate_purpose_explanation (score : Q) : Explanation :=
  if score >=? 80 then PurposeExcellent
  else if score >=? 60 then PurposeGood
  else if score >=? 40 then PurposeFair
  else PurposeBasic.

Definition _generate_budget_explanation (price : Q) (budget : Budget.t) : Explanation :=
  let budget_min := Budget.min budget in
  let budget_max := Budget.max budget in
  let budget_center := (budget_min + budget_max) / 2 in
  if price <? budget_min then BudgetBelowMinimum
  else if price >? budget_max then BudgetExceedsMaximum
  else
    let distance_from_center := py_abs (price - budget_center) in
    let budget_range := budget_max - budget_min in
    if distance_from_center <=? budget_range * 0.1 then BudgetOptimal
    else if distance_from_center <=? budget_range * 0.25 then BudgetFitsWell
    else if price >? budget_center then BudgetHigherEnd else BudgetLowerEnd.

(** [_generate_performance_explanation]: every branch formats
    [overall_performance] with [:.0f], which raises on a non-number. *)
Definition _generate_performance_explanation
    (performance_profile : gmap string pyval) (score : Q) : option Explanation :=
  _ ← as_num (dict_get performance_profile "overall_performance" (PNum 50));
  Some (if score >=? 90 then PerformanceExceeds
        else if score >=? 75 then PerformanceMeets
        else if score >=? 50 then PerformancePartial
        else PerformanceBelow).

(** [level_requirements.get(required_level, 50)] of [_identify_trade_offs] *)
Definition level_requirements (required_level : string) : Q :=
  match required_level with
  | "basic" => 30
  | "standard" => 50
  | "high" => 70
  | "professional" => 85
  | _ => 50
  end%string.

(** The four per-purpose factors of [_identify_trade_offs]: overall, cpu,
    gpu and ram. *)
Definition purpose_multiplier (purpose : string) : Q :=
  match purpose with
  | "gaming" => 1.0 | "creative" => 0.95 | "programming" => 0.9
  | "office" => 0.85 | "general" => 0.9 | _ => 0.9
  end%string.

Definition cpu_factor (purpose : string) : Q :=
  match purpose with
  | "gaming" => 0.8 | "creative" => 0.85 | "programming" => 0.9
  | "office" => 0.7 | "general" => 0.75 | _ => 0.75
  end%string.

Definition gpu_factor (purpose : string) : Q :=
  match purpose with
  | "gaming" => 0.9 | "creative" => 0.9 | "programming" => 0.6
  | "office" => 0.5 | "general" => 0.7 | _ => 0.7
  end%string.

Definition ram_factor (purpose : string) : Q :=
  match purpose with
  | "gaming" => 0.7 | "creative" => 0.8 | "programming" => 0.8
  | "office" => 0.6 | "general" => 0.7 | _ => 0.7
  end%string.

(** One of the four similar tests of [_identify_trade_offs]: read a
    figure, compare it with its threshold (an error on a non-number) and
    add the record when it falls short. *)
Definition shortfall
    (performance_profile : gmap string pyval) (key : string) (threshold : Q)
    (t : TradeOff) (trade_offs : list TradeOff) : option (list TradeOff) :=
  figure ← as_num (dict_get performance_profile key (PNum 50));
  Some (if figure <? threshold then trade_offs ++ [t] else trade_offs).

(** [_identify_trade_offs]: no handler of its own; it raises on a figure
    that is not a number and on a budget centre of zero. *)
Definition _identify_trade_offs
    (price : Q) (budget : Budget.t) (performance_profile : gmap string pyval)
    (required_level : string) (purpose : string) : option (list TradeOff) :=
  let trade_offs := [] in
  let budget_min := Budget.min budget in
  let budget_max := Budget.max budget in
  let budget_range := budget_max - budget_min in
  let budget_center := (budget_min + budget_max) / 2 in
  let threshold_factor := py_max 0.1 (py_min 0.3 (500 / py_max budget_range 1)) in
  trade_offs ←
    (if price >? budget_center * (1 + threshold_factor) then
       if budget_center =? 0 then None
       else Some (trade_offs ++ [{| type := "budget"; impact := "negative" |}])
     else if price <? budget_min * 1.1 then
       Some (trade_offs ++ [{| type := "performance"; impact := "neutral" |}])
     else Some trade_offs);
  let required_min := level_requirements required_level in
  trade_offs ←
    shortfall performance_profile "overall_performance"
      (required_min * purpose_multiplier purpose)
      {| type := "performance"; impact := "negative" |} trade_offs;
  trade_offs ←
    shortfall performance_profile "cpu_performance"
      (required_min * cpu_factor purpose)
      {| type := "cpu"; impact := "negative" |} trade_offs;
  trade_offs ←
    shortfall performance_profile "gpu_performance"
      (required_min * gpu_factor purpose)
      {| type := "gpu"; impact := "negative" |} trade_offs;
  shortfall performance_profile "ram_performance"
    (required_min * ram_factor purpose)
    {| type := "memory"; impact := "negative" |} trade_offs.

(** ** Library functions behind the cache key

    The key of a request is
    [md5(("recommendations|" + json.dumps(d, sort_keys=True)).encode())],
    in hexadecimal.
    The three library functions are written out so that keys can be
    computed: the MD5 digest (RFC 1321), the [repr] of a float (the
    shortest decimal text that reads back as the same double) and the
    JSON text of strings, numbers and lists under [ensure_ascii]. *)

Module hashlib.
Open Scope Z_scope.

Definition add32 (x y : Z) : Z := (x + y) mod 2 ^ 32.
Definition not32 (x : Z) : Z := Z.lxor x 0xffffffff.
Definition rotl32 (x c : Z) : Z :=
  Z.lor (Z.shiftl x c mod 2 ^ 32) (Z.shiftr x (32 - c)).

Definition K : list Z :=
  [ 0xd76aa478; 0xe8c7b756; 0x242070db; 0xc1bdceee;
    0xf57c0faf; 0x4787c62a; 0xa8304613; 0xfd469501;
    0x698098d8; 0x8b44f7af; 0xffff5bb1; 0x895cd7be;
    0x6b901122; 0xfd987193; 0xa679438e; 0x49b40821;
    0xf61e2562; 0xc040b340; 0x265e5a51; 0xe9b6c7aa;
    0xd62f105d; 0x02441453; 0xd8a1e681; 0xe7d3fbc8;
    0x21e1cde6; 0xc33707d6; 0xf4d50d87; 0x455a14ed;
    0xa9e3e905; 0xfcefa3f8; 0x676f02d9; 0x8d2a4c8a;
    0xfffa3942; 0x8771f681; 0x6d9d6122; 0xfde5380c;
    0xa4beea44; 0x4bdecfa9; 0xf6bb4b60; 0xbebfbc70;
    0x289b7ec6; 0xeaa127fa; 0xd4ef3085; 0x04881d05;
    0xd9d4d039; 0xe6db99e5; 0x1fa27cf8; 0xc4ac5665;
    0xf4292244; 0x432aff97; 0xab9423a7; 0xfc93a039;
    0x655b59c3; 0x8f0ccc92; 0xffeff47d; 0x85845dd1;
    0x6fa87e4f; 0xfe2ce6e0; 0xa3014314; 0x4e0811a1;
    0xf7537e82; 0xbd3af235; 0x2ad7d2bb; 0xeb86d391 ].

Definition shifts : list Z :=
  [ 7; 12; 17; 22; 7; 12; 17; 22; 7; 12; 17; 22; 7; 12; 17; 22;
    5; 9; 14; 20; 5; 9; 14; 20; 5; 9; 14; 20; 5; 9; 14; 20;
    4; 11; 16; 23; 4; 11; 16; 23; 4; 11; 16; 23; 4; 11; 16; 23;
    6; 10; 15; 21; 6; 10; 15; 21; 6; 10; 15; 21; 6; 10; 15; 21 ].

(** The bytes of a text. *)
Definition encode (s : string) : list Z :=
  (λ a, Z.of_N (Ascii.N_of_ascii a)) <$> String.list_ascii_of_string s.

(** [n] bytes of [x], least significant first. *)
Fixpoint le_bytes (n : nat) (x : Z) : list Z :=
  match n with
  | O => []
  | S n' => x mod 256 :: le_bytes n' (x / 256)
  end.

(** The padded message: a [0x80] byte, zeros up to 56 modulo 64, and
    the bit length on 8 bytes. *)
Definition pad (msg : list Z) : list Z :=
  let len := Z.of_nat (length msg) in
  msg ++ [0x80] ++ replicate (Z.to_nat ((55 - len) mod 64)) 0
      ++ le_bytes 8 ((8 * len) mod 2 ^ 64).

(** Bytes to 32-bit words, least significant byte first. *)
Fixpoint words (bytes : list Z) : list Z :=
  match bytes with
  | b0 :: b1 :: b2 :: b3 :: rest =>
      (b0 + 256 * (b1 + 256 * (b2 + 256 * b3))) :: words rest
  | _ => []
  end.

Definition state : Type := Z * Z * Z * Z.

(** One of the 64 operations on a block [M]. *)
Definition step (M : list Z) (st : state) (i : Z) : state :=
  let '(A, B, C, D) := st in
  let '(F, g) :=
    if i <? 16 then (Z.lor (Z.land B C) (Z.land (not32 B) D), i)
    else if i <? 32
  then (Z.lor (Z.land D B) (Z.land (not32 D) C), (5 * i + 1) mod 16)
    else if i <? 48 then (Z.lxor (Z.lxor B C) D, (3 * i + 5) mod 16)
    else (Z.lxor C (Z.lor B (not32 D)), (7 * i) mod 16) in
  let F := add32 (add32 (add32 F A) (K !!! Z.to_nat i)) (M !!! Z.to_nat g) in
  (D, add32 B (rotl32 F (shifts !!! Z.to_nat i)), B, C).

Definition block (st : state) (M : list Z) : state :=
  let '(a0, b0, c0, d0) := st in
  let '(A, B, C, D) := foldl (step M) st (Z.of_nat <$> seq 0 64) in
  (add32 a0 A, add32 b0 B, add32 c0 C, add32 d0 D).

(** The list cut in pieces of [n] elements. *)
Fixpoint chunks {A : Type} (fuel n : nat) (l : list A) : list (list A) :=
  match fuel, l with
  | O, _ | _, [] => []
  | S fuel', _ => take n l :: chunks fuel' n (drop n l)
  end.

Definition hex_digit (d : Z) : Ascii.ascii :=
  Ascii.ascii_of_N (Z.to_N (if d <? 10 then 48 + d else 87 + d)).

Definition hex_byte (b : Z) : string :=
  String (hex_digit (b / 16)) (String (hex_digit (b mod 16)) EmptyString).

Definition md5_bytes (msg : list Z) : list Z :=
  let ws := words (pad msg) in
  let '(a, b, c, d) :=
    foldl block (0x67452301, 0xefcdab89, 0x98badcfe, 0x10325476)
          (chunks (length ws) 16 ws) in
  le_bytes 4 a ++ le_bytes 4 b ++ le_bytes 4 c ++ le_bytes 4 d.

(** [hashlib.md5(s.encode()).hexdigest()] *)
Definition md5_hexdigest (s : string) : string :=
  foldr (λ b acc, hex_byte b +:+ acc) EmptyString (md5_bytes (encode s)).
End hashlib.

(** The [repr] of a Python float: the double nearest to a rational, and
    the shortest decimal digits that read back as that double. *)
Module pyfloat.
Open Scope Z_scope.

(** [a / b] rounded to the nearest integer, ties to even ([a >= 0], [b > 0]). *)
Definition div_half_even (a b : Z) : Z :=
  let q := a / b in
  let r := a mod b in
  if 2 * r <? b then q
  else if b <? 2 * r then q + 1
  else if Z.even q then q else q + 1.

(** [(a / b) / 2 ^ e], rounded. *)
Definition scale2 (a b e : Z) : Z :=
  if 0 <=? e then div_half_even a (b * 2 ^ e) else div_half_even (a * 2 ^ (- e)) b.

(** [2 ^ x <= a / b] *)
Definition ge_pow2 (a b x : Z) : bool :=
  if 0 <=? x then b * 2 ^ x <=? a else b <=? a * 2 ^ (- x).

(** The double nearest to [a / b] (both positive), as a 53-bit
    significand [m] and an exponent [e]: the value is [m * 2 ^ e].
    [None] is an overflow to infinity. *)
Definition nearest_double (a b : Z) : option (Z * Z) :=
  let L := Z.log2 a - Z.log2 b in
  let ex := if ge_pow2 a b L then L else L - 1 in
  let e := Z.max (ex - 52) (-1074) in
  let m := scale2 a b e in
  let '(m, e) := if m =? 2 ^ 53 then (2 ^ 52, e + 1) else (m, e) in
  if 971 <? e then None else Some (m, e).

(** [a / b < 10 ^ k] *)
Definition lt_pow10 (a b k : Z) : bool :=
  if 0 <=? k then a <? b * 10 ^ k else a * 10 ^ (- k) <? b.

(** The least [k] at or above [k0] with [a / b < 10 ^ k]. *)
Fixpoint decpt_from (fuel : nat) (a b k0 : Z) : Z :=
  match fuel with
  | O => k0
  | S fuel' => if lt_pow10 a b k0 then k0 else decpt_from fuel' a b (k0 + 1)
  end.

Definition decpt (a b : Z) : Z :=
  decpt_from 8 a b ((Z.log2 a - Z.log2 b) * 30103 / 100000 - 2).

(** [c * 10 ^ x] reads back as the double [d]. *)
Definition reads_back (d : Z * Z) (c x : Z) : bool :=
  let r := if 0 <=? x then nearest_double (c * 10 ^ x) 1
           else nearest_double c (10 ^ (- x)) in
  match r with
  | Some (m, e) => (m =? fst d) && (e =? snd d)
  | None => false
  end.

(** With [n] digits: the candidate below and the one above the value
    [a / b], the nearer one first. *)
Definition candidates (a b k : Z) (n : Z) : list Z :=
  let x := k - n in
  let '(num, den) := if 0 <=? x then (a, b * 10 ^ x) else (a * 10 ^ (- x), b) in
  let lo := num / den in
  let r := num mod den in
  if r =? 0 then [lo]
  else if 2 * r <? den then [lo; lo + 1]
  else if den <? 2 * r then [lo + 1; lo]
  else if Z.even lo then [lo; lo + 1] else [lo + 1; lo].

(** The shortest digits: an integer [c] and a power [x] of ten. *)
Fixpoint shortest (fuel : nat) (d : Z * Z) (a b k n : Z) : Z * Z :=
  match fuel with
  | O => (div_half_even a b, 0)
  | S fuel' =>
      match filter (λ c, reads_back d c (k - n) = true) (candidates a b k n) with
      | c :: _ => (c, k - n)
      | [] => shortest fuel' d a b k (n + 1)
      end
  end.

(** Trailing zeros moved into the power of ten. *)
Fixpoint strip_zeros (fuel : nat) (c x : Z) : Z * Z :=
  match fuel with
  | O => (c, x)
  | S fuel' => if (c mod 10 =? 0) && (0 <? c) then strip_zeros fuel' (c / 10) (x + 1)
               else (c, x)
  end.

Definition digit (d : Z) : Ascii.ascii := Ascii.ascii_of_N (Z.to_N (48 + d)).

Fixpoint digits_from (fuel : nat) (c : Z) (acc : string) : string :=
  match fuel with
  | O => acc
  | S fuel' =>
      let acc := String (digit (c mod 10)) acc in
      if c <? 10 then acc else digits_from fuel' (c / 10) acc
  end.

(** The decimal text of a natural number. *)
Definition digits (c : Z) : string :=
  digits_from (S (Z.to_nat (Z.log2 c))) c EmptyString.

(** The decimal text of an integer: [str(n)]. *)
Definition int_repr (n : Z) : string :=
  if n <? 0 then "-" +:+ digits (- n) else digits n.

Definition zeros (n : Z) : string :=
  foldr (λ _ acc, String (digit 0) acc) EmptyString (seq 0 (Z.to_nat n)).

(** The layout of [repr]: digits [ds] with the decimal point after the
    first [dp] of them; exponent form when [dp <= -4] or [dp > 16]. *)
Definition layout (ds : string) (dp : Z) : string :=
  let n := Z.of_nat (String.length ds) in
  if (dp <=? -4) || (16 <? dp) then
     let e := dp - 1 in
     let mant := match ds with
                 | String d1 EmptyString => ds
                 | String d1 rest => String d1 ("." +:+ rest)
                 | EmptyString => ds
                 end in
     let mag := Z.abs e in
     mant +:+ "e" +:+ (if e <? 0 then "-" else "+")
          +:+ (if mag <? 10 then "0" else "") +:+ digits mag
   else if dp <=? 0 then "0." +:+ zeros (- dp) +:+ ds
   else if n <=? dp then ds +:+ zeros (dp - n) +:+ ".0"
   else String.substring 0 (Z.to_nat dp) ds +:+ "."
          +:+ String.substring (Z.to_nat dp) (Z.to_nat (n - dp)) ds.

(** [repr(float(q))] for [q > 0]. *)
Definition repr_pos (a b : Z) : string :=
  match nearest_double a b with
  | None => "inf"
  | Some (m, e) =>
      if m =? 0 then "0.0" else
      let '(va, vb) := if 0 <=? e then (m * 2 ^ e, 1) else (m, 2 ^ (- e)) in
      let k := decpt va vb in
      let '(c, x) := shortest 17 (m, e) va vb k 1 in
      let '(c, x) := strip_zeros 20 c x in
      let ds := digits c in
      layout ds (Z.of_nat (String.length ds) + x)
  end.

(** [repr(float(q))]: the text depends on the value of [q] only, so it
    is computed on the fraction in lowest terms. *)
Definition repr (q : Q) : string :=
  let q := Qred q in
  let a := Qnum q in
  let b := Zpos (Qden q) in
  if a =? 0 then "0.0"
  else if a <? 0 then "-" +:+ repr_pos (- a) b
  else repr_pos a b.
End pyfloat.

(** A stable sort: [before a b] says that [a] must come strictly ahead of
    [b]; elements that neither precedes keep their input order. It stands
    for Python's [sorted] and [list.sort] and for MongoDB's [$sort]. *)
Section StableSort.
Context {A : Type} (before : A → A → bool).

Fixpoint sort_insert (x : A) (l : list A) : list A :=
  match l with
  | [] => [x]
  | y :: l' => if before y x then y :: sort_insert x l' else x :: y :: l'
  end.

Definition stable_sort (l : list A) : list A := foldr sort_insert [] l.
End StableSort.

(** [a < b] on [str]: by code point, which on UTF-8 text is by byte. *)
Fixpoint str_lt (a b : string) : bool :=
  match a, b with
  | EmptyString, EmptyString => false
  | EmptyString, String _ _ => true
  | String _ _, EmptyString => false
  | String x a', String y b' =>
      let nx := Ascii.N_of_ascii x in
      let ny := Ascii.N_of_ascii y in
      if (nx <? ny)%N then true
      else if (ny <? nx)%N then false
      else str_lt a' b'
  end.

(** [sorted(l)] on a list of [str] *)
Definition sorted (l : list string) : list string := stable_sort str_lt l.

(** [s.upper()], on the letters [a] to [z]; other bytes are kept. *)
Definition upper (s : string) : string :=
  String.string_of_list_ascii
    ((λ c, let n := Ascii.N_of_ascii c in
           if ((97 <=? n) && (n <=? 122))%N then Ascii.ascii_of_N (n - 32) else c)
       <$> String.list_ascii_of_string s).

(** [json.dumps] with its defaults ([ensure_ascii], separators [", "] and
    [": "]) on the values the normalized profile holds. *)
Module json.
Open Scope Z_scope.

(** The code points of a UTF-8 text; a byte that starts no well-formed
    sequence stands for itself. *)
Fixpoint code_points (bytes : list Z) : list Z :=
  match bytes with
  | [] => []
  | b :: rest =>
      let cont x := (128 <=? x) && (x <? 192) in
      let one := b :: code_points rest in
      if b <? 192 then one
      else if b <? 224 then
        match rest with
        | b1 :: rest1 =>
            if cont b1 then ((b - 192) * 64 + (b1 - 128)) :: code_points rest1 else one
        | _ => one
        end
      else if b <? 240 then
        match rest with
        | b1 :: b2 :: rest2 =>
            if cont b1 && cont b2
            then ((b - 224) * 4096 + (b1 - 128) * 64 + (b2 - 128)) :: code_points rest2
            else one
        | _ => one
        end
      else if b <? 248 then
        match rest with
        | b1 :: b2 :: b3 :: rest3 =>
            if cont b1 && cont b2 && cont b3
            then ((b - 240) * 262144 + (b1 - 128) * 4096 + (b2 - 128) * 64 + (b3 - 128))
                   :: code_points rest3
            else one
        | _ => one
        end
      else one
  end.

Definition char (c : Z) : string := String (Ascii.ascii_of_N (Z.to_N c)) EmptyString.

(** [\uXXXX] *)
Definition u_escape (c : Z) : string :=
  "\u" +:+ hashlib.hex_byte (c / 256) +:+ hashlib.hex_byte (c mod 256).

Definition escape (c : Z) : string :=
  if c =? 34 then "\" +:+ char 34
  else if c =? 92 then "\\"
  else if c =? 10 then "\n"
  else if c =? 13 then "\r"
  else if c =? 9 then "\t"
  else if c =? 12 then "\f"
  else if c =? 8 then "\b"
  else if (32 <=? c) && (c <=? 126) then char c
  else if c <? 65536 then u_escape c
  else
    let v := c - 65536 in
    u_escape (55296 + v / 1024) +:+ u_escape (56320 + v mod 1024).

Definition dumps_str (s : string) : string :=
  char 34 +:+ foldr (λ c acc, escape c +:+ acc) EmptyString
                    (code_points (hashlib.encode s))
          +:+ char 34.

(** [", ".join(items)] *)
Fixpoint join (sep : string) (items : list string) : string :=
  match items with
  | [] => EmptyString
  | [x] => x
  | x :: rest => x +:+ sep +:+ join sep rest
  end.

Definition dumps_list (l : list string) : string :=
  "[" +:+ join ", " (dumps_str <$> l) +:+ "]".

Definition dumps_bool (b : bool) : string := if b then "true" else "false".

Definition dumps_int (n : Z) : string := pyfloat.int_repr n.

(** A float: its [repr], with [Infinity] for an overflow. *)
Definition dumps_float (q : Q) : string :=
  let r := pyfloat.repr q in
  if String.eqb r "inf" then "Infinity"
  else if String.eqb r "-inf" then "-Infinity"
  else r.
End json.

(** ** The cache key (profile normalizer) *)

(** A number of the normalized profile: the budget amounts are floats,
    the two defaults that replace an absent budget are ints. *)
Inductive pynum :=
  | PyInt (n : Z)
  | PyFloat (q : Q).

(** The dictionary [normalized_profile] of [generate_recommendations]. *)
Record NormalizedProfile := {
  np_purpose : string;
  np_budget_min : pynum;
  np_budget_max : pynum;
  np_performance_level : string;
  np_max_recommendations : nat;
  np_safe_mode : bool;
  np_preferred_brands : list string;
  np_must_have_features : list string
}.

(** [s or dflt] on a [str]: the empty text is falsy. *)
Definition str_or (s dflt : string) : string :=
  if String.eqb s "" then dflt else s.

Definition normalized_profile
    (user_profile : UserProfile.t) (max_recommendations : nat) (safe_mode : bool)
    : NormalizedProfile :=
  {| np_purpose := str_or (UserProfile.purpose user_profile) "general";
     np_budget_min :=
       match UserProfile.budget user_profile with
       | Some b => PyFloat (Budget.min b)
       | None => PyInt 0
       end;
     np_budget_max :=
       match UserProfile.budget user_profile with
       | Some b => PyFloat (Budget.max b)
       | None => PyInt 10000
       end;
     np_performance_level :=
       str_or (UserProfile.performance_level user_profile) "standard";
     np_max_recommendations := max_recommendations;
     np_safe_mode := safe_mode;
     np_preferred_brands :=
       sorted (default [] (UserProfile.preferred_brands user_profile));
     np_must_have_features :=
       sorted (default [] (UserProfile.must_have_features user_profile)) |}.

Definition dumps_num (n : pynum) : string :=
  match n with
  | PyInt n => json.dumps_int n
  | PyFloat q => json.dumps_float q
  end.

(** [json.dumps(normalized_profile, sort_keys=True)] *)
Definition dumps_profile (d : NormalizedProfile) : string :=
  let item key value := json.dumps_str key +:+ ": " +:+ value in
  "{" +:+ json.join ", "
    [ item "budget_max" (dumps_num (np_budget_max d));
      item "budget_min" (dumps_num (np_budget_min d));
      item "max_recommendations"
           (json.dumps_int (Z.of_nat (np_max_recommendations d)));
      item "must_have_features" (json.dumps_list (np_must_have_features d));
      item "performance_level" (json.dumps_str (np_performance_level d));
      item "preferred_brands" (json.dumps_list (np_preferred_brands d));
      item "purpose" (json.dumps_str (np_purpose d));
      item "safe_mode" (json.dumps_bool (np_safe_mode d)) ]
  +:+ "}".

(** [generate_cache_key] of [app/core/cache.py], on positional string
    arguments. *)
Definition generate_cache_key (args : list string) : string :=
  let key_string := json.join "|" args in
  hashlib.md5_hexdigest key_string.

(** The [cache_key] of a request. *)
Definition cache_key
    (user_profile : UserProfile.t) (max_recommendations : nat) (safe_mode : bool)
    : string :=
  generate_cache_key
    ["recommendations";
     dumps_profile (normalized_profile user_profile max_recommendations safe_mode)].

(** ** The result cache: class [Cache], in-memory store

    The module-level [cache = Cache()] has no Redis client. The clock
    reading [now] is an input; only the recommendation lists kept under
    request keys are represented. *)
Module Cache.
Record entry := { value : list Scored.t; expires_at : Z }.

Record t := { default_ttl : Z; memory_cache : gmap string entry }.

Definition _get_cache_key (key : string) : string := "pc_rec:" +:+ key.

(** [get]: an entry past its time is removed and not returned. *)
Definition get (self : t) (now : Z) (key : string)
    : option (list Scored.t) * t :=
  let cache_key := _get_cache_key key in
  match memory_cache self !! cache_key with
  | Some entry =>
      if (now <? expires_at entry)%Z then (Some (value entry), self)
      else (None, {| default_ttl := default_ttl self;
                     memory_cache := delete cache_key (memory_cache self) |})
  | None => (None, self)
  end.

(** [set], with [ttl or self.default_ttl]. *)
Definition set (self : t) (now : Z) (key : string)
    (v : list Scored.t) (ttl : option Z) : t :=
  let cache_key := _get_cache_key key in
  let ttl := match ttl with
             | Some n => if (n =? 0)%Z then default_ttl self else n
             | None => default_ttl self
             end in
  {| default_ttl := default_ttl self;
     memory_cache :=
       <[cache_key := {| value := v; expires_at := (now + ttl)%Z |}]>
         (memory_cache self) |}.

(** [delete] *)
Definition delete (self : t) (key : string) : t :=
  let cache_key := _get_cache_key key in
  {| default_ttl := default_ttl self;
     memory_cache := base.delete cache_key (memory_cache self) |}.

(** [clear_pattern]: every stored key that starts with the prefixed
    pattern is removed. *)
Definition clear_pattern (self : t) (pattern : string) : t :=
  let pattern_key := _get_cache_key pattern in
  {| default_ttl := default_ttl self;
     memory_cache :=
       filter (λ kv, String.prefix pattern_key (fst kv) = false)
              (memory_cache self) |}.

(** [get_or_set]: the stored value when [get] finds one (an empty list
    included, the test being [is not None]), else the value of the
    getter, which is stored. *)
Definition get_or_set (self : t) (now : Z) (key : string)
    (getter_func : unit → list Scored.t) (ttl : option Z)
    : list Scored.t * t :=
  let '(cached_value, self) := get self now key in
  match cached_value with
  | Some v => (v, self)
  | None =>
      let v := getter_func () in
      (v, set self now key v ttl)
  end.
End Cache.

(** ** The catalog store

    A collection is the list of its documents in natural order. *)
Record RecommendationEngine := {
  components_collection : list Component.t;
  configs_collection : list Config.t
}.

(** The aggregation pipeline the engine builds: a price range, the
    purpose whose suitability is read, the two minimum thresholds (absent
    when all optional constraints are removed) and the [$limit]. *)
Record Pipeline := {
  price_gte : Q;
  price_lte : Q;
  purpose_field : string;
  thresholds : option (Q * Q);
  limit : nat
}.

(** The value at a dotted path under a sub-document field; an absent
    value reads as null. *)
Definition path (f : pyfield) (key : string) : pyval :=
  match f with
  | FDict d => default PNone (d !! key)
  | _ => PNone
  end.

(** [{"$exists": True}] *)
Definition exists_ (f : pyfield) : bool :=
  match f with
  | FMissing => false
  | _ => true
  end.

(** [{"$gte": q}]: only a number compares with a number. *)
Definition gte (v : pyval) (q : Q) : bool :=
  match v with
  | PNum x => x >=? q
  | _ => false
  end.

Definition lte (v : pyval) (q : Q) : bool :=
  match v with
  | PNum x => x <=? q
  | _ => false
  end.

Definition price_in_range (lo hi : Q) (c : Config.t) : bool :=
  gte (Config.total_price c) lo && lte (Config.total_price c) hi.

(** The [$match] stage. *)
Definition matches (pl : Pipeline) (c : Config.t) : bool :=
  exists_ (Config.suitability_scores c)
  && exists_ (Config.performance_profile c)
  && price_in_range (price_gte pl) (price_lte pl) c
  && match thresholds pl with
     | Some (min_suitability, min_performance) =>
         gte (path (Config.suitability_scores c) (purpose_field pl)) min_suitability
         && gte (path (Config.performance_profile c) "overall_performance")
                min_performance
     | None => true
     end.

(** [{"$multiply": [field, k]}]: null on a null field, an error of the
    whole aggregation on a string. The outer [option] is the error. *)
Definition multiply (v : pyval) (k : Q) : option (option Q) :=
  match v with
  | PNum x => Some (Some (x * k))
  | PNone => Some None
  | PStr _ => None
  end.

(** The [$addFields] stage: [relevance_score]. [$add] stops at the first
    null operand. *)
Definition relevance_score (pl : Pipeline) (c : Config.t) : option (option Q) :=
  a ← multiply (path (Config.suitability_scores c) (purpose_field pl)) 0.6;
  match a with
  | None => Some None
  | Some a =>
      b ← multiply (path (Config.performance_profile c) "overall_performance") 0.4;
      Some (match b with
            | None => None
            | Some b => Some (a + b)
            end)
  end.

(** The [$sort] stage, [{"relevance_score": -1, "total_price": 1}]: a
    null relevance sorts below every number. *)
Definition sort_before (x y : Config.t * option Q) : bool :=
  let price c := default 0 (as_num (Config.total_price c)) in
  match snd x, snd y with
  | Some rx, Some ry =>
      (rx >? ry) || ((rx =? ry) && (price (fst x) <? price (fst y)))
  | Some _, None => true
  | None, Some _ => false
  | None, None => price (fst x) <? price (fst y)
  end.

(** [collection.aggregate(pipeline).to_list(length=None)]; [None] when the
    server refuses the pipeline. *)
Definition aggregate (collection : list Config.t) (pl : Pipeline)
    : option (list Config.t) :=
  scored ← mapM (λ c, r ← relevance_score pl c; Some (c, r))
                (List.filter (matches pl) collection);
  Some (take (limit pl) (fst <$> stable_sort sort_before scored)).

(** [collection.find({"total_price": ...}).to_list(length=n)] *)
Definition find_by_price (collection : list Config.t) (lo hi : Q) (n : nat)
    : list Config.t :=
  take n (List.filter (price_in_range lo hi) collection).

(** ** Candidate retrieval *)

(** Truthiness of a list and of an optional list. *)
Definition truthy {A : Type} (l : list A) : bool :=
  match l with
  | [] => false
  | _ => true
  end.

Definition truthy_opt {A : Type} (l : option (list A)) : bool :=
  truthy (default [] l).

(** The threshold tables of [generate_recommendations], safe mode. *)
Definition safe_purpose_thresholds (purpose : string) : Q :=
  match purpose with
  | "gaming" => 30 | "creative" => 25 | "programming" => 20
  | "office" => 15 | "general" => 10 | _ => 10
  end%string.

Definition safe_performance_thresholds (level : string) : Q :=
  match level with
  | "basic" => 15 | "standard" => 20 | "high" => 25 | "professional" => 30
  | _ => 15
  end%string.

(** The threshold tables of normal mode, also those of
    [_try_fallback_query]. *)
Definition purpose_thresholds (purpose : string) : Q :=
  match purpose with
  | "gaming" => 60 | "creative" => 55 | "programming" => 50
  | "office" => 45 | "general" => 40 | _ => 40
  end%string.

Definition performance_thresholds (level : string) : Q :=
  match level with
  | "basic" => 30 | "standard" => 45 | "high" => 60 | "professional" => 75
  | _ => 40
  end%string.

(** The loop that removes duplicates by [_id], keeping first occurrences. *)
Fixpoint unique_configs (seen_ids : gset string) (combined : list Config.t)
    : list Config.t :=
  match combined with
  | [] => []
  | config :: rest =>
      let config_id := Config._id config in
      if decide (config_id ∈ seen_ids) then unique_configs seen_ids rest
      else config :: unique_configs ({[config_id]} ∪ seen_ids) rest
  end.

(** The first [try] block of [generate_recommendations]: the primary
    query, the broadened query when it returned fewer than asked, and the
    price-only [find] when the aggregation raised. *)
Definition query_configurations
    (self : RecommendationEngine) (user_profile : UserProfile.t) (b : Budget.t)
    (max_recommendations : nat) (safe_mode : bool) : list Config.t :=
  let collection := configs_collection self in
  try_except
    (let min_suitability :=
       if safe_mode then safe_purpose_thresholds (UserProfile.purpose user_profile)
       else purpose_thresholds (UserProfile.purpose user_profile) in
     let min_performance :=
       if safe_mode
       then safe_performance_thresholds (UserProfile.performance_level user_profile)
       else performance_thresholds (UserProfile.performance_level user_profile) in
     let pipeline :=
       {| price_gte := Budget.min b; price_lte := Budget.max b;
          purpose_field := UserProfile.purpose user_profile;
          thresholds := Some (min_suitability, min_performance);
          limit := max_recommendations + 20 |} in
     configs ← aggregate collection pipeline;
     if (length configs <? max_recommendations)%nat then
       let fallback_min_suitability := py_max 20 (min_suitability - 20) in
       let fallback_min_performance := py_max 20 (min_performance - 20) in
       let fallback_pipeline :=
         {| price_gte := Budget.min b; price_lte := Budget.max b;
            purpose_field := UserProfile.purpose user_profile;
            thresholds := Some (fallback_min_suitability, fallback_min_performance);
            limit := max_recommendations + 15 |} in
       fallback_configs ← aggregate collection fallback_pipeline;
       let combined_configs := configs ++ fallback_configs in
       Some (take (max_recommendations + 20) (unique_configs ∅ combined_configs))
     else Some configs)
    (find_by_price collection (Budget.min b) (Budget.max b)
                   (max_recommendations + 10)).

(** The mark [_try_fallback_query] writes on each configuration it found. *)
Definition fallback_mark
    (user_profile : UserProfile.t) (preferred_brands : option (list string))
    (relaxed_performance expanded_budget no_constraints : bool) : string :=
  if bool_decide (preferred_brands = None)
     && truthy_opt (UserProfile.preferred_brands user_profile)
  then "preferred_brands"
  else if relaxed_performance then "relaxed_performance"
  else if expanded_budget then "expanded_budget"
  else if no_constraints then "no_constraints"
  else "original".

(** [_try_fallback_query]. The argument [preferred_brands] defaults to
    [None]; the value [brands_to_use] the source derives from it takes no
    part in the query. *)
Definition _try_fallback_query
    (self : RecommendationEngine) (user_profile : UserProfile.t)
    (max_recommendations : nat) (preferred_brands : option (list string))
    (relaxed_performance expanded_budget no_constraints : bool)
    : list Config.t :=
  try_except
    (let min_suitability := purpose_thresholds (UserProfile.purpose user_profile) in
     let min_performance :=
       performance_thresholds (UserProfile.performance_level user_profile) in
     let '(min_suitability, min_performance) :=
       if relaxed_performance
       then (py_max 20 (min_suitability - 20), py_max 20 (min_performance - 20))
       else (min_suitability, min_performance) in
     b ← UserProfile.budget user_profile;
     let budget_min := Budget.min b in
     let budget_max := Budget.max b in
     let '(budget_min, budget_max) :=
       if expanded_budget then
         let budget_range := budget_max - budget_min in
         let expansion := inject_Z (py_int (budget_range * 0.15)) in
         (py_max 0 (budget_min - expansion), budget_max + expansion)
       else (budget_min, budget_max) in
     let pipeline :=
       {| price_gte := budget_min; price_lte := budget_max;
          purpose_field := UserProfile.purpose user_profile;
          thresholds := if no_constraints then None
                        else Some (min_suitability, min_performance);
          limit := max_recommendations + 10 |} in
     configs ← aggregate (configs_collection self) pipeline;
     let mark :=
       fallback_mark user_profile preferred_brands
                     relaxed_performance expanded_budget no_constraints in
     Some ((λ config,
              Config.mk (Config._id config) (Config.name config)
                        (Config.total_price config)
                        (Config.suitability_scores config)
                        (Config.performance_profile config)
                        (Config.components config) (Some mark)) <$> configs))
    [].

(** The four stages of the progressive fallback, named as the
    specification names them. *)
Inductive Stage :=
  | RelaxPreferredBrands
  | RelaxPerformance
  | ExpandBudget
  | RemoveAllConstraints.

(** The call each stage makes. *)
Definition fallback_query
    (self : RecommendationEngine) (user_profile : UserProfile.t)
    (max_recommendations : nat) (s : Stage) : list Config.t :=
  match s with
  | RelaxPreferredBrands =>
      _try_fallback_query self user_profile max_recommendations None false false false
  | RelaxPerformance =>
      _try_fallback_query self user_profile max_recommendations None true false false
  | ExpandBudget =>
      _try_fallback_query self user_profile max_recommendations None false true false
  | RemoveAllConstraints =>
      _try_fallback_query self user_profile max_recommendations None false false true
  end.

(** A fallback query that was issued, with what it returned. *)
Record Attempt := { stage : Stage; found : list Config.t }.

(** One [if not configs:] block: issue the stage's query unless
    candidates are at hand, keep its result when it is not empty, and log
    the attempt. *)
Definition attempt
    (self : RecommendationEngine) (user_profile : UserProfile.t)
    (max_recommendations : nat) (s : Stage)
    (st : list Config.t * list Attempt) : list Config.t * list Attempt :=
  let '(configs, log) := st in
  if truthy configs then st else
  let fallback_configs := fallback_query self user_profile max_recommendations s in
  (if truthy fallback_configs then fallback_configs else configs,
   log ++ [{| stage := s; found := fallback_configs |}]).

(** The progressive fallback of [generate_recommendations]: the
    candidates it ends with and the log of the queries it issued. *)
Definition progressive_fallback
    (self : RecommendationEngine) (user_profile : UserProfile.t)
    (max_recommendations : nat) (configs : list Config.t)
    : list Config.t * list Attempt :=
  if truthy configs then (configs, []) else
  let st := (configs, []) in
  let st :=
    if truthy_opt (UserProfile.preferred_brands user_profile)
    then attempt self user_profile max_recommendations RelaxPreferredBrands st
    else st in
  let st := attempt self user_profile max_recommendations RelaxPerformance st in
  let st := attempt self user_profile max_recommendations ExpandBudget st in
  attempt self user_profile max_recommendations RemoveAllConstraints st.

(** ** The scorer *)

Definition _check_budget_constraints (price : Q) (budget : Budget.t) : bool :=
  (Budget.min budget <=? price) && (price <=? Budget.max budget).

(** [_calculate_brand_preference_bonus]. The brand of a component
    document is a text or is missing; a stored null, on which [.upper()]
    raises, is not represented. *)
Definition _calculate_brand_preference_bonus
    (self : RecommendationEngine) (components : list ComponentRef)
    (preferred_brands : list string) : Q :=
  if negb (truthy preferred_brands) then 0 else
  let component_ids := omap component_id components in
  if negb (truthy component_ids) then 0 else
  let component_docs :=
    List.filter (λ doc, bool_decide (Component._id doc ∈ component_ids))
                (components_collection self) in
  let matching_brands :=
    length (List.filter
              (λ doc, bool_decide (upper (default "" (Component.brand doc))
                                     ∈ (upper <$> preferred_brands)))
              component_docs) in
  let total_components := length component_docs in
  if (total_components =? 0)%nat then 0
  else (inject_Z (Z.of_nat matching_brands) / inject_Z (Z.of_nat total_components)) * 100.

(** [config.get(field, {})] followed by the [isinstance(_, dict)] test. *)
Definition get_dict (f : pyfield) : option (gmap string pyval) :=
  match f with
  | FMissing => Some ∅
  | FValue _ => None
  | FDict d => Some d
  end.

(** The note appended for a marked configuration. *)
Definition fallback_note (fallback_type : string) : option Explanation :=
  match fallback_type with
  | "preferred_brands" => Some NoteBrandsRelaxed
  | "relaxed_performance" => Some NotePerformanceRelaxed
  | "expanded_budget" => Some NoteBudgetExpanded
  | "no_constraints" => Some NoteConstraintsRemoved
  | _ => None
  end%string.

(** The brand step shared by both modes, given how the bonus is weighed
    and which text is attached. *)
Definition add_brand_bonus
    (self : RecommendationEngine) (config : Config.t) (user_profile : UserProfile.t)
    (brand_weight_of : Q → Q) (text : Explanation)
    (acc : Q * list MatchReason) : option (Q * list MatchReason) :=
  let '(confidence_score, match_reasons) := acc in
  if truthy_opt (UserProfile.preferred_brands user_profile) then
    let brand_bonus :=
      _calculate_brand_preference_bonus self (Config.components config)
        (default [] (UserProfile.preferred_brands user_profile)) in
    if brand_bonus >? 0 then
      let brand_weight := brand_weight_of brand_bonus in
      r ← new_MatchReason "brand_preference" brand_weight text;
      Some (confidence_score + brand_bonus * brand_weight, match_reasons ++ [r])
    else Some acc
  else Some acc.

(** [_score_configuration]: [None] both for an explicit [return None] and
    for an exception caught by the function's handler. The component
    summaries, which the function fetches for display just before it
    builds its result and which [Scored.t] does not keep, are not
    represented: [_get_component_summaries] returns at once for a
    configuration none of whose components has an id, and otherwise reads
    the component documents (and raises on one whose [price] is a
    number). *)
Definition _score_configuration
    (self : RecommendationEngine) (config : Config.t)
    (user_profile : UserProfile.t) (safe_mode : bool) : option Scored.t :=
  config_price ← as_num (Config.total_price config);
  if config_price <=? 0 then None else
  suitability_scores ← get_dict (Config.suitability_scores config);
  performance_profile ← get_dict (Config.performance_profile config);
  b ← UserProfile.budget user_profile;
  if negb (_check_budget_constraints config_price b) then None else
  '(confidence_score, match_reasons) ←
    (if safe_mode then
       let weights := base_weights in
       let confidence_score := 0 in
       let match_reasons := [] in
       let purpose_score :=
         _calculate_purpose_score_safe (UserProfile.purpose user_profile)
                                       suitability_scores in
       let confidence_score := confidence_score + purpose_score * w_purpose weights in
       r ← new_MatchReason "purpose_alignment" (w_purpose weights) SafeModePurpose;
       let match_reasons := match_reasons ++ [r] in
       let budget_fit := _calculate_budget_fit_safe (PNum config_price) b in
       let confidence_score := confidence_score + budget_fit * w_budget weights in
       r ← new_MatchReason "budget_fit" (w_budget weights) SafeModeBudget;
       let match_reasons := match_reasons ++ [r] in
       let performance_score :=
         _calculate_performance_score_safe
           (UserProfile.performance_level user_profile) performance_profile in
       let confidence_score :=
         confidence_score + performance_score * w_performance weights in
       r ← new_MatchReason "performance_match" (w_performance weights)
                           SafeModePerformance;
       let match_reasons := match_reasons ++ [r] in
       add_brand_bonus self config user_profile
         (λ _, w_brand weights) SafeModeBrands (confidence_score, match_reasons)
     else
       let weights := _calculate_dynamic_weights user_profile in
       let confidence_score := 0 in
       let match_reasons := [] in
       purpose_score ←
         _calculate_purpose_score (UserProfile.purpose user_profile)
                                  suitability_scores;
       '(confidence_score, match_reasons) ←
         (if purpose_score >? 0 then
            r ← new_MatchReason "purpose_alignment" (w_purpose weights)
                  (_generate_purpose_explanation purpose_score);
            Some (confidence_score + purpose_score * w_purpose weights,
                  match_reasons ++ [r])
          else Some (confidence_score, match_reasons));
       let budget_fit := _calculate_budget_fit (PNum config_price) b in
       let confidence_score := confidence_score + budget_fit * w_budget weights in
       r ← new_MatchReason "budget_fit" (w_budget weights)
             (_generate_budget_explanation config_price b);
       let match_reasons := match_reasons ++ [r] in
       let performance_score :=
         _calculate_performance_score
           (UserProfile.performance_level user_profile) performance_profile
           (UserProfile.purpose user_profile) in
       let confidence_score :=
         confidence_score + performance_score * w_performance weights in
       performance_explanation ←
         _generate_performance_explanation performance_profile performance_score;
       r ← new_MatchReason "performance_match" (w_performance weights)
             performance_explanation;
       let match_reasons := match_reasons ++ [r] in
       add_brand_bonus self config user_profile
         (λ brand_bonus, py_min (brand_bonus * 0.1) (w_brand weights))
         IncludesPreferredBrands (confidence_score, match_reasons));
  trade_offs ←
    _identify_trade_offs config_price b performance_profile
      (UserProfile.performance_level user_profile) (UserProfile.purpose user_profile);
  let confidence_score := py_max 0 (py_min 100 confidence_score) in
  match_reasons ←
    match Config._fallback_type config with
    | Some fallback_type =>
        if String.eqb fallback_type "" then Some match_reasons else
        match fallback_note fallback_type with
        | Some text =>
            r ← new_MatchReason "fallback_note" 0.0 text;
            Some (match_reasons ++ [r])
        | None => Some match_reasons
        end
    | None => Some match_reasons
    end;
  Some {| Scored.configuration_id := Config._id config;
          Scored.name := default "Unnamed Configuration" (Config.name config);
          Scored.total_price := config_price;
          Scored.confidence_score := py_round1 confidence_score;
          Scored.match_reasons := match_reasons;
          Scored.trade_offs := trade_offs;
          Scored.fallback_type := Config._fallback_type config |}.

(** ** The engine's operation *)

Inductive exn :=
  | AttributeError
  | ValueError (msg : string).

(** What a call ends with: the ranked list and the cache-hit flag, or an
    exception. *)
Inductive outcome :=
  | Return (recommendations : list Scored.t) (cache_hit : bool)
  | Raise (e : exn).

(** The candidates handed to the scorer: the queries of the first [try]
    block, then the progressive fallback. *)
Definition retrieve
    (self : RecommendationEngine) (user_profile : UserProfile.t) (b : Budget.t)
    (max_recommendations : nat) (safe_mode : bool) : list Config.t * list Attempt :=
  progressive_fallback self user_profile max_recommendations
    (query_configurations self user_profile b max_recommendations safe_mode).

(** The scoring fan-out: a configuration the scorer returns [None] for is
    left out. *)
Definition score_all
    (self : RecommendationEngine) (user_profile : UserProfile.t) (safe_mode : bool)
    (configs : list Config.t) : list Scored.t :=
  omap (λ config, _score_configuration self config user_profile safe_mode) configs.

(** [scored_configs.sort(key=confidence_score, reverse=True)] *)
Definition rank (scored_configs : list Scored.t) : list Scored.t :=
  stable_sort (λ x y, Scored.confidence_score x >? Scored.confidence_score y)
              scored_configs.

(** [generate_recommendations], threading the cache. An absent budget
    makes the log line after the cache lookup raise [AttributeError]. *)
Definition generate_recommendations
    (self : RecommendationEngine) (cache : Cache.t) (now : Z)
    (user_profile : UserProfile.t) (max_recommendations : nat) (safe_mode : bool)
    : outcome * Cache.t :=
  let cache_key := cache_key user_profile max_recommendations safe_mode in
  let '(cached_result, cache) := Cache.get cache now cache_key in
  match UserProfile.budget user_profile with
  | None => (Raise AttributeError, cache)
  | Some b =>
    if truthy_opt cached_result then (Return (default [] cached_result) true, cache)
    else
      let configs := fst (retrieve self user_profile b max_recommendations safe_mode) in
      if negb (truthy configs)
      then (Raise (ValueError "No PC configurations available in the system"), cache)
      else
        let scored_configs := rank (score_all self user_profile safe_mode configs) in
        let top_recommendations :=
          if truthy scored_configs then take max_recommendations scored_configs
          else [] in
        if negb (truthy top_recommendations) && negb (truthy scored_configs)
        then (Raise (ValueError
                "No PC configurations meet the minimum requirements after detailed scoring"),
              cache)
        else
          let top_recommendations :=
            if negb (truthy top_recommendations)
            then take max_recommendations scored_configs
            else top_recommendations in
          (Return top_recommendations false,
           Cache.set cache now cache_key top_recommendations (Some 1800%Z))
  end.

(** ** Properties stated about the engine *)

(** The candidate's price lies within the caller's original bounds. *)
Definition within_budget (b : Budget.t) (r : Scored.t) : Prop :=
  Budget.min b <= Scored.total_price r <= Budget.max b.

(** The cache has nothing usable for the request: the call computes. *)
Definition cache_miss
    (cache : Cache.t) (now : Z) (user_profile : UserProfile.t)
    (max_recommendations : nat) (safe_mode : bool) : Prop :=
  truthy_opt (fst (Cache.get cache now
                     (cache_key user_profile max_recommendations safe_mode))) = false.

(** Two profiles agree on the budget: both lack one, or their minima are
    equal numbers and their maxima are equal numbers. *)
Definition budget_agree (p1 p2 : UserProfile.t) : Prop :=
  match UserProfile.budget p1, UserProfile.budget p2 with
  | Some b1, Some b2 =>
      Budget.min b1 == Budget.min b2 ∧ Budget.max b1 == Budget.max b2
  | None, None => True
  | _, _ => False
  end.

(** [a <= b] on [str]: [b] is not strictly below [a]. *)
Definition str_le (a b : string) : Prop := str_lt b a = false.

(** ** Sample data for the concrete evaluations *)

(** A configuration whose five suitability scores are [suit] and whose
    five performance figures are [perf]. *)
Definition sample_config (id : string) (price suit perf : Q) : Config.t :=
  Config.mk id (Some ("PC " +:+ id)) (PNum price)
    (FDict (list_to_map [("gaming", PNum suit); ("office", PNum suit);
                         ("creative", PNum suit); ("programming", PNum suit);
                         ("general", PNum suit)]))
    (FDict (list_to_map [("overall_performance", PNum perf);
                         ("cpu_performance", PNum perf);
                         ("gpu_performance", PNum perf);
                         ("ram_performance", PNum perf);
                         ("storage_performance", PNum perf)]))
    [] None.

(** A gaming profile at performance level [high]. *)
Definition sample_profile
    (lo hi : Q) (brands : list string) (session : string) : UserProfile.t :=
  UserProfile.mk "gaming" (Some (Budget.mk lo hi)) "high"
                 (Some brands) (Some []) session None.

Definition empty_cache : Cache.t :=
  {| Cache.default_ttl := 3600; Cache.memory_cache := ∅ |}.

(** A catalog of one strong configuration priced 360. *)
Definition catalog_360 : RecommendationEngine :=
  {| components_collection := [];
     configs_collection := [sample_config "c1" 360 90 85] |}.

(** A catalog of one weak configuration priced 1500. *)
Definition catalog_weak : RecommendationEngine :=
  {| components_collection := [];
     configs_collection := [sample_config "c2" 1500 10 10] |}.

(** A catalog of two configurations priced 900 and 1400. *)
Definition catalog_two : RecommendationEngine :=
  {| components_collection := [];
     configs_collection :=
       [sample_config "a" 900 90 85; sample_config "b" 1400 50 60] |}.

(** A catalog of one configuration priced 300 whose CPU figure is a text
    instead of a number. *)
Definition catalog_malformed : RecommendationEngine :=
  {| components_collection := [];
     configs_collection :=
       [ Config.mk "m1" (Some "PC m1") (PNum 300)
           (FDict {["gaming" := PNum 90]})
           (FDict (list_to_map [("overall_performance", PNum 85);
                                ("cpu_performance", PStr "high");
                                ("gpu_performance", PNum 85);
                                ("ram_performance", PNum 85)]))
           [] None ] |}.

(** A catalog of two configurations that differ in their graphics card
    only, one from NVIDIA and one from AMD. *)
Definition catalog_brands : RecommendationEngine :=
  {| components_collection :=
       [ Component.mk "gpu-n" (Some "NVIDIA"); Component.mk "gpu-a" (Some "AMD") ];
     configs_collection :=
       (λ '(id, gpu),
          Config.mk id (Some id) (PNum 1200)
            (FDict {["gaming" := PNum 80]})
            (FDict {["overall_performance" := PNum 80]})
            [ {| component_id := Some gpu |} ] None)
         <$> [("with-amd", "gpu-a"); ("with-nvidia", "gpu-n")] |}.

(** A catalog whose configurations all cost 400 or more. *)
Definition catalog_from_400 : RecommendationEngine :=
  {| components_collection := [];
     configs_collection :=
       [sample_config "d" 400 90 85; sample_config "e" 650 80 80] |}.

(** The list a call returned, if it returned. *)
Definition recommendations_of (o : outcome) : list Scored.t :=
  match o with
  | Return recommendations _ => recommendations
  | Raise _ => []
  end.

(** ** The weight calculator on any profile object

    [_calculate_dynamic_weights] tests its argument with [hasattr] and
    [getattr] and wraps its whole body in a [try]: it is written for a
    profile object of any shape, not only for one that passed the
    validation of the Pydantic models. Here is the function with its
    [try] block on such an object; on a validated profile it is
    [_calculate_dynamic_weights] above. *)

(** What the attribute [budget] may hold: an object with the attributes
    [min] and [max] (as the [Budget] model), a [dict] (the other form the
    helpers of the engine accept), or another value. *)
Inductive BudgetAttribute :=
  | BudgetObject (min max : pyval)
  | BudgetDict (d : gmap string pyval)
  | BudgetValue (v : pyval).

(** A profile object; [None] is an attribute the object does not have. *)
Record ProfileObject := {
  attr_budget : option BudgetAttribute;
  attr_performance_level : option pyval;
  attr_purpose : option pyval
}.

(** [bool(user_profile.budget)] *)
Definition budget_truthy (budget : BudgetAttribute) : bool :=
  match budget with
  | BudgetObject _ _ => true
  | BudgetDict d => truthy (map_to_list d)
  | BudgetValue (PNum q) => negb (q =? 0)
  | BudgetValue (PStr s) => negb (String.eqb s "")
  | BudgetValue PNone => false
  end.

(** [performance_weights.get(level, 0.2)] on a key of any type. *)
Definition performance_weights_get (level : pyval) : Q :=
  match level with
  | PStr level => performance_weights level
  | _ => 0.2
  end.

(** [purpose_weights[purpose]] when [purpose in purpose_weights]. *)
Definition purpose_weights_get (purpose : pyval) : option Weights :=
  match purpose with
  | PStr purpose => purpose_weights purpose
  | _ => None
  end.

(** The body of the [try] block; [None] is an exception. *)
Definition dynamic_weights_body (user_profile : ProfileObject) : option Weights :=
  let weights := base_weights in
  match attr_budget user_profile with
  | None => Some weights
  | Some budget =>
    if negb (budget_truthy budget) then Some weights else
    budget_range ←
      match budget with
      | BudgetObject bmin bmax =>
          bmax ← as_num bmax; bmin ← as_num bmin; Some (bmax - bmin)
      | _ => None
      end;
    let weights :=
      if budget_range <? 500 then
        {| w_purpose := 0.3; w_budget := 0.4; w_performance := 0.2; w_brand := 0.1 |}
      else if budget_range >? 2000 then
        {| w_purpose := 0.4; w_budget := 0.2; w_performance := 0.3; w_brand := 0.1 |}
      else weights in
    let weights :=
      {| w_purpose := w_purpose weights;
         w_budget := w_budget weights;
         w_performance :=
           performance_weights_get
             (default (PStr "standard") (attr_performance_level user_profile));
         w_brand := w_brand weights |} in
    let weights :=
      match attr_purpose user_profile ≫= purpose_weights_get with
      | Some purpose_weight => purpose_weight
      | None => weights
      end in
    let total_weight := weights_sum weights in
    if total_weight >? 0 then
      Some {| w_purpose := w_purpose weights / total_weight;
              w_budget := w_budget weights / total_weight;
              w_performance := w_performance weights / total_weight;
              w_brand := w_brand weights / total_weight |}
    else Some base_weights
  end.

(** [_calculate_dynamic_weights] with its handler, which returns the
    base weights. *)
Definition _calculate_dynamic_weights_try (user_profile : ProfileObject) : Weights :=
  try_except (dynamic_weights_body user_profile) base_weights.

(** The object a validated profile is. *)
Definition profile_object_of (p : UserProfile.t) : ProfileObject :=
  {| attr_budget :=
       Some match UserProfile.budget p with
            | Some b => BudgetObject (PNum (Budget.min b)) (PNum (Budget.max b))
            | None => BudgetValue PNone
            end;
     attr_performance_level := Some (PStr (UserProfile.performance_level p));
     attr_purpose := Some (PStr (UserProfile.purpose p)) |}.

(** ** The store over time

    The budget amounts of a profile are doubles, and the cache key holds
    their [repr]. Reading a float back from its JSON text, [float(s)],
    gives the double nearest to the decimal value. *)

Definition digit_of (c : Ascii.ascii) : option Z :=
  let n := Z.of_N (Ascii.N_of_ascii c) in
  if ((48 <=? n) && (n <=? 57))%Z then Some (n - 48)%Z else None.

(** The leading digits of a text: their value after [acc], their number
    after [count], and the rest of the text. *)
Fixpoint read_digits (s : string) (acc count : Z) : Z * Z * string :=
  match s with
  | String c rest =>
      match digit_of c with
      | Some d => read_digits rest (10 * acc + d)%Z (count + 1)%Z
      | None => (acc, count, s)
      end
  | EmptyString => (acc, count, s)
  end.

(** The double nearest to [c * 10 ^ x] ([c >= 0]), as a rational; [None]
    when it overflows. *)
Definition nearest_decimal (c x : Z) : option Q :=
  if (c =? 0)%Z then Some 0 else
  '(m, e) ← (if (0 <=? x)%Z then pyfloat.nearest_double (c * 10 ^ x) 1
             else pyfloat.nearest_double c (10 ^ (- x)));
  Some (if (0 <=? e)%Z then inject_Z (m * 2 ^ e)
        else inject_Z m / inject_Z (2 ^ (- e))).

(** The text after a first character of the given code, if it has one. *)
Definition after_char (code : Z) (s : string) : option string :=
  match s with
  | String c rest => if (Z.of_N (Ascii.N_of_ascii c) =? code)%Z then Some rest else None
  | EmptyString => None
  end.

(** [float(s)] on the text of a JSON number: a sign, digits, an optional
    fraction, an optional exponent; [None] for any other text and for a
    value beyond the doubles. *)
Definition float_of_text (s : string) : option Q :=
  let '(negative, s) :=
    match after_char 45 s with
    | Some rest => (true, rest)
    | None => (false, s)
    end in
  let '(whole, n, s) := read_digits s 0 0 in
  if (n =? 0)%Z then None else
  let '(c, scale, s) :=
    match after_char 46 s with
    | Some rest => read_digits rest whole 0
    | None => (whole, 0%Z, s)
    end in
  exponent ←
    match s with
    | EmptyString => Some 0%Z
    | _ =>
        rest ← after_char 101 s;
        let '(sign, rest) :=
          match after_char 45 rest, after_char 43 rest with
          | Some rest, _ => ((-1)%Z, rest)
          | None, Some rest => (1%Z, rest)
          | None, None => (1%Z, rest)
          end in
        match read_digits rest 0 0 with
        | (e, n, EmptyString) => if (n =? 0)%Z then None else Some (sign * e)%Z
        | _ => None
        end
    end;
  v ← nearest_decimal c (exponent - scale);
  Some (if negative then - v else v).

(** The number is a double: its JSON text reads back as the number
    itself. Python guarantees this of every double; it fails of a
    rational that is not one, whose text is that of the nearest double. *)
Definition is_double (q : Q) : bool :=
  match float_of_text (json.dumps_float q) with
  | Some q' => q' =? q
  | None => false
  end.

Definition double_budget (b : Budget.t) : Prop :=
  is_double (Budget.min b) = true ∧ is_double (Budget.max b) = true.

(** The text whose MD5 digest is the cache key of a request. *)
Definition key_text
    (user_profile : UserProfile.t) (max_recommendations : nat) (safe_mode : bool)
    : string :=
  json.join "|"
    ["recommendations";
     dumps_profile (normalized_profile user_profile max_recommendations safe_mode)].

(** MD5 gives the two texts different digests, unless they are the same
    text. *)
Definition no_collision (s1 s2 : string) : Prop :=
  hashlib.md5_hexdigest s1 = hashlib.md5_hexdigest s2 → s1 = s2.

(** What changes the store while the service runs: a request the engine
    serves, and the invalidation the feedback route issues. (The entries
    [_get_component_summaries] adds hold no recommendation list and are
    kept under the digests of other texts, which start with
    [component_summaries]; the store here does not hold them.) *)
Inductive Event :=
  | Served (self : RecommendationEngine) (now : Z) (user_profile : UserProfile.t)
           (max_recommendations : nat) (safe_mode : bool)
  | Invalidated (recommendation_id : string).

Definition after_event (cache : Cache.t) (e : Event) : Cache.t :=
  match e with
  | Served self now user_profile max_recommendations safe_mode =>
      snd (generate_recommendations self cache now user_profile
             max_recommendations safe_mode)
  | Invalidated recommendation_id =>
      Cache.clear_pattern cache ("recommendations:" +:+ recommendation_id)
  end.

(** The store after a run of events, from the empty store the service
    starts with ([cache = Cache()]). *)
Definition cache_after (events : list Event) : Cache.t :=
  foldl after_event empty_cache events.

(** The text has no comma. *)
Definition no_comma (s : string) : Prop :=
  Forall (λ c, Ascii.N_of_ascii c ≠ 44%N) (String.list_ascii_of_string s).

(** ** The caller: [app/api/routes/recommendations.py]

    The request is the dictionary [request.dict()]; its values are
    arbitrary Python objects. A float is a finite value ([OFloat]), an
    infinity ([OInf]) or a NaN ([ONaN]); the JSON reader of the
    framework accepts the three. *)

#[warnings="-register-all"]
Inductive pyobj :=
  | ONone
  | OBool (b : bool)
  | OInt (n : Z)
  | OFloat (q : Q)
  | OInf (negative : bool)
  | ONaN
  | OStr (s : string)
  | OList (l : list pyobj)
  | ODict (d : list (string * pyobj)).

(** The value of a Python number: finite, infinite, or not a number. *)
Inductive float_value :=
  | Finite (q : Q)
  | Infinite (negative : bool)
  | NotANumber.

(** [isinstance(v, (int, float))], with the value; a [bool] is an [int]. *)
Definition value_of (v : pyobj) : option float_value :=
  match v with
  | OInt n => Some (Finite (inject_Z n))
  | OFloat q => Some (Finite q)
  | OBool b => Some (Finite (if b then 1 else 0))
  | OInf negative => Some (Infinite negative)
  | ONaN => Some NotANumber
  | _ => None
  end.

(** [a < b] on two numbers: false as soon as one of them is a NaN. *)
Definition float_lt (a b : float_value) : bool :=
  match a, b with
  | Finite x, Finite y => x <? y
  | Finite _, Infinite negative => negb negative
  | Infinite negative, Finite _ => negative
  | Infinite negative_a, Infinite negative_b => negative_a && negb negative_b
  | _, _ => false
  end.

(** The value of a finite number: an [int], a [bool] or a finite
    [float]. *)
Definition number_of (v : pyobj) : option Q :=
  match v with
  | OInt n => Some (inject_Z n)
  | OFloat q => Some q
  | OBool b => Some (if b then 1 else 0)
  | _ => None
  end.

(** [isinstance(v, int)], with the value. *)
Definition int_of (v : pyobj) : option Z :=
  match v with
  | OInt n => Some n
  | OBool b => Some (if b then 1 else 0)%Z
  | _ => None
  end.

(** [d.get(key)] on a dictionary given by its items. *)
Definition item (d : list (string * pyobj)) (key : string) : option pyobj :=
  snd <$> List.find (λ kv, String.eqb (fst kv) key) d.

(** [v in l] for a list [l] of strings. *)
Definition in_strings (v : pyobj) (l : list string) : bool :=
  match v with
  | OStr s => bool_decide (s ∈ l)
  | _ => false
  end.

(** [c.isspace()] on a code point. *)
Definition is_space (c : Z) : bool :=
  ((9 <=? c) && (c <=? 13) || (28 <=? c) && (c <=? 32)
   || (c =? 133) || (c =? 160) || (c =? 5760)
   || (8192 <=? c) && (c <=? 8202)
   || (c =? 8232) || (c =? 8233) || (c =? 8239) || (c =? 8287)
   || (c =? 12288))%Z.

(** Truthiness of [s.strip()]: some character is not white space. *)
Definition strip_truthy (s : string) : bool :=
  existsb (λ c, negb (is_space c)) (json.code_points (hashlib.encode s)).

(** The check of [preferred_brands] and of [must_have_features]: one
    error for a value that is not a list, else one error for each entry
    that is not a non-blank string. *)
Definition validate_strings (name : string) (v : pyobj) : list string :=
  match v with
  | OList l =>
      flat_map (λ entry,
                  match entry with
                  | OStr s => if strip_truthy s then []
                              else [name +:+ " must contain non-empty strings"]
                  | _ => [name +:+ " must contain non-empty strings"]
                  end) l
  | _ => [name +:+ " must be an array of strings"]
  end.

(** The budget part of the validation: the errors, and the budget the
    request holds afterwards (a number is replaced by a dictionary). *)
Definition validate_budget (budget : pyobj) : list string * pyobj :=
  match value_of budget, budget with
  | Some _, _ => ([], ODict [("min", budget); ("max", budget)])
  | None, ODict d =>
      (match item d "min", item d "max" with
       | Some bmin, Some bmax =>
           match value_of bmin, value_of bmax with
           | Some lo, Some hi =>
               if float_lt lo (Finite 0) || float_lt hi lo then ["Invalid budget range"]
               else if float_lt lo (Finite 100) || float_lt (Finite 10000) hi
               then ["Budget must be between $100 and $10,000"]
               else []
           | _, _ => ["Budget min and max must be numbers"]
           end
       | _, _ => ["Budget must have 'min' and 'max' fields"]
       end, budget)
  | None, _ =>
      (["Budget must be a number or an object with 'min' and 'max' fields"], budget)
  end.

Definition valid_purposes : list string :=
  ["gaming"; "office"; "creative"; "programming"; "general"].

Definition valid_levels : list string :=
  ["basic"; "standard"; "high"; "professional"].

(** The blocks of [validate_recommendation_request], each with the
    errors it appends. *)

(** Required fields. *)
Definition validate_required (request : gmap string pyobj) : list string :=
  flat_map (λ field,
              match request !! field with
              | None => ["Missing required field: " +:+ field]
              | Some _ => []
              end) ["purpose"; "budget"].

Definition validate_purpose (request : gmap string pyobj) : list string :=
  match request !! "purpose" with
  | Some purpose =>
      if in_strings purpose valid_purposes then []
      else ["Invalid purpose. Must be one of: " +:+ json.join ", " valid_purposes]
  | None => []
  end.

Definition validate_performance_level (request : gmap string pyobj) : list string :=
  match request !! "performance_level" with
  | None | Some ONone =>
      ["performance_level is required. Must be one of: basic, standard, high, professional"]
  | Some level =>
      if in_strings level valid_levels then []
      else ["Invalid performance_level. Must be one of: "
              +:+ json.join ", " valid_levels]
  end.

Definition validate_max_recommendations (request : gmap string pyobj) : list string :=
  match request !! "max_recommendations" with
  | None | Some ONone => []
  | Some max_rec =>
      match int_of max_rec with
      | Some n =>
          if ((n <? 1) || (10 <? n))%Z
          then ["max_recommendations must be an integer between 1 and 10"]
          else []
      | None => ["max_recommendations must be an integer between 1 and 10"]
      end
  end.

(** The blocks for [preferred_brands] and [must_have_features]. *)
Definition validate_optional_strings
    (name : string) (request : gmap string pyobj) : list string :=
  match request !! name with
  | None | Some ONone => []
  | Some v => validate_strings name v
  end.

(** [validate_recommendation_request]: the list of errors, and the
    request as the function leaves it (a budget given as a number has
    been replaced by a dictionary). *)
Definition validate_recommendation_request (request : gmap string pyobj)
    : list string * gmap string pyobj :=
  let errors := [] in
  let errors := errors ++ validate_required request in
  let errors := errors ++ validate_purpose request in
  let '(errors, request) :=
    match request !! "budget" with
    | Some budget =>
        let '(budget_errors, budget) := validate_budget budget in
        (errors ++ budget_errors, <["budget" := budget]> request)
    | None => (errors, request)
    end in
  let errors := errors ++ validate_performance_level request in
  let errors := errors ++ validate_max_recommendations request in
  let errors := errors ++ validate_optional_strings "preferred_brands" request in
  let errors := errors ++ validate_optional_strings "must_have_features" request in
  (errors, request).

(** ** Predicates used in the statements about the scorer *)

(** Each of the four weights lies in [[0, 1]], the range the
    [MatchReason] model accepts. *)
Definition unit_weights (w : Weights) : Prop :=
  0 <= w_purpose w <= 1 ∧ 0 <= w_budget w <= 1
  ∧ 0 <= w_performance w <= 1 ∧ 0 <= w_brand w <= 1.

(** ** From a request to a profile: [create_user_profile_from_request]

    The Pydantic models coerce field values; how a value that is not of
    the declared type is coerced is left open: [float_of] is the
    validation of a [float] field and [str_of] that of a [str] field. *)

(** [bool(v)] *)
Definition truthy_obj (v : pyobj) : bool :=
  match v with
  | ONone => false
  | OBool b => b
  | OInt n => negb (n =? 0)%Z
  | OFloat q => negb (q =? 0)
  | OInf _ | ONaN => true
  | OStr s => negb (String.eqb s "")
  | OList l => truthy l
  | ODict d => truthy d
  end.

Section Pydantic.
Variable float_of : pyobj → option Q.
Variable str_of : pyobj → option string.

(** [Budget(...)] from a dictionary: [min] and [max] are required and
    must be above zero, [currency] is optional, other keys are ignored. *)
Definition new_Budget (v : pyobj) : option Budget.t :=
  match v with
  | ODict d =>
      bmin ← item d "min";
      bmin ← float_of bmin;
      if negb (bmin >? 0) then None else
      bmax ← item d "max";
      bmax ← float_of bmax;
      if negb (bmax >? 0) then None else
      _ ← match item d "currency" with
          | Some currency => str_of currency
          | None => Some "USD"
          end;
      Some (Budget.mk bmin bmax)
  | _ => None
  end.

(** A field of type [Optional[List[str]]]. *)
Definition optional_strings (v : pyobj) : option (option (list string)) :=
  match v with
  | ONone => Some None
  | OList l => l ← mapM str_of l; Some (Some l)
  | _ => None
  end.

(** [UserProfileCreate(...)], with the two patterns of [UserProfileBase];
    [None] is a validation error. *)
Definition new_UserProfileCreate
    (session_id purpose budget performance_level
     preferred_brands must_have_features : pyobj) : option UserProfile.t :=
  purpose ← str_of purpose;
  if negb (bool_decide (purpose ∈ ["gaming"; "office"; "creative";
                                   "programming"; "general"]))
  then None else
  budget ← new_Budget budget;
  performance_level ← str_of performance_level;
  if negb (bool_decide (performance_level ∈ ["basic"; "standard"; "high";
                                             "professional"]))
  then None else
  preferred_brands ← optional_strings preferred_brands;
  must_have_features ← optional_strings must_have_features;
  session_id ← str_of session_id;
  Some (UserProfile.mk purpose (Some budget) performance_level
          preferred_brands must_have_features session_id None).

(** [create_user_profile_from_request]; [generated] is the text
    [f"session_{datetime.utcnow().timestamp()}"], and [None] stands for
    an exception (a missing key or a validation error). *)
Definition create_user_profile_from_request
    (request : gmap string pyobj) (generated : string) : option UserProfile.t :=
  let session_id :=
    match request !! "session_id" with
    | Some session_id => if truthy_obj session_id then session_id else OStr generated
    | None => OStr generated
    end in
  purpose ← request !! "purpose";
  budget ← request !! "budget";
  performance_level ← request !! "performance_level";
  new_UserProfileCreate session_id purpose budget performance_level
    (default (OList []) (request !! "preferred_brands"))
    (default (OList []) (request !! "must_have_features")).
End Pydantic.

(** The coercion that accepts only a value of the declared type. *)
Definition exact_str (v : pyobj) : option string :=
  match v with
  | OStr s => Some s
  | _ => None
  end.

(** A request whose two budget bounds are [lo] and [hi]. *)
Definition request_with_bounds (lo hi : pyobj) : gmap string pyobj :=
  list_to_map [("purpose", OStr "office");
               ("budget", ODict [("min", lo); ("max", hi)]);
               ("performance_level", OStr "basic")].

(** A request as a client sends it. *)
Definition sample_request (lo hi : Z) : gmap string pyobj :=
  list_to_map [("session_id", ONone); ("purpose", OStr "gaming");
               ("budget", ODict [("min", OInt lo); ("max", OInt hi)]);
               ("performance_level", OStr "high");
               ("preferred_brands", ONone); ("must_have_features", ONone);
               ("max_recommendations", ONone); ("safe_mode", OBool false)].

(** * Proofs *)

(** ** Comparisons and Python's [max], [min] and [abs] *)

Lemma Qltb_spec (x y : Q) : reflect (x < y) (x <? y).
Proof. unfold Qltb. destruct (Qlt_le_dec x y); constructor; lra. Qed.

Lemma Qleb_spec (x y : Q) : reflect (x <= y) (x <=? y).
Proof. unfold Qleb. destruct (Qlt_le_dec y x); constructor; lra. Qed.

Lemma Qeqb_spec (x y : Q) : reflect (x == y) (x =? y).
Proof. unfold Qeqb. destruct (Qeq_dec x y); constructor; assumption. Qed.

(** Case analysis on every comparison of the goal. *)
Ltac qcase :=
  repeat match goal with
  | |- context [Qltb ?x ?y] => destruct (Qltb_spec x y)
  | |- context [Qleb ?x ?y] => destruct (Qleb_spec x y)
  | |- context [Qeqb ?x ?y] => destruct (Qeqb_spec x y)
  end.

Lemma py_max_lb_l (a b : Q) : a <= py_max a b.
Proof. unfold py_max. qcase; lra. Qed.

Lemma py_max_lb_r (a b : Q) : b <= py_max a b.
Proof. unfold py_max. qcase; lra. Qed.

Lemma py_min_ub_l (a b : Q) : py_min a b <= a.
Proof. unfold py_min. qcase; lra. Qed.

Lemma truthy_false {A : Type} (l : list A) : truthy l = false ↔ l = [].
Proof. by destruct l. Qed.

Lemma truthy_true {A : Type} (l : list A) : truthy l = true ↔ l ≠ [].
Proof. by destruct l. Qed.

(** ** Sub-scores *)

(** The lower clamp of the normal-mode budget fit holds on every input. *)
Lemma budget_fit_nonneg (price : pyval) (b : Budget.t) :
  0 <= _calculate_budget_fit price b.
Proof.
  unfold _calculate_budget_fit.
  destruct (as_num price) as [q|]; [|lra].
  destruct (q <? 0); [lra|].
  destruct (_ || _); [lra|].
  destruct (_ <=? 0); [destruct (_ =? _); lra|].
  destruct (_ <=? 0); [lra|].
  match goal with
  | |- context [py_max 0 ?e] =>
      pose proof (py_max_lb_l 0 e); generalize dependent (py_max 0 e)
  end.
  intros fit_score Hfit.
  destruct (_ <? _); [|destruct (_ <? _)]; unfold py_min; qcase; lra.
Qed.

(** With a bonus the result is clamped at 100. *)
Lemma budget_fit_bonus_clamped (price : Q) (b : Budget.t) :
  py_abs (price - Budget.min b) < (Budget.max b - Budget.min b) * 0.1
  ∨ py_abs (price - Budget.max b) < (Budget.max b - Budget.min b) * 0.1 →
  _calculate_budget_fit (PNum price) b <= 100.
Proof.
  intros Hnear. unfold _calculate_budget_fit. simpl.
  destruct (price <? 0); [lra|].
  destruct (_ || _); [lra|].
  destruct (_ <=? 0); [destruct (_ =? _); lra|].
  destruct (_ <=? 0); [lra|].
  destruct (Qltb_spec (py_abs (price - Budget.min b))
                      ((Budget.max b - Budget.min b) * 0.1)) as [|Hn1];
    [apply py_min_ub_l|].
  destruct (Qltb_spec (py_abs (price - Budget.max b))
                      ((Budget.max b - Budget.min b) * 0.1)) as [|Hn2];
    [apply py_min_ub_l|].
  destruct Hnear; contradiction.
Qed.

(** Invalid bounds give 0, whatever the price. *)
Lemma budget_fit_invalid_bounds (price : pyval) (b : Budget.t) :
  Budget.max b <= Budget.min b ∨ Budget.min b < 0 ∨ Budget.max b < 0 →
  _calculate_budget_fit price b = 0.
Proof.
  intros H. unfold _calculate_budget_fit.
  destruct (as_num price) as [q|]; [|done].
  destruct (q <? 0); [done|].
  destruct (Qleb_spec (Budget.max b) (Budget.min b)),
           (Qltb_spec (Budget.min b) 0), (Qltb_spec (Budget.max b) 0);
    simpl; try done.
  exfalso. destruct H as [?|[?|?]]; lra.
Qed.

(** On valid bounds and a price that is not negative, the function is the
    centering score scaled by the tightness factor and floored at 0, with
    the bonus and the cap at 100 in the two bonus branches only. *)
Lemma budget_fit_valid_bounds (price : Q) (b : Budget.t) :
  0 <= price → 0 <= Budget.min b → Budget.min b < Budget.max b →
  _calculate_budget_fit (PNum price) b
  = (let budget_range := Budget.max b - Budget.min b in
     let tightness_factor := py_max 0.5 (py_min 2.0 (1000 / budget_range)) in
     let center := (Budget.min b + Budget.max b) / 2 in
     let centering := 100 * (1 - py_abs (price - center) / (budget_range / 2)) in
     let fit_score := py_max 0 (centering * tightness_factor) in
     if py_abs (price - Budget.min b) <? budget_range * 0.1
     then py_min 100 (fit_score + 15)
     else if py_abs (price - Budget.max b) <? budget_range * 0.1
     then py_min 100 (fit_score + 10)
     else fit_score).
Proof.
  intros Hp Hmin Hlt. unfold _calculate_budget_fit. simpl.
  destruct (Qltb_spec price 0); [lra|].
  destruct (Qleb_spec (Budget.max b) (Budget.min b)); [lra|].
  destruct (Qltb_spec (Budget.min b) 0); [lra|].
  destruct (Qltb_spec (Budget.max b) 0); [lra|]. simpl.
  destruct (Qleb_spec (Budget.max b - Budget.min b) 0); [lra|].
  destruct (Qleb_spec ((Budget.max b - Budget.min b) / 2) 0) as [Hhalf|_];
    [|reflexivity].
  exfalso. revert Hhalf. unfold Qdiv. intros Hhalf.
  assert (0 < (Budget.max b - Budget.min b) * / 2); [|lra].
  apply Qmult_lt_0_compat; [lra|]. reflexivity.
Qed.

(** C4. The claim bounds the normal-mode budget fit by 100 on every input
    with valid bounds. On the price 1200 against the budget 1000 to 1400
    the range is 400, the tightness factor is 2, the price sits on the
    centre and no bonus applies: the function returns 200, which is above
    100. *)
Theorem budget_fit_above_100 :
  _calculate_budget_fit (PNum 1200) (Budget.mk 1000 1400) == 200
  ∧ ¬ (_calculate_budget_fit (PNum 1200) (Budget.mk 1000 1400) <= 100).
Proof. split; vm_compute; [reflexivity | intros H; apply H; reflexivity]. Qed.

(** C7. In safe mode every sub-score is at least its floor, on every
    input and on the path through each function's handler: purpose at
    least 60, budget fit at least 60, performance at least 65. *)
Theorem safe_mode_floors
    (purpose required_level : string)
    (suitability_scores performance_profile : gmap string pyval)
    (price : pyval) (budget : Budget.t) :
  60 <= _calculate_purpose_score_safe purpose suitability_scores
  ∧ 60 <= _calculate_budget_fit_safe price budget
  ∧ 65 <= _calculate_performance_score_safe required_level performance_profile.
Proof.
  repeat split.
  - unfold _calculate_purpose_score_safe, try_except.
    destruct (as_num _) as [q|]; simpl; [apply py_max_lb_l | lra].
  - unfold _calculate_budget_fit_safe, try_except.
    destruct (as_num price) as [q|]; simpl; [|lra].
    destruct (q <? _); simpl; [lra|].
    destruct (q >? _); simpl; [lra|].
    destruct (_ =? 0); simpl; [lra|].
    match goal with |- _ <= py_max 70 ?e => pose proof (py_max_lb_l 70 e) end. lra.
  - unfold _calculate_performance_score_safe, try_except.
    destruct (as_num _) as [q|]; simpl; [|lra].
    destruct (q >=? _); simpl.
    { pose proof (py_max_lb_l 85 (py_min 100 q)). lra. }
    destruct (q >=? _); simpl; [lra|].
    destruct (q >=? _); simpl; lra.
Qed.

(** The handlers of the three safe sub-scores are reached by a value that
    is not a number, and return 70, 75 and 70. *)
Example safe_mode_handlers :
  _calculate_purpose_score_safe "gaming" {["gaming" := PStr "high"]} = 70
  ∧ _calculate_budget_fit_safe PNone (Budget.mk 200 350) = 75
  ∧ _calculate_performance_score_safe "high" {["overall_performance" := PNone]} = 70.
Proof. split_and!; vm_compute; reflexivity. Qed.

(** ** Dynamic weights *)

Lemma weights_sum_base : weights_sum base_weights == 1.
Proof. vm_compute. reflexivity. Qed.

Lemma normalized_sum (a b c d : Q) :
  0 < 0 + a + b + c + d →
  0 + a / (0 + a + b + c + d) + b / (0 + a + b + c + d)
    + c / (0 + a + b + c + d) + d / (0 + a + b + c + d) == 1.
Proof. intros H. field. lra. Qed.

Lemma dynamic_weights_body_sum (o : ProfileObject) (w : Weights) :
  dynamic_weights_body o = Some w → weights_sum w == 1.
Proof.
  unfold dynamic_weights_body.
  destruct (attr_budget o) as [budget|];
    [|intros [= <-]; apply weights_sum_base].
  destruct (budget_truthy budget); simpl;
    [|intros [= <-]; apply weights_sum_base].
  match goal with |- mbind _ ?m = _ → _ => destruct m as [budget_range|] end;
    simpl; [|done].
  match goal with |- context [Qltb 0 (weights_sum ?w)] => generalize w end.
  intros w0. destruct (Qltb_spec 0 (weights_sum w0)) as [Hpos|_];
    intros [= <-]; [|apply weights_sum_base].
  unfold weights_sum in *; simpl. apply normalized_sum, Hpos.
Qed.

Lemma dynamic_weights_body_None (o : ProfileObject) :
  dynamic_weights_body o = None
  ↔ ∃ budget, attr_budget o = Some budget ∧ budget_truthy budget = true
              ∧ ∀ bmin bmax, budget ≠ BudgetObject (PNum bmin) (PNum bmax).
Proof.
  unfold dynamic_weights_body. split.
  - destruct (attr_budget o) as [budget|]; [|done].
    destruct (budget_truthy budget) eqn:Ht; simpl; [|done].
    intros H. exists budget. split_and!; [done..|].
    intros bmin bmax ->. simpl in H.
    match type of H with (if ?c then _ else _) = _ => by destruct c end.
  - intros (budget & -> & -> & Hne). simpl.
    destruct budget as [[bmin| |] [bmax| |]| |]; try done.
    by destruct (Hne bmin bmax).
Qed.

Lemma dynamic_weights_of_profile (p : UserProfile.t) :
  _calculate_dynamic_weights_try (profile_object_of p) = _calculate_dynamic_weights p.
Proof.
  unfold _calculate_dynamic_weights_try, dynamic_weights_body, profile_object_of,
    _calculate_dynamic_weights, try_except.
  destruct (UserProfile.budget p) as [b|]; simpl; [|done].
  match goal with |- context [Qltb 0 ?t] => by destruct (Qltb 0 t) end.
Qed.

(** C8, as amended. The weight calculator, with its handler, on a
    profile object of any shape: it returns (it is a total function) four
    weights that sum to 1, hence within 1e-6 of it; it returns the base
    weights when the object has no budget attribute, when that attribute
    is falsy, and whenever the body raises. The body raises exactly when
    the budget is truthy and is not an object whose [min] and [max] are
    numbers. A budget object with numeric bounds is not checked further,
    as the counterexample after the theorem shows. On a validated profile
    the function is [_calculate_dynamic_weights]. *)
Theorem dynamic_weights_sum_one (o : ProfileObject) :
  weights_sum (_calculate_dynamic_weights_try o) == 1
  ∧ py_abs (weights_sum (_calculate_dynamic_weights_try o) - 1) <= 0.000001
  ∧ (attr_budget o = None → _calculate_dynamic_weights_try o = base_weights)
  ∧ (∀ budget, attr_budget o = Some budget → budget_truthy budget = false →
       _calculate_dynamic_weights_try o = base_weights)
  ∧ (dynamic_weights_body o = None → _calculate_dynamic_weights_try o = base_weights)
  ∧ (dynamic_weights_body o = None
     ↔ ∃ budget, attr_budget o = Some budget ∧ budget_truthy budget = true
                 ∧ ∀ bmin bmax, budget ≠ BudgetObject (PNum bmin) (PNum bmax))
  ∧ (∀ p, o = profile_object_of p →
          _calculate_dynamic_weights_try o = _calculate_dynamic_weights p).
Proof.
  assert (Hsum : weights_sum (_calculate_dynamic_weights_try o) == 1).
  { unfold _calculate_dynamic_weights_try, try_except.
    destruct (dynamic_weights_body o) as [w|] eqn:E; simpl;
      [by eapply dynamic_weights_body_sum | apply weights_sum_base]. }
  split_and!.
  - exact Hsum.
  - unfold py_abs. qcase; lra.
  - intros Hb. unfold _calculate_dynamic_weights_try, dynamic_weights_body.
    by rewrite Hb.
  - intros budget Hb Ht. unfold _calculate_dynamic_weights_try, dynamic_weights_body.
    by rewrite Hb, Ht.
  - intros E. unfold _calculate_dynamic_weights_try. by rewrite E.
  - apply dynamic_weights_body_None.
  - intros p ->. apply dynamic_weights_of_profile.
Qed.

(** A validated profile with a budget of 1000 to 1400 and the purpose
    gaming; an object whose budget is a [dict], on which the body raises
    [AttributeError]; an object whose bounds are texts, on which it
    raises [TypeError]; an object with no budget attribute. *)
Lemma dynamic_weights_sum_one_witness :
  (weights_sum (_calculate_dynamic_weights_try
                  (profile_object_of (sample_profile 1000 1400 [] "s1"))) == 1
   ∧ _calculate_dynamic_weights_try (profile_object_of (sample_profile 1000 1400 [] "s1"))
     = _calculate_dynamic_weights (sample_profile 1000 1400 [] "s1")
   ∧ Qred (w_purpose (_calculate_dynamic_weights (sample_profile 1000 1400 [] "s1")))
     = Qred 0.45)
  ∧ _calculate_dynamic_weights_try
      {| attr_budget := Some (BudgetDict {["min" := PNum 1000; "max" := PNum 1400]});
         attr_performance_level := Some (PStr "high");
         attr_purpose := Some (PStr "gaming") |}
    = base_weights
  ∧ _calculate_dynamic_weights_try
      {| attr_budget := Some (BudgetObject (PStr "1000") (PStr "1400"));
         attr_performance_level := Some (PStr "high");
         attr_purpose := Some (PStr "gaming") |}
    = base_weights
  ∧ _calculate_dynamic_weights_try
      {| attr_budget := None;
         attr_performance_level := None;
         attr_purpose := Some (PStr "office") |}
    = base_weights.
Proof.
  split_and!.
  - apply (dynamic_weights_sum_one
             (profile_object_of (sample_profile 1000 1400 [] "s1"))).
  - pose proof (dynamic_weights_sum_one
                  (profile_object_of (sample_profile 1000 1400 [] "s1")))
      as (_ & _ & _ & _ & _ & _ & H).
    by apply H.
  - vm_compute. reflexivity.
  - pose proof (dynamic_weights_sum_one
                  {| attr_budget :=
                       Some (BudgetDict {["min" := PNum 1000; "max" := PNum 1400]});
                     attr_performance_level := Some (PStr "high");
                     attr_purpose := Some (PStr "gaming") |})
      as (_ & _ & _ & _ & H & _).
    apply H. vm_compute. reflexivity.
  - pose proof (dynamic_weights_sum_one
                  {| attr_budget := Some (BudgetObject (PStr "1000") (PStr "1400"));
                     attr_performance_level := Some (PStr "high");
                     attr_purpose := Some (PStr "gaming") |})
      as (_ & _ & _ & _ & H & _).
    apply H. vm_compute. reflexivity.
  - pose proof (dynamic_weights_sum_one
                  {| attr_budget := None;
                     attr_performance_level := None;
                     attr_purpose := Some (PStr "office") |})
      as (_ & _ & H & _).
    apply H. reflexivity.
Defined.

(** C8, the claim as stated fails: a budget whose minimum exceeds its
    maximum is present, so it is not caught by the absence test; its
    negative range takes the tight-budget rule and the purpose table, and
    the weights returned are not the base weights. *)
Lemma invalid_budget_not_base_weights :
  ¬ (∀ (p : UserProfile.t) (b : Budget.t),
       UserProfile.budget p = Some b →
       Budget.max b < Budget.min b →
       w_purpose (_calculate_dynamic_weights p) == w_purpose base_weights
       ∧ w_budget (_calculate_dynamic_weights p) == w_budget base_weights
       ∧ w_performance (_calculate_dynamic_weights p) == w_performance base_weights
       ∧ w_brand (_calculate_dynamic_weights p) == w_brand base_weights).
Proof.
  intros H.
  destruct (H (sample_profile 2000 1000 [] "s1") (Budget.mk 2000 1000))
    as (Hp & _); [reflexivity | reflexivity |].
  vm_compute in Hp. discriminate.
Qed.

(** ** Sorting *)

Section StableSortFacts.
Context {A : Type} (before : A → A → bool).

Lemma sort_insert_perm (x : A) (l : list A) : sort_insert before x l ≡ₚ x :: l.
Proof.
  induction l as [|y l IH]; simpl; [done|].
  destruct (before y x); [|done].
  rewrite IH. apply Permutation_swap.
Qed.

Lemma stable_sort_perm (l : list A) : stable_sort before l ≡ₚ l.
Proof.
  induction l as [|x l IH]; simpl; [done|].
  rewrite sort_insert_perm. by rewrite IH.
Qed.
End StableSortFacts.

Lemma N_of_ascii_inj (x y : Ascii.ascii) :
  Ascii.N_of_ascii x = Ascii.N_of_ascii y → x = y.
Proof.
  intros H.
  rewrite <- (Ascii.ascii_N_embedding x), <- (Ascii.ascii_N_embedding y).
  by rewrite H.
Qed.

(** Case analysis on the two byte comparisons of [str_lt]. *)
Ltac bytes x y :=
  destruct (N.ltb_spec (Ascii.N_of_ascii x) (Ascii.N_of_ascii y)),
           (N.ltb_spec (Ascii.N_of_ascii y) (Ascii.N_of_ascii x)).

Lemma str_lt_asym (a b : string) : str_lt a b = true → str_lt b a = false.
Proof.
  revert b. induction a as [|x a IH]; intros [|y b]; simpl; try done.
  bytes x y; try done; try lia. apply IH.
Qed.

#[local] Instance str_le_trans : Transitive str_le.
Proof.
  unfold str_le. intros a.
  induction a as [|x a IH]; intros [|y b] [|z c]; simpl; try done.
  bytes x y; bytes y z; bytes x z; try done; try lia. apply IH.
Qed.

#[local] Instance str_le_antisym : AntiSymm (=) str_le.
Proof.
  unfold str_le. intros a. induction a as [|x a IH]; intros [|y b]; simpl; try done.
  bytes x y; try done; try lia.
  intros H1 H2. f_equal; [apply N_of_ascii_inj; lia | by apply IH].
Qed.

Lemma sort_insert_sorted (x : string) (l : list string) :
  Sorted str_le l → Sorted str_le (sort_insert str_lt x l).
Proof.
  induction 1 as [|y l Hs IH Hhd]; simpl.
  - by repeat constructor.
  - destruct (str_lt y x) eqn:Hyx.
    + constructor; [done|].
      destruct l as [|z l]; simpl in *.
      * constructor. by apply str_lt_asym.
      * destruct (str_lt z x); constructor.
        -- by inversion Hhd.
        -- by apply str_lt_asym.
    + constructor; [by constructor|]. by constructor.
Qed.

Lemma sorted_Sorted (l : list string) : Sorted str_le (sorted l).
Proof.
  induction l as [|x l IH]; simpl; [constructor|].
  by apply sort_insert_sorted.
Qed.

(** [sorted] does not depend on the order of its input. *)
Lemma sorted_perm_eq (l1 l2 : list string) : l1 ≡ₚ l2 → sorted l1 = sorted l2.
Proof.
  intros H. apply (Sorted_unique str_le); try apply sorted_Sorted.
  unfold sorted. by rewrite !stable_sort_perm.
Qed.

(** ** The cache key *)

(** The MD5 model on the test suite of RFC 1321. *)
Example md5_test_suite :
  hashlib.md5_hexdigest "" = "d41d8cd98f00b204e9800998ecf8427e"
  ∧ hashlib.md5_hexdigest "abc" = "900150983cd24fb0d6963f7d28e17f72"
  ∧ hashlib.md5_hexdigest "message digest" = "f96b697d7cb7938d525a2f31aaf161d0"
  ∧ hashlib.md5_hexdigest
      "12345678901234567890123456789012345678901234567890123456789012345678901234567890"
    = "57edf4a22be3c955ac49da2e2107b67a".
Proof. split_and!; vm_compute; reflexivity. Qed.

(** The float texts of a few amounts. *)
Example float_repr_samples :
  pyfloat.repr <$> [200; 350; 999.99; 0.1; 1 / 3; 10000000000000000]
  = ["200.0"; "350.0"; "999.99"; "0.1"; "0.3333333333333333"; "1e+16"].
Proof. vm_compute. reflexivity. Qed.

(** The text that is hashed for a sample request. *)
Example dumps_profile_sample :
  dumps_profile (normalized_profile (sample_profile 200 350 ["NVIDIA"; "AMD"] "s1") 3 false)
  = "{" +:+ json.join ", "
      [ json.dumps_str "budget_max" +:+ ": 350.0";
        json.dumps_str "budget_min" +:+ ": 200.0";
        json.dumps_str "max_recommendations" +:+ ": 3";
        json.dumps_str "must_have_features" +:+ ": []";
        json.dumps_str "performance_level" +:+ ": " +:+ json.dumps_str "high";
        json.dumps_str "preferred_brands" +:+ ": ["
          +:+ json.dumps_str "AMD" +:+ ", " +:+ json.dumps_str "NVIDIA" +:+ "]";
        json.dumps_str "purpose" +:+ ": " +:+ json.dumps_str "gaming";
        json.dumps_str "safe_mode" +:+ ": false" ] +:+ "}"
  ∧ cache_key (sample_profile 200 350 ["NVIDIA"; "AMD"] "s1") 3 false
    = "0cb867c8d604954c34b7c922ba175996".
Proof. split; vm_compute; reflexivity. Qed.

(** The text of a float depends on its value only. *)
Lemma dumps_float_Qeq (q1 q2 : Q) :
  q1 == q2 → json.dumps_float q1 = json.dumps_float q2.
Proof.
  intros H. unfold json.dumps_float, pyfloat.repr.
  by rewrite (Qred_complete _ _ H).
Qed.

Lemma normalized_budget_agree
    (p1 p2 : UserProfile.t) (m : nat) (s : bool) :
  budget_agree p1 p2 →
  dumps_num (np_budget_min (normalized_profile p1 m s))
  = dumps_num (np_budget_min (normalized_profile p2 m s))
  ∧ dumps_num (np_budget_max (normalized_profile p1 m s))
    = dumps_num (np_budget_max (normalized_profile p2 m s)).
Proof.
  unfold budget_agree, normalized_profile. simpl.
  destruct (UserProfile.budget p1), (UserProfile.budget p2); try done.
  intros [Hmin Hmax]. simpl. split; by apply dumps_float_Qeq.
Qed.

(** C9, as amended. Two requests whose profiles agree on purpose, budget
    minimum and maximum and performance level, whose brand lists and
    whose feature lists are rearrangements of one another (the same
    entries, each as many times), and that use the same limit and mode,
    have the same cache key, whatever their session and user
    identifiers. *)
Theorem cache_key_order_independent
    (p1 p2 : UserProfile.t) (max_recommendations : nat) (safe_mode : bool) :
  UserProfile.purpose p1 = UserProfile.purpose p2 →
  budget_agree p1 p2 →
  UserProfile.performance_level p1 = UserProfile.performance_level p2 →
  default [] (UserProfile.preferred_brands p1)
    ≡ₚ default [] (UserProfile.preferred_brands p2) →
  default [] (UserProfile.must_have_features p1)
    ≡ₚ default [] (UserProfile.must_have_features p2) →
  cache_key p1 max_recommendations safe_mode
  = cache_key p2 max_recommendations safe_mode.
Proof.
  intros Hp Hb Hl Hbr Hf. unfold cache_key. do 3 f_equal.
  destruct (normalized_budget_agree p1 p2 max_recommendations safe_mode Hb)
    as [Hmin Hmax].
  unfold dumps_profile. rewrite Hmin, Hmax.
  unfold normalized_profile. simpl. rewrite Hp, Hl.
  by rewrite (sorted_perm_eq _ _ Hbr), (sorted_perm_eq _ _ Hf).
Qed.

Lemma cache_key_order_independent_witness :
  cache_key (UserProfile.mk "gaming" (Some (Budget.mk 200 350)) "high"
               (Some ["NVIDIA"; "AMD"]) (Some ["wifi"; "rgb"]) "session-1" None)
            3 false
  = cache_key (UserProfile.mk "gaming" (Some (Budget.mk (400 # 2) 350.0)) "high"
                 (Some ["AMD"; "NVIDIA"]) (Some ["rgb"; "wifi"]) "session-2"
                 (Some "user-7"))
              3 false.
Proof.
  apply cache_key_order_independent.
  - reflexivity.
  - split; reflexivity.
  - reflexivity.
  - apply Permutation_swap.
  - apply Permutation_swap.
Defined.

(** The two keys of that pair of requests. *)
Example cache_key_duplicate_brand_keys :
  cache_key (sample_profile 200 350 ["NVIDIA"; "NVIDIA"] "s1") 3 false
  = "895d6ee86847183af39e1fa668114a3d"
  ∧ cache_key (sample_profile 200 350 ["NVIDIA"] "s1") 3 false
    = "f0d055a9530dcefe295219a99b5f5264".
Proof. split; vm_compute; reflexivity. Qed.

(** C9, the claim as stated fails: a brand listed twice and the same brand
    listed once are the same set of brands, yet [sorted] keeps the
    repetition, the two JSON texts differ and so do the two keys. *)
Lemma cache_key_duplicate_brand :
  ¬ (∀ (p1 p2 : UserProfile.t) (max_recommendations : nat) (safe_mode : bool),
       UserProfile.purpose p1 = UserProfile.purpose p2 →
       budget_agree p1 p2 →
       UserProfile.performance_level p1 = UserProfile.performance_level p2 →
       (∀ x, x ∈ default [] (UserProfile.preferred_brands p1)
             ↔ x ∈ default [] (UserProfile.preferred_brands p2)) →
       (∀ x, x ∈ default [] (UserProfile.must_have_features p1)
             ↔ x ∈ default [] (UserProfile.must_have_features p2)) →
       cache_key p1 max_recommendations safe_mode
       = cache_key p2 max_recommendations safe_mode).
Proof.
  intros H.
  destruct cache_key_duplicate_brand_keys as [E1 E2].
  assert (Hk : cache_key (sample_profile 200 350 ["NVIDIA"; "NVIDIA"] "s1") 3 false
               = cache_key (sample_profile 200 350 ["NVIDIA"] "s1") 3 false).
  { apply H.
    - reflexivity.
    - split; reflexivity.
    - reflexivity.
    - intros x. simpl. rewrite !elem_of_cons. tauto.
    - intros x. reflexivity. }
  congruence.
Qed.

(** ** The progressive fallback *)

(** C6. Whenever the log of fallback queries contains an attempt [a], the
    strict (and broadened) query had returned nothing, every attempt
    logged before [a] had returned nothing, [a] holds what its stage's
    query returned, and the stages of the log follow the order
    RelaxPreferredBrands, RelaxPerformance, ExpandBudget,
    RemoveAllConstraints without repetition. *)
Theorem fallback_order
    (self : RecommendationEngine) (user_profile : UserProfile.t) (b : Budget.t)
    (max_recommendations : nat) (safe_mode : bool)
    (before : list Attempt) (a : Attempt) (after : list Attempt) :
  snd (retrieve self user_profile b max_recommendations safe_mode)
  = before ++ a :: after →
  query_configurations self user_profile b max_recommendations safe_mode = []
  ∧ Forall (λ a', found a' = []) before
  ∧ found a = fallback_query self user_profile max_recommendations (stage a)
  ∧ sublist (stage <$> before ++ a :: after)
            [RelaxPreferredBrands; RelaxPerformance; ExpandBudget;
             RemoveAllConstraints].
Proof.
  unfold retrieve, progressive_fallback, attempt.
  generalize (query_configurations self user_profile b max_recommendations safe_mode)
    as strict.
  generalize (fallback_query self user_profile max_recommendations) as q.
  intros q strict.
  destruct strict as [|c strict]; simpl; [|by destruct before].
  destruct (truthy_opt (UserProfile.preferred_brands user_profile)); simpl;
    repeat match goal with
    | |- context [truthy (q ?s)] =>
        let E := fresh "E" in
        destruct (truthy (q s)) eqn:E; simpl; [|apply truthy_false in E]
    end;
    intros Hlog;
    repeat (destruct before as [|? before]; simplify_eq/=);
    split_and!; repeat constructor; try done;
    try (by repeat (apply sublist_skip || apply sublist_cons || apply sublist_nil)).
Qed.

(** The log of the sample request against the catalog of one
    configuration priced 360. *)
Example fallback_log_360 :
  snd (retrieve catalog_360 (sample_profile 200 350 [] "s1") (Budget.mk 200 350) 3 false)
  = [ {| stage := RelaxPerformance; found := [] |} ]
    ++ {| stage := ExpandBudget;
          found := fallback_query catalog_360 (sample_profile 200 350 [] "s1") 3
                     ExpandBudget |} :: [].
Proof. vm_compute. reflexivity. Qed.

Lemma fallback_order_witness :
  query_configurations catalog_360 (sample_profile 200 350 [] "s1")
                       (Budget.mk 200 350) 3 false = []
  ∧ Forall (λ a', found a' = []) [ {| stage := RelaxPerformance; found := [] |} ]
  ∧ found {| stage := ExpandBudget;
             found := fallback_query catalog_360 (sample_profile 200 350 [] "s1") 3
                        ExpandBudget |}
    = fallback_query catalog_360 (sample_profile 200 350 [] "s1") 3
        (stage {| stage := ExpandBudget;
                  found := fallback_query catalog_360
                             (sample_profile 200 350 [] "s1") 3 ExpandBudget |})
  ∧ sublist (stage <$> [ {| stage := RelaxPerformance; found := [] |} ]
               ++ {| stage := ExpandBudget;
                     found := fallback_query catalog_360
                                (sample_profile 200 350 [] "s1") 3 ExpandBudget |}
               :: [])
            [RelaxPreferredBrands; RelaxPerformance; ExpandBudget;
             RemoveAllConstraints].
Proof.
  apply (fallback_order catalog_360 (sample_profile 200 350 [] "s1")
           (Budget.mk 200 350) 3 false
           [ {| stage := RelaxPerformance; found := [] |} ]
           {| stage := ExpandBudget;
              found := fallback_query catalog_360 (sample_profile 200 350 [] "s1") 3
                         ExpandBudget |}
           []).
  vm_compute. reflexivity.
Defined.

(** ** The scorer *)

Lemma check_budget_spec (price : Q) (b : Budget.t) :
  _check_budget_constraints price b = true
  ↔ Budget.min b <= price <= Budget.max b.
Proof.
  unfold _check_budget_constraints.
  destruct (Qleb_spec (Budget.min b) price), (Qleb_spec price (Budget.max b));
    simpl; split; intros; try done; lra.
Qed.

(** What a scored candidate keeps of the configuration it was made from:
    its price, which passed the check against the profile's own budget,
    and its fallback mark. *)
Lemma score_configuration_Some
    (self : RecommendationEngine) (config : Config.t) (p : UserProfile.t)
    (safe_mode : bool) (b : Budget.t) (r : Scored.t) :
  _score_configuration self config p safe_mode = Some r →
  UserProfile.budget p = Some b →
  Config.total_price config = PNum (Scored.total_price r)
  ∧ _check_budget_constraints (Scored.total_price r) b = true
  ∧ Scored.fallback_type r = Config._fallback_type config.
Proof.
  unfold _score_configuration. intros H Hb. rewrite Hb in H. simpl in H.
  destruct (Config.total_price config) as [price| |]; simpl in H; try done.
  destruct (price <=? 0); [done|].
  destruct (get_dict (Config.suitability_scores config)) as [ss|]; simpl in H; [|done].
  destruct (get_dict (Config.performance_profile config)) as [pp|]; simpl in H; [|done].
  destruct (_check_budget_constraints price b) eqn:Hc; simpl in H; [|done].
  match type of H with mbind _ ?m = _ => destruct m as [[cs mr]|] end;
    simpl in H; [|done].
  destruct (_identify_trade_offs _ _ _ _ _); simpl in H; [|done].
  match type of H with mbind _ ?m = _ => destruct m end; simpl in H; [|done].
  by simplify_eq/=.
Qed.

Lemma score_configuration_within_budget
    (self : RecommendationEngine) (config : Config.t) (p : UserProfile.t)
    (safe_mode : bool) (b : Budget.t) (r : Scored.t) :
  UserProfile.budget p = Some b →
  _score_configuration self config p safe_mode = Some r →
  within_budget b r.
Proof.
  intros Hb H. destruct (score_configuration_Some _ _ _ _ _ _ H Hb) as (_ & Hc & _).
  by apply check_budget_spec.
Qed.

(** A preferred brand, matched whatever its case, raises the confidence
    of the configuration that has it and puts it first. *)
Example preferred_brand_ranks_first :
  (λ r, (Scored.configuration_id r, Qred (Scored.confidence_score r)))
    <$> recommendations_of
          (fst (generate_recommendations catalog_brands empty_cache 0
                  (sample_profile 1000 2000 ["nvidia"] "s1") 2 false))
  = [("with-nvidia", Qred 71.2); ("with-amd", Qred 66.2)].
Proof. vm_compute. reflexivity. Qed.

(** ** The cache *)

Lemma cache_get_hit (c : Cache.t) (now : Z) (key : string) (v : list Scored.t) :
  fst (Cache.get c now key) = Some v → snd (Cache.get c now key) = c.
Proof.
  unfold Cache.get. destruct (Cache.memory_cache c !! _) as [e|]; [|done].
  by destruct (now <? Cache.expires_at e)%Z.
Qed.

Lemma cache_get_after_set
    (c : Cache.t) (now now' : Z) (key : string) (v recs : list Scored.t)
    (ttl : option Z) :
  fst (Cache.get (Cache.set c now key v ttl) now' key) = Some recs → recs = v.
Proof.
  unfold Cache.get, Cache.set. simpl. rewrite lookup_insert_eq. simpl.
  destruct (now' <? _)%Z; simpl; congruence.
Qed.

(** ** The engine's operation *)

Lemma rank_perm (l : list Scored.t) : rank l ≡ₚ l.
Proof. apply stable_sort_perm. Qed.

Lemma score_all_elem
    (self : RecommendationEngine) (p : UserProfile.t) (safe_mode : bool)
    (configs : list Config.t) (r : Scored.t) :
  r ∈ score_all self p safe_mode configs →
  ∃ config, config ∈ configs ∧ _score_configuration self config p safe_mode = Some r.
Proof. unfold score_all. rewrite list_elem_of_omap. naive_solver. Qed.

(** A call that returns: on a hit the list is the stored one and the
    cache is unchanged; on a miss the list is a prefix of the ranked
    scores of the retrieved candidates, and it is stored under the key. *)
Lemma generate_recommendations_Return
    (self : RecommendationEngine) (cache : Cache.t) (now : Z)
    (p : UserProfile.t) (b : Budget.t) (max_recommendations : nat) (safe_mode : bool)
    (recs : list Scored.t) (hit : bool) (cache' : Cache.t) :
  UserProfile.budget p = Some b →
  generate_recommendations self cache now p max_recommendations safe_mode
  = (Return recs hit, cache') →
  (hit = true
   ∧ fst (Cache.get cache now (cache_key p max_recommendations safe_mode)) = Some recs
   ∧ cache' = cache)
  ∨ (hit = false
     ∧ cache_miss cache now p max_recommendations safe_mode
     ∧ recs = take max_recommendations
                (rank (score_all self p safe_mode
                         (fst (retrieve self p b max_recommendations safe_mode))))
     ∧ cache' = Cache.set
                  (snd (Cache.get cache now
                          (cache_key p max_recommendations safe_mode)))
                  now (cache_key p max_recommendations safe_mode) recs (Some 1800%Z)).
Proof.
  intros Hb. unfold generate_recommendations, cache_miss. rewrite Hb.
  generalize (cache_key p max_recommendations safe_mode) as key. intros key.
  destruct (Cache.get cache now key) as [cached cache1] eqn:Hget. simpl.
  destruct (truthy_opt cached) eqn:Hcached.
  - intros [= <- <- <-]. left. destruct cached as [v|]; [|done].
    split_and!; [done..|].
    by rewrite <- (cache_get_hit cache now key v), Hget; [|rewrite Hget].
  - generalize (fst (retrieve self p b max_recommendations safe_mode)) as configs.
    intros configs. destruct (truthy configs); simpl; [|done].
    generalize (rank (score_all self p safe_mode configs)) as scored.
    intros [|r scored]; simpl; [done|].
    destruct max_recommendations as [|n]; simpl; intros [= <- <- <-]; by right.
Qed.


Lemma cache_miss_empty
    (now : Z) (p : UserProfile.t) (max_recommendations : nat) (safe_mode : bool) :
  cache_miss empty_cache now p max_recommendations safe_mode.
Proof.
  unfold cache_miss, Cache.get, empty_cache.
  cbn [Cache.memory_cache]. by rewrite lookup_empty.
Qed.

(** The two candidates of the catalog of two, with their prices and scores,
    for the budget 800 to 1500. *)
Example catalog_two_ranking :
  (λ r, (Scored.configuration_id r, Qred (Scored.total_price r),
         Qred (Scored.confidence_score r), Scored.fallback_type r))
    <$> recommendations_of
          (fst (generate_recommendations catalog_two empty_cache 0
                  (sample_profile 800 1500 [] "s1") 3 false))
  = [("a", 900, Qred 83.2, None); ("b", 1400, Qred 57.7, None)].
Proof. vm_compute. reflexivity. Qed.

Lemma take_nonempty {A : Type} (n : nat) (l : list A) :
  l ≠ [] → (1 ≤ n)%nat → take n l ≠ [].
Proof. destruct l, n; simpl; try done; lia. Qed.

Lemma rank_nil_iff (l : list Scored.t) : rank l = [] ↔ l = [].
Proof.
  split; intros H.
  - apply Permutation_nil_r. rewrite <- H. symmetry. apply rank_perm.
  - subst. reflexivity.
Qed.

(** The progressive fallback ends without candidates exactly when the
    strict query and every attempted stage returned none. *)
Lemma retrieve_nil_iff
    (self : RecommendationEngine) (p : UserProfile.t) (b : Budget.t)
    (max_recommendations : nat) (safe_mode : bool) :
  fst (retrieve self p b max_recommendations safe_mode) = []
  ↔ query_configurations self p b max_recommendations safe_mode = []
    ∧ Forall (λ a, found a = [])
             (snd (retrieve self p b max_recommendations safe_mode)).
Proof.
  unfold retrieve, progressive_fallback, attempt.
  generalize (query_configurations self p b max_recommendations safe_mode) as strict.
  generalize (fallback_query self p max_recommendations) as q.
  intros q strict.
  destruct strict as [|c strict]; simpl; [|split; [done | by intros [? _]]].
  destruct (truthy_opt (UserProfile.preferred_brands p)); simpl;
    repeat match goal with
    | |- context [truthy (q ?s)] =>
        let E := fresh "E" in
        destruct (q s) eqn:E; simpl
    end;
    split; try done; try (intros _; split; [done|]; by repeat constructor);
    intros [_ H];
    repeat match goal with
    | H : Forall _ (_ :: _) |- _ => inversion H; clear H; subst
    end;
    simplify_eq/=.
Qed.

(** C1, as amended. On a cache miss for a profile with a budget, the call
    fails with [ValueError] in two cases: when the strict query and
    every attempted fallback stage returned nothing, and when candidates
    were retrieved but the scorer returned [None] for each of them. When
    the scorer kept at least one retrieved candidate, the call returns a
    ranked list drawn from the scored candidates, of at most
    [max_recommendations] entries and not empty when [max_recommendations]
    is at least 1. *)
Theorem generate_recommendations_failure_cases
    (self : RecommendationEngine) (cache : Cache.t) (now : Z)
    (p : UserProfile.t) (b : Budget.t) (max_recommendations : nat) (safe_mode : bool) :
  UserProfile.budget p = Some b →
  cache_miss cache now p max_recommendations safe_mode →
  (fst (retrieve self p b max_recommendations safe_mode) = []
   ↔ query_configurations self p b max_recommendations safe_mode = []
     ∧ Forall (λ a, found a = [])
              (snd (retrieve self p b max_recommendations safe_mode)))
  ∧ (fst (retrieve self p b max_recommendations safe_mode) = [] →
     fst (generate_recommendations self cache now p max_recommendations safe_mode)
     = Raise (ValueError "No PC configurations available in the system"))
  ∧ (fst (retrieve self p b max_recommendations safe_mode) ≠ [] →
     score_all self p safe_mode
       (fst (retrieve self p b max_recommendations safe_mode)) = [] →
     fst (generate_recommendations self cache now p max_recommendations safe_mode)
     = Raise (ValueError
          "No PC configurations meet the minimum requirements after detailed scoring"))
  ∧ (score_all self p safe_mode
       (fst (retrieve self p b max_recommendations safe_mode)) ≠ [] →
     ∃ recs,
       fst (generate_recommendations self cache now p max_recommendations safe_mode)
       = Return recs false
       ∧ recs ⊆ score_all self p safe_mode
                  (fst (retrieve self p b max_recommendations safe_mode))
       ∧ (length recs ≤ max_recommendations)%nat
       ∧ ((1 ≤ max_recommendations)%nat → recs ≠ [])).
Proof.
  intros Hb Hmiss. split; [apply retrieve_nil_iff|].
  unfold generate_recommendations. unfold cache_miss in Hmiss. rewrite Hb.
  revert Hmiss.
  generalize (cache_key p max_recommendations safe_mode) as key. intros key.
  destruct (Cache.get cache now key) as [cached cache1]. simpl. intros ->.
  generalize (fst (retrieve self p b max_recommendations safe_mode)) as configs.
  intros configs.
  split_and!.
  - by intros ->.
  - intros Hne Hscored. apply truthy_true in Hne. rewrite Hne, Hscored. done.
  - intros Hscored.
    assert (Hcfg : truthy configs = true).
    { destruct configs; [|done]. by destruct Hscored. }
    rewrite Hcfg. simpl.
    pose proof (rank_perm (score_all self p safe_mode configs)) as Hperm.
    assert (Hrank : rank (score_all self p safe_mode configs) ≠ [])
      by (by rewrite rank_nil_iff).
    revert Hperm Hrank.
    generalize (rank (score_all self p safe_mode configs)) as ranked.
    intros ranked Hperm Hrank.
    apply truthy_true in Hrank as Htr. rewrite Htr. simpl.
    exists (take max_recommendations ranked). split_and!.
    + by destruct (truthy (take max_recommendations ranked)).
    + rewrite <- Hperm. apply subseteq_take.
    + rewrite length_take. lia.
    + by apply take_nonempty.
Qed.

Lemma generate_recommendations_failure_cases_witness :
  (fst (retrieve catalog_two (sample_profile 800 1500 [] "s1")
          (Budget.mk 800 1500) 3 false) = []
   ↔ query_configurations catalog_two (sample_profile 800 1500 [] "s1")
       (Budget.mk 800 1500) 3 false = []
     ∧ Forall (λ a, found a = [])
              (snd (retrieve catalog_two (sample_profile 800 1500 [] "s1")
                      (Budget.mk 800 1500) 3 false)))
  ∧ (fst (retrieve catalog_two (sample_profile 800 1500 [] "s1")
            (Budget.mk 800 1500) 3 false) = [] →
     fst (generate_recommendations catalog_two empty_cache 0
            (sample_profile 800 1500 [] "s1") 3 false)
     = Raise (ValueError "No PC configurations available in the system"))
  ∧ (fst (retrieve catalog_two (sample_profile 800 1500 [] "s1")
            (Budget.mk 800 1500) 3 false) ≠ [] →
     score_all catalog_two (sample_profile 800 1500 [] "s1") false
       (fst (retrieve catalog_two (sample_profile 800 1500 [] "s1")
               (Budget.mk 800 1500) 3 false)) = [] →
     fst (generate_recommendations catalog_two empty_cache 0
            (sample_profile 800 1500 [] "s1") 3 false)
     = Raise (ValueError
          "No PC configurations meet the minimum requirements after detailed scoring"))
  ∧ (score_all catalog_two (sample_profile 800 1500 [] "s1") false
       (fst (retrieve catalog_two (sample_profile 800 1500 [] "s1")
               (Budget.mk 800 1500) 3 false)) ≠ [] →
     ∃ recs,
       fst (generate_recommendations catalog_two empty_cache 0
              (sample_profile 800 1500 [] "s1") 3 false)
       = Return recs false
       ∧ recs ⊆ score_all catalog_two (sample_profile 800 1500 [] "s1") false
                  (fst (retrieve catalog_two (sample_profile 800 1500 [] "s1")
                          (Budget.mk 800 1500) 3 false))
       ∧ (length recs ≤ 3)%nat
       ∧ ((1 ≤ 3)%nat → recs ≠ [])).
Proof.
  apply (generate_recommendations_failure_cases
           catalog_two empty_cache 0 (sample_profile 800 1500 [] "s1")
           (Budget.mk 800 1500) 3 false).
  - reflexivity.
  - vm_compute. reflexivity.
Defined.

(** C1, the claim as stated fails, in two ways. Against the catalog of
    one configuration priced 300 whose CPU figure is a text, the strict
    query returns that configuration for the budget 200 to 350, the
    scorer's trade-off comparison raises on the text, the scorer returns
    [None] and the call fails. Against the catalog of one configuration
    priced 360, the same profile gets nothing from the strict query, the
    ExpandBudget stage returns the configuration (the expanded range is
    178 to 372), the scorer rejects it against the original bounds and
    the call fails. In both a query returned a non-empty set. *)
Lemma nonempty_stage_yet_failure :
  (truthy (query_configurations catalog_malformed (sample_profile 200 350 [] "s1")
             (Budget.mk 200 350) 3 false) = true
   ∧ fst (generate_recommendations catalog_malformed empty_cache 0
            (sample_profile 200 350 [] "s1") 3 false)
     = Raise (ValueError
          "No PC configurations meet the minimum requirements after detailed scoring"))
  ∧ (truthy (fallback_query catalog_360 (sample_profile 200 350 [] "s1") 3
               ExpandBudget) = true
     ∧ fst (generate_recommendations catalog_360 empty_cache 0
              (sample_profile 200 350 [] "s1") 3 false)
       = Raise (ValueError
            "No PC configurations meet the minimum requirements after detailed scoring")).
Proof. split_and!; vm_compute; reflexivity. Qed.

(** A second request with the same requirements and another session is
    served from the cache while the entry lives (1800 seconds), and is
    computed again afterwards. *)
Example second_request_hits_cache :
  fst (generate_recommendations catalog_two
         (snd (generate_recommendations catalog_two empty_cache 0
                 (sample_profile 800 1500 [] "s1") 3 false))
         1799 (sample_profile 800 1500 [] "another session") 3 false)
  = Return (recommendations_of
              (fst (generate_recommendations catalog_two empty_cache 0
                      (sample_profile 800 1500 [] "s1") 3 false)))
           true
  ∧ fst (generate_recommendations catalog_two
           (snd (generate_recommendations catalog_two empty_cache 0
                   (sample_profile 800 1500 [] "s1") 3 false))
           1800 (sample_profile 800 1500 [] "another session") 3 false)
    = Return (recommendations_of
                (fst (generate_recommendations catalog_two empty_cache 0
                        (sample_profile 800 1500 [] "s1") 3 false)))
             false.
Proof. split; vm_compute; reflexivity. Qed.

(** ** A catalog with nothing priced under 400 *)

Lemma filter_nil {A : Type} (f : A → bool) (l : list A) :
  (∀ x, x ∈ l → f x = false) → List.filter f l = [].
Proof.
  induction l as [|x l IH]; intros H; simpl; [done|].
  rewrite (H x) by apply list_elem_of_here.
  apply IH. intros y Hy. apply H. by apply list_elem_of_further.
Qed.

Lemma price_out_of_range (lo hi : Q) (c : Config.t) :
  hi < 400 →
  (∀ q, Config.total_price c = PNum q → 400 <= q) →
  price_in_range lo hi c = false.
Proof.
  intros Hhi Hc. unfold price_in_range, gte, lte.
  destruct (Config.total_price c) as [q| |]; try done.
  specialize (Hc q eq_refl).
  destruct (Qleb_spec q hi); [lra|]. apply andb_false_r.
Qed.

Lemma aggregate_nothing_in_range (collection : list Config.t) (pl : Pipeline) :
  price_lte pl < 400 →
  (∀ c q, c ∈ collection → Config.total_price c = PNum q → 400 <= q) →
  aggregate collection pl = Some [].
Proof.
  intros Hhi Hc. unfold aggregate. rewrite filter_nil; [by destruct (limit pl)|].
  intros c Hin. unfold matches.
  rewrite (price_out_of_range (price_gte pl) (price_lte pl) c Hhi) by eauto.
  by rewrite andb_false_r.
Qed.

(** For the budget 200 to 350 the ExpandBudget stage widens the range by
    [int(150 * 0.15) = 22] on each side. *)
Example expanded_range_200_350 :
  py_int ((350 - 200) * 0.15) = 22%Z
  ∧ py_max 0 (200 - inject_Z (py_int ((350 - 200) * 0.15))) == 178
  ∧ 350 + inject_Z (py_int ((350 - 200) * 0.15)) == 372.
Proof. split_and!; vm_compute; reflexivity. Qed.

(** With the budget 200 to 350 and nothing priced under 400, the strict
    query, the broadened query and the four fallback queries all return
    nothing. *)
Lemma nothing_retrieved_under_400
    (self : RecommendationEngine) (p : UserProfile.t)
    (max_recommendations : nat) (safe_mode : bool) :
  UserProfile.budget p = Some (Budget.mk 200 350) →
  (∀ c q, c ∈ configs_collection self → Config.total_price c = PNum q → 400 <= q) →
  query_configurations self p (Budget.mk 200 350) max_recommendations safe_mode = []
  ∧ (∀ s, fallback_query self p max_recommendations s = [])
  ∧ fst (retrieve self p (Budget.mk 200 350) max_recommendations safe_mode) = [].
Proof.
  intros Hb Hc.
  assert (Hstrict : query_configurations self p (Budget.mk 200 350)
                      max_recommendations safe_mode = []).
  { unfold query_configurations, try_except.
    rewrite !aggregate_nothing_in_range by (try exact Hc; simpl; lra).
    simpl. destruct (_ <? _)%nat; simpl; by rewrite ?take_nil. }
  assert (Hstage : ∀ s, fallback_query self p max_recommendations s = []).
  { intros s. unfold fallback_query, _try_fallback_query, try_except.
    rewrite Hb.
    destruct s; simpl;
      (rewrite aggregate_nothing_in_range;
       [done | simpl; vm_compute; reflexivity | exact Hc]). }
  split_and!; [done..|].
  unfold retrieve, progressive_fallback, attempt. rewrite Hstrict, !Hstage.
  by destruct (truthy_opt (UserProfile.preferred_brands p)).
Qed.

(** C3, as amended. For every catalog with no configuration priced under
    400 and every profile with budget 200 to 350, on a cache miss every
    stage of the fallback returns nothing (the expanded range is 178 to
    372) and the call fails with [ValueError]. *)
Theorem budget_200_350_nothing_under_400_fails
    (self : RecommendationEngine) (cache : Cache.t) (now : Z)
    (p : UserProfile.t) (max_recommendations : nat) (safe_mode : bool) :
  UserProfile.budget p = Some (Budget.mk 200 350) →
  (∀ c q, c ∈ configs_collection self → Config.total_price c = PNum q → 400 <= q) →
  cache_miss cache now p max_recommendations safe_mode →
  (∀ s, fallback_query self p max_recommendations s = [])
  ∧ fst (generate_recommendations self cache now p max_recommendations safe_mode)
    = Raise (ValueError "No PC configurations available in the system").
Proof.
  intros Hb Hc Hmiss.
  destruct (nothing_retrieved_under_400 self p max_recommendations safe_mode Hb Hc)
    as (_ & Hstage & Hnil).
  split; [done|].
  unfold generate_recommendations. unfold cache_miss in Hmiss. rewrite Hb, Hnil.
  revert Hmiss.
  generalize (cache_key p max_recommendations safe_mode) as key. intros key.
  destruct (Cache.get cache now key) as [cached cache1]. simpl. by intros ->.
Qed.

Lemma budget_200_350_nothing_under_400_fails_witness :
  (∀ s, fallback_query catalog_from_400 (sample_profile 200 350 [] "s1") 3 s = [])
  ∧ fst (generate_recommendations catalog_from_400 empty_cache 0
           (sample_profile 200 350 [] "s1") 3 false)
    = Raise (ValueError "No PC configurations available in the system").
Proof.
  apply (budget_200_350_nothing_under_400_fails
           catalog_from_400 empty_cache 0 (sample_profile 200 350 [] "s1") 3 false).
  - reflexivity.
  - intros c q Hin Hq. unfold catalog_from_400 in Hin. simpl in Hin.
    rewrite !elem_of_cons, elem_of_nil in Hin.
    destruct Hin as [->|[->|[]]]; simpl in Hq; injection Hq as <-; lra.
  - apply cache_miss_empty.
Defined.

(** C3, the claim as stated fails: no catalog without a configuration
    under 400 and no profile with budget 200 to 350 make a fresh call
    return a non-empty list (of whatever marks and prices). *)
Lemma no_result_for_200_350_under_400 :
  ¬ (∃ (self : RecommendationEngine) (cache : Cache.t) (now : Z)
       (p : UserProfile.t) (max_recommendations : nat) (safe_mode : bool)
       (recs : list Scored.t) (cache' : Cache.t),
       UserProfile.budget p = Some (Budget.mk 200 350)
       ∧ (∀ c q, c ∈ configs_collection self →
                 Config.total_price c = PNum q → 400 <= q)
       ∧ generate_recommendations self cache now p max_recommendations safe_mode
         = (Return recs false, cache')
       ∧ recs ≠ []
       ∧ Forall (λ r,
                   (Scored.fallback_type r = Some "expanded_budget"
                    ∨ Scored.fallback_type r = Some "no_constraints")
                   ∧ ¬ within_budget (Budget.mk 200 350) r
                   ∧ 178 <= Scored.total_price r <= 372) recs).
Proof.
  intros (self & cache & now & p & m & safe & recs & cache' & Hb & Hc & Hgen & Hne & _).
  destruct (generate_recommendations_Return _ _ _ _ _ _ _ _ _ _ Hb Hgen)
    as [(? & _)|(_ & _ & Hrecs & _)]; [done|].
  destruct (nothing_retrieved_under_400 self p m safe Hb Hc) as (_ & _ & Hnil).
  rewrite Hnil in Hrecs. simpl in Hrecs. apply Hne. rewrite Hrecs.
  by destruct m.
Qed.

(** ** The fallback mark *)

(** C5. The claim marks the result of each stage with that stage's name.
    Against the catalog of one weak configuration priced 1500, the
    profile with budget 1000 to 2000 reaches the RemoveAllConstraints
    stage. Without preferred brands the configurations it returns are
    marked [no_constraints]; with the preferred brand NVIDIA the same
    stage marks them [preferred_brands], and that mark is what the
    returned candidate carries. *)
Theorem fallback_mark_with_preferred_brands :
  Config._fallback_type
    <$> fallback_query catalog_weak (sample_profile 1000 2000 [] "s1") 3
          RemoveAllConstraints
  = [Some "no_constraints"]
  ∧ Config._fallback_type
      <$> fallback_query catalog_weak (sample_profile 1000 2000 ["NVIDIA"] "s1") 3
            RemoveAllConstraints
    = [Some "preferred_brands"]
  ∧ (λ a, (stage a, length (found a)))
      <$> snd (retrieve catalog_weak (sample_profile 1000 2000 ["NVIDIA"] "s1")
                 (Budget.mk 1000 2000) 3 false)
    = [(RelaxPreferredBrands, 0%nat); (RelaxPerformance, 0%nat);
       (ExpandBudget, 0%nat); (RemoveAllConstraints, 1%nat)]
  ∧ Scored.fallback_type
      <$> recommendations_of
            (fst (generate_recommendations catalog_weak empty_cache 0
                    (sample_profile 1000 2000 ["NVIDIA"] "s1") 3 false))
    = [Some "preferred_brands"].
Proof. split_and!; vm_compute; reflexivity. Qed.

(** The marks of the two other stages for a profile with a preferred
    brand, on a catalog where each of them finds a configuration. *)
Example fallback_mark_other_stages :
  Config._fallback_type
    <$> fallback_query catalog_two (sample_profile 800 1500 ["NVIDIA"] "s1") 3
          RelaxPerformance
  = [Some "preferred_brands"; Some "preferred_brands"]
  ∧ Config._fallback_type
      <$> fallback_query catalog_360 (sample_profile 200 350 ["NVIDIA"] "s1") 3
            ExpandBudget
    = [Some "preferred_brands"].
Proof. split_and!; vm_compute; reflexivity. Qed.

(** The mark of every configuration a stage returns, for every profile:
    the stage's own name only when the profile lists no preferred brand. *)
Lemma fallback_query_mark
    (self : RecommendationEngine) (p : UserProfile.t) (max_recommendations : nat)
    (s : Stage) (c : Config.t) :
  c ∈ fallback_query self p max_recommendations s →
  Config._fallback_type c
  = Some (if truthy_opt (UserProfile.preferred_brands p) then "preferred_brands"
          else match s with
               | RelaxPreferredBrands => "original"
               | RelaxPerformance => "relaxed_performance"
               | ExpandBudget => "expanded_budget"
               | RemoveAllConstraints => "no_constraints"
               end).
Proof.
  unfold fallback_query.
  destruct s; unfold _try_fallback_query, try_except;
    (destruct (UserProfile.budget p) as [b|]; simpl; [|by rewrite elem_of_nil]);
    (destruct (aggregate _ _) as [configs|]; simpl; [|by rewrite elem_of_nil]);
    rewrite list_elem_of_fmap; intros (c0 & -> & _); simpl;
    unfold fallback_mark;
    by destruct (truthy_opt (UserProfile.preferred_brands p)).
Qed.

(** ** Tables keyed by a text *)

(** A [match] on the five purposes, as a chain of comparisons. *)
Lemma purpose_match {T : Type} (a b c d e f : T) (p : string) :
  match p with
  | "gaming" => a | "creative" => b | "programming" => c
  | "office" => d | "general" => e | _ => f
  end%string
  = if String.eqb p "gaming" then a
    else if String.eqb p "creative" then b
    else if String.eqb p "programming" then c
    else if String.eqb p "office" then d
    else if String.eqb p "general" then e
    else f.
Proof. repeat case_match; simpl in *; congruence. Qed.

(** A [match] on the four performance levels, likewise. *)
Lemma level_match {T : Type} (a b c d f : T) (p : string) :
  match p with
  | "basic" => a | "standard" => b | "high" => c | "professional" => d | _ => f
  end%string
  = if String.eqb p "basic" then a
    else if String.eqb p "standard" then b
    else if String.eqb p "high" then c
    else if String.eqb p "professional" then d
    else f.
Proof. repeat case_match; simpl in *; congruence. Qed.


(** * Further properties of the code *)

(** ** The in-memory store of [app/core/cache.py] *)

Lemma get_cache_key_inj (k1 k2 : string) :
  Cache._get_cache_key k1 = Cache._get_cache_key k2 → k1 = k2.
Proof. unfold Cache._get_cache_key. intros H. by simplify_eq/=. Qed.

Lemma get_cache_key_prefix (p k : string) :
  String.prefix (Cache._get_cache_key p) (Cache._get_cache_key k) = String.prefix p k.
Proof. reflexivity. Qed.

(** X1. [Cache.set] followed by [Cache.get] of the same key: with a
    lifetime [n] other than zero, the value is returned up to (and not
    at) [n] seconds after it was stored and the store is left as it is;
    from then on [None] is returned and the store is the original one
    with the key deleted. *)
Theorem cache_get_after_set_lifetime
    (c : Cache.t) (now now' : Z) (key : string) (v : list Scored.t) (n : Z) :
  n ≠ 0%Z →
  Cache.get (Cache.set c now key v (Some n)) now' key
  = if (now' <? now + n)%Z
    then (Some v, Cache.set c now key v (Some n))
    else (None, Cache.delete c key).
Proof.
  intros Hn. unfold Cache.get, Cache.set, Cache.delete. simpl.
  rewrite lookup_insert_eq. simpl.
  destruct (n =? 0)%Z eqn:E; [apply Z.eqb_eq in E; done|].
  destruct (now' <? now + n)%Z; [done|].
  by rewrite delete_insert_eq.
Qed.

Lemma cache_get_after_set_lifetime_witness :
  Cache.get (Cache.set empty_cache 100 "k" [] (Some 1800%Z)) 1899 "k"
  = (Some [], Cache.set empty_cache 100 "k" [] (Some 1800%Z))
  ∧ Cache.get (Cache.set empty_cache 100 "k" [] (Some 1800%Z)) 1900 "k"
    = (None, Cache.delete empty_cache "k").
Proof.
  split.
  - apply (cache_get_after_set_lifetime empty_cache 100 1899 "k" [] 1800). lia.
  - apply (cache_get_after_set_lifetime empty_cache 100 1900 "k" [] 1800). lia.
Defined.

(** X2. [Cache.set] and [Cache.delete] of one key leave what [Cache.get]
    returns for every other key as it was. *)
Theorem cache_other_keys_untouched
    (c : Cache.t) (now now' : Z) (key key' : string) (v : list Scored.t)
    (ttl : option Z) :
  key ≠ key' →
  fst (Cache.get (Cache.set c now key v ttl) now' key') = fst (Cache.get c now' key')
  ∧ fst (Cache.get (Cache.delete c key) now' key') = fst (Cache.get c now' key').
Proof.
  intros Hne.
  assert (Cache._get_cache_key key ≠ Cache._get_cache_key key')
    by (intros ?%get_cache_key_inj; done).
  unfold Cache.get, Cache.set, Cache.delete. simpl.
  rewrite lookup_insert_ne, lookup_delete_ne by done.
  split; destruct (Cache.memory_cache c !! _) as [e|]; try done;
    by destruct (now' <? Cache.expires_at e)%Z.
Qed.

Lemma cache_other_keys_untouched_witness :
  fst (Cache.get (Cache.set empty_cache 0 "a" [] None) 5 "b")
  = fst (Cache.get empty_cache 5 "b")
  ∧ fst (Cache.get (Cache.delete empty_cache "a") 5 "b")
    = fst (Cache.get empty_cache 5 "b").
Proof. apply (cache_other_keys_untouched empty_cache 0 5 "a" "b" [] None). done. Defined.

(** X3. After [Cache.clear_pattern pattern], [Cache.get] finds nothing
    under a key that starts with [pattern], and what it returns for any
    other key is unchanged. *)
Theorem cache_clear_pattern_get
    (c : Cache.t) (now : Z) (pattern key : string) :
  fst (Cache.get (Cache.clear_pattern c pattern) now key)
  = if String.prefix pattern key then None else fst (Cache.get c now key).
Proof.
  unfold Cache.get, Cache.clear_pattern. simpl.
  rewrite map_lookup_filter. rewrite <- (get_cache_key_prefix pattern key).
  destruct (Cache.memory_cache c !! Cache._get_cache_key key) as [e|] eqn:E; simpl.
  - destruct (String.prefix _ _) eqn:P.
    + rewrite option_guard_False; [done|]. simpl. congruence.
    + rewrite option_guard_True by done. simpl.
      by destruct (now <? Cache.expires_at e)%Z.
  - by destruct (String.prefix _ _).
Qed.

(** X4. [Cache.get_or_set] does not consult the getter when a live entry
    exists, an empty list included, and leaves the store as it is;
    otherwise it returns the getter's value; in both cases, when
    lifetimes are positive, a [Cache.get] at the same time returns the
    value [get_or_set] returned. *)
Theorem cache_get_or_set_spec
    (c : Cache.t) (now : Z) (key : string) (getter_func : unit → list Scored.t)
    (ttl : option Z) :
  (0 < Cache.default_ttl c)%Z →
  (∀ n, ttl = Some n → 0 <= n)%Z →
  let '(v, c') := Cache.get_or_set c now key getter_func ttl in
  (∀ recs, fst (Cache.get c now key) = Some recs → v = recs ∧ c' = c)
  ∧ (fst (Cache.get c now key) = None → v = getter_func ())
  ∧ fst (Cache.get c' now key) = Some v.
Proof.
  intros Hd Httl. unfold Cache.get_or_set.
  destruct (Cache.get c now key) as [[recs|] c1] eqn:G; simpl.
  - pose proof (cache_get_hit c now key recs) as Hh. rewrite G in Hh.
    simpl in Hh. specialize (Hh eq_refl). subst c1.
    split_and!; [intros ? [= <-]; done | done | by rewrite G].
  - split_and!; [done | done |].
    unfold Cache.get, Cache.set. simpl. rewrite lookup_insert_eq. simpl.
    assert (0 < match ttl with
                | Some n => if (n =? 0)%Z then Cache.default_ttl c1 else n
                | None => Cache.default_ttl c1
                end)%Z as Hpos.
    { assert (Cache.default_ttl c1 = Cache.default_ttl c) as ->.
      { revert G. unfold Cache.get.
        destruct (Cache.memory_cache c !! _) as [e|]; [|by intros [= <-]].
        destruct (now <? Cache.expires_at e)%Z; by intros [= <-]. }
      destruct ttl as [n|]; [|done].
      destruct (n =? 0)%Z eqn:E; [done|].
      apply Z.eqb_neq in E. specialize (Httl n eq_refl). lia. }
    destruct (now <? now + _)%Z eqn:L; [done|]. apply Z.ltb_ge in L. lia.
Qed.

Lemma cache_get_or_set_spec_witness :
  let '(v, c') := Cache.get_or_set empty_cache 0 "k" (λ _, []) (Some 60%Z) in
  (∀ recs, fst (Cache.get empty_cache 0 "k") = Some recs → v = recs ∧ c' = empty_cache)
  ∧ (fst (Cache.get empty_cache 0 "k") = None → v = [])
  ∧ fst (Cache.get c' 0 "k") = Some v.
Proof.
  apply (cache_get_or_set_spec empty_cache 0 "k" (λ _, []) (Some 60%Z)).
  - reflexivity.
  - intros n [= <-]. lia.
Defined.

(** ** Request keys and invalidation *)

Lemma hex_digit_cases (d : Z) :
  (0 <= d < 16)%Z →
  hashlib.hex_digit d ∈ String.list_ascii_of_string "0123456789abcdef".
Proof.
  intros Hd. apply list_elem_of_In.
  assert (d = 0 ∨ d = 1 ∨ d = 2 ∨ d = 3 ∨ d = 4 ∨ d = 5 ∨ d = 6 ∨ d = 7
          ∨ d = 8 ∨ d = 9 ∨ d = 10 ∨ d = 11 ∨ d = 12 ∨ d = 13 ∨ d = 14
          ∨ d = 15)%Z as Hin by lia.
  clear Hd.
  destruct_or!; subst d; vm_compute; repeat (first [left; reflexivity | right]).
Qed.

(** A digest is not empty and starts with a hexadecimal digit. *)
Lemma md5_hexdigest_head (s : string) :
  ∃ a rest, hashlib.md5_hexdigest s = String a rest
            ∧ a ∈ String.list_ascii_of_string "0123456789abcdef".
Proof.
  unfold hashlib.md5_hexdigest, hashlib.md5_bytes.
  destruct (foldl hashlib.block _ _) as [[[a b] c] d].
  generalize (hashlib.le_bytes 4 b ++ hashlib.le_bytes 4 c ++ hashlib.le_bytes 4 d).
  intros l. cbn [hashlib.le_bytes app foldr hashlib.hex_byte].
  eexists _, _. split; [reflexivity|].
  apply hex_digit_cases.
  pose proof (Z.mod_pos_bound a 256 ltac:(lia)).
  split; [apply Z.div_pos; lia | apply Z.div_lt_upper_bound; lia].
Qed.

(** A key of [generate_cache_key] never starts with the pattern that the
    feedback route clears. *)
Lemma feedback_pattern_no_prefix (recommendation_id : string) (args : list string) :
  String.prefix ("recommendations:" +:+ recommendation_id) (generate_cache_key args)
  = false.
Proof.
  unfold generate_cache_key.
  destruct (md5_hexdigest_head (json.join "|" args)) as (a & rest & -> & Ha).
  apply list_elem_of_In in Ha. cbn in Ha. destruct_or!; subst a; done.
Qed.

(** X5. The invalidation of the feedback route,
    [cache.clear_pattern(f"recommendations:{recommendation_id}")],
    removes no entry stored under a key of [generate_cache_key]: the
    stored keys are MD5 digests in hexadecimal, none of which starts with
    the letter r. What [Cache.get] returns for a request key is the same
    before and after. *)
Theorem feedback_invalidation_keeps_request_keys
    (c : Cache.t) (now : Z) (recommendation_id : string) (args : list string) :
  fst (Cache.get (Cache.clear_pattern c ("recommendations:" +:+ recommendation_id))
                 now (generate_cache_key args))
  = fst (Cache.get c now (generate_cache_key args)).
Proof.
  unfold Cache.get, Cache.clear_pattern. simpl.
  rewrite map_lookup_filter.
  change ("pc_rec:recommendations:" +:+ recommendation_id)
    with (Cache._get_cache_key ("recommendations:" +:+ recommendation_id)).
  destruct (Cache.memory_cache c !! Cache._get_cache_key (generate_cache_key args))
    as [e|] eqn:E; simpl; [|done].
  rewrite option_guard_True.
  - simpl. by destruct (now <? Cache.expires_at e)%Z.
  - exact (eq_trans (get_cache_key_prefix _ _)
                    (feedback_pattern_no_prefix recommendation_id args)).
Qed.

(** ** Ranking and the reuse of results *)

Section StableSortOrder.
Context {A : Type} (before : A → A → bool) (le : A → A → Prop).
Hypothesis before_le : ∀ x y, before x y = true → le x y.
Hypothesis not_before_le : ∀ x y, before x y = false → le y x.

Lemma sort_insert_keeps_order (x : A) (l : list A) :
  Sorted le l → Sorted le (sort_insert before x l).
Proof.
  induction 1 as [|y l Hs IH Hhd]; simpl.
  - by repeat constructor.
  - destruct (before y x) eqn:E.
    + constructor; [done|].
      destruct l as [|z l]; simpl in *.
      * constructor. by apply before_le.
      * destruct (before z x); constructor.
        -- by inversion Hhd.
        -- by apply before_le.
    + constructor; [by constructor|]. constructor. by apply not_before_le.
Qed.

Lemma stable_sort_Sorted (l : list A) : Sorted le (stable_sort before l).
Proof.
  induction l as [|x l IH]; simpl; [constructor|].
  by apply sort_insert_keeps_order.
Qed.

(** Elements of a class no two members of which must precede one another
    keep their input order. *)
Lemma stable_sort_filter (P : A → bool) (l : list A) :
  (∀ x y, P x = true → P y = true → before x y = false) →
  List.filter P (stable_sort before l) = List.filter P l.
Proof.
  intros HP.
  assert (Hins : ∀ x l', List.filter P (sort_insert before x l')
                         = List.filter P (x :: l')).
  { intros x l'. induction l' as [|y l' IH]; [done|].
    cbn [sort_insert]. destruct (before y x) eqn:E; [|done].
    cbn [List.filter] in *. rewrite IH.
    destruct (P x) eqn:Px, (P y) eqn:Py; try done.
    by rewrite HP in E. }
  induction l as [|x l IH]; [done|].
  cbn [stable_sort foldr]. rewrite Hins. cbn [List.filter].
  fold (stable_sort before l). by rewrite IH.
Qed.
End StableSortOrder.

(** X6. [rank], the sort by confidence score in reverse: the result is
    a rearrangement of the input in which every candidate is followed by
    one of no higher confidence, and the candidates that share a
    confidence score keep the order they had in the input. *)
Theorem rank_descending_stable (scored_configs : list Scored.t) (q : Q) :
  rank scored_configs ≡ₚ scored_configs
  ∧ Sorted (λ x y, Scored.confidence_score y <= Scored.confidence_score x)
           (rank scored_configs)
  ∧ List.filter (λ r, Scored.confidence_score r =? q) (rank scored_configs)
    = List.filter (λ r, Scored.confidence_score r =? q) scored_configs.
Proof.
  split_and!.
  - apply stable_sort_perm.
  - apply stable_sort_Sorted.
    + intros x y H. destruct (Qltb_spec (Scored.confidence_score y)
                                        (Scored.confidence_score x)); [lra|done].
    + intros x y H. destruct (Qltb_spec (Scored.confidence_score y)
                                        (Scored.confidence_score x)); [done|lra].
  - apply stable_sort_filter. intros x y Hx Hy.
    destruct (Qeqb_spec (Scored.confidence_score x) q); [|done].
    destruct (Qeqb_spec (Scored.confidence_score y) q); [|done].
    destruct (Qltb_spec (Scored.confidence_score y)
                        (Scored.confidence_score x)); [lra|done].
Qed.

(** X7. A list computed for a request (a miss) and not empty is served
    again, unchanged and flagged as a cache hit, to every request with
    the same key made less than 1800 seconds after it, whatever the
    catalog has become and whichever session asks; the store is left as
    it is. From 1800 seconds on, the entry no longer counts and the
    request is a miss again. *)
Theorem repeated_request_served_from_cache
    (self self' : RecommendationEngine) (cache cache' : Cache.t) (now now' : Z)
    (p p' : UserProfile.t) (b b' : Budget.t)
    (max_recommendations max_recommendations' : nat) (safe_mode safe_mode' : bool)
    (recs : list Scored.t) :
  UserProfile.budget p = Some b →
  UserProfile.budget p' = Some b' →
  cache_key p' max_recommendations' safe_mode'
  = cache_key p max_recommendations safe_mode →
  generate_recommendations self cache now p max_recommendations safe_mode
  = (Return recs false, cache') →
  recs ≠ [] →
  ((now' < now + 1800)%Z →
   generate_recommendations self' cache' now' p' max_recommendations' safe_mode'
   = (Return recs true, cache'))
  ∧ ((now + 1800 <= now')%Z →
     cache_miss cache' now' p' max_recommendations' safe_mode').
Proof.
  intros Hb Hb' Hkey Hgen Hne.
  destruct (generate_recommendations_Return _ _ _ _ _ _ _ _ _ _ Hb Hgen)
    as [(? & _)|(_ & _ & _ & ->)]; [done|].
  unfold cache_miss, generate_recommendations. rewrite Hkey, Hb'.
  generalize (cache_key p max_recommendations safe_mode) as key. intros key.
  generalize (snd (Cache.get cache now key)) as c. intros c.
  unfold Cache.get, Cache.set. cbn [Cache.memory_cache Cache.default_ttl].
  rewrite lookup_insert_eq. cbn [Cache.expires_at Cache.value Z.eqb].
  split; intros Hnow.
  - apply Z.ltb_lt in Hnow. rewrite Hnow. cbn [fst snd].
    destruct recs; [done|]. reflexivity.
  - apply Z.ltb_ge in Hnow. rewrite Hnow. reflexivity.
Qed.

Lemma repeated_request_served_from_cache_witness :
  (generate_recommendations catalog_360
     (snd (generate_recommendations catalog_two empty_cache 0
             (sample_profile 800 1500 [] "s1") 3 false))
     1799 (sample_profile 800 1500 [] "another session") 3 false
   = (Return (recommendations_of
                (fst (generate_recommendations catalog_two empty_cache 0
                        (sample_profile 800 1500 [] "s1") 3 false)))
             true,
      snd (generate_recommendations catalog_two empty_cache 0
             (sample_profile 800 1500 [] "s1") 3 false)))
  ∧ cache_miss
      (snd (generate_recommendations catalog_two empty_cache 0
              (sample_profile 800 1500 [] "s1") 3 false))
      1800 (sample_profile 800 1500 [] "another session") 3 false.
Proof.
  split.
  - apply (repeated_request_served_from_cache
             catalog_two catalog_360 empty_cache
             (snd (generate_recommendations catalog_two empty_cache 0
                     (sample_profile 800 1500 [] "s1") 3 false))
             0 1799
             (sample_profile 800 1500 [] "s1")
             (sample_profile 800 1500 [] "another session")
             (Budget.mk 800 1500) (Budget.mk 800 1500) 3 3 false false
             (recommendations_of
                (fst (generate_recommendations catalog_two empty_cache 0
                        (sample_profile 800 1500 [] "s1") 3 false)))).
    + reflexivity.
    + reflexivity.
    + vm_compute. reflexivity.
    + vm_compute. reflexivity.
    + vm_compute. discriminate.
    + lia.
  - apply (repeated_request_served_from_cache
             catalog_two catalog_360 empty_cache
             (snd (generate_recommendations catalog_two empty_cache 0
                     (sample_profile 800 1500 [] "s1") 3 false))
             0 1800
             (sample_profile 800 1500 [] "s1")
             (sample_profile 800 1500 [] "another session")
             (Budget.mk 800 1500) (Budget.mk 800 1500) 3 3 false false
             (recommendations_of
                (fst (generate_recommendations catalog_two empty_cache 0
                        (sample_profile 800 1500 [] "s1") 3 false)))).
    + reflexivity.
    + reflexivity.
    + vm_compute. reflexivity.
    + vm_compute. reflexivity.
    + vm_compute. discriminate.
    + lia.
Defined.

(** ** Rounding *)

Lemma div10_le (a b : Q) : a <= b → a / 10 <= b / 10.
Proof. intros H. apply Qle_shift_div_l; [reflexivity|]. field_simplify. lra. Qed.

Lemma py_round1_ge (k : Z) (x : Q) :
  inject_Z k / 10 <= x → inject_Z k / 10 <= py_round1 x.
Proof.
  intros Hx. unfold py_round1.
  assert (inject_Z k <= x * 10) as Hk.
  { apply (Qmult_le_r _ _ 10) in Hx; [|reflexivity]. field_simplify in Hx. lra. }
  apply Qfloor_resp_le in Hk. rewrite Qfloor_Z in Hk.
  set (f := Qfloor (x * 10)) in *.
  assert (∀ n, (f <= n)%Z → inject_Z k / 10 <= inject_Z n / 10) as Hn.
  { intros n Hfn. apply div10_le. rewrite <- Zle_Qle. lia. }
  repeat case_match; apply Hn; lia.
Qed.

Lemma py_round1_le (k : Z) (x : Q) :
  x <= inject_Z k / 10 → py_round1 x <= inject_Z k / 10.
Proof.
  intros Hx. unfold py_round1.
  assert (x * 10 <= inject_Z k) as Hk.
  { apply (Qmult_le_r _ _ 10) in Hx; [|reflexivity]. field_simplify in Hx. lra. }
  pose proof (Qfloor_le (x * 10)) as Hf.
  set (f := Qfloor (x * 10)) in *.
  assert (f <= k)%Z as Hfk by (rewrite Zle_Qle; lra).
  assert (∀ n, (n <= k)%Z → inject_Z n / 10 <= inject_Z k / 10) as Hn.
  { intros n Hnk. apply div10_le. rewrite <- Zle_Qle. lia. }
  assert (0.5 <= x * 10 - inject_Z f → (f + 1 <= k)%Z) as Hup.
  { intros Hr. assert (inject_Z f < inject_Z k) as Hlt by lra.
    rewrite <- Zlt_Qlt in Hlt. lia. }
  destruct (Qltb_spec (x * 10 - inject_Z f) 0.5); [by apply Hn|].
  destruct (Qltb_spec 0.5 (x * 10 - inject_Z f)); [apply Hn, Hup; lra|].
  destruct (Z.even f); [by apply Hn | apply Hn, Hup; lra].
Qed.

(** Rounding to one decimal does not cross a number that has one
    decimal. *)
Lemma py_round1_lower (k : Z) (c x : Q) :
  c == inject_Z k / 10 → c <= x → c <= py_round1 x.
Proof. intros ->. apply py_round1_ge. Qed.

Lemma py_round1_upper (k : Z) (c x : Q) :
  c == inject_Z k / 10 → x <= c → py_round1 x <= c.
Proof. intros ->. apply py_round1_le. Qed.

(** ** Weights *)

Lemma new_MatchReason_Some (factor : string) (weight : Q) (text : Explanation) :
  0 <= weight <= 1 →
  new_MatchReason factor weight text
  = Some {| factor := factor; weight := weight; explanation := text |}.
Proof.
  intros [H0 H1]. unfold new_MatchReason.
  destruct (Qleb_spec 0 weight); [|done].
  by destruct (Qleb_spec weight 1).
Qed.

Lemma new_MatchReason_weight
    (factor : string) (w : Q) (text : Explanation) (r : MatchReason) :
  new_MatchReason factor w text = Some r → 0 <= weight r <= 1.
Proof.
  unfold new_MatchReason.
  destruct (Qleb_spec 0 w); [|done]. destruct (Qleb_spec w 1); [|done].
  intros [= <-]. done.
Qed.


Lemma normalized_unit (a b c d : Q) :
  0 <= a → 0 <= b → 0 <= c → 0 <= d → 0 < 0 + a + b + c + d →
  0 <= a / (0 + a + b + c + d) <= 1.
Proof.
  intros Ha Hb Hc Hd Ht. split.
  - apply Qle_shift_div_l; [done|]. lra.
  - apply Qle_shift_div_r; [done|]. lra.
Qed.

Lemma performance_weights_range (level : string) :
  0 <= performance_weights level <= 1.
Proof.
  unfold performance_weights. rewrite level_match. repeat case_match; lra.
Qed.

Lemma purpose_weights_table (purpose : string) (w : Weights) :
  purpose_weights purpose = Some w →
  weights_sum w == 1
  ∧ 0 <= w_purpose w ∧ 0 <= w_budget w ∧ 0 <= w_performance w ∧ 0 <= w_brand w.
Proof.
  unfold purpose_weights. rewrite purpose_match.
  repeat case_match; intros [= <-]; unfold weights_sum; simpl; lra.
Qed.

Lemma purpose_weights_valid (purpose : string) :
  purpose ∈ valid_purposes → is_Some (purpose_weights purpose).
Proof.
  unfold valid_purposes. intros H. apply list_elem_of_In in H. simpl in H.
  destruct_or!; subst; try done; by eexists.
Qed.

Lemma unit_weights_base : unit_weights base_weights.
Proof. unfold unit_weights, base_weights. simpl. lra. Qed.

Lemma unit_weights_normalized (w : Weights) :
  0 <= w_purpose w → 0 <= w_budget w → 0 <= w_performance w → 0 <= w_brand w →
  unit_weights
    (if weights_sum w >? 0 then
       {| w_purpose := w_purpose w / weights_sum w;
          w_budget := w_budget w / weights_sum w;
          w_performance := w_performance w / weights_sum w;
          w_brand := w_brand w / weights_sum w |}
     else base_weights).
Proof.
  intros Ha Hb Hc Hd.
  destruct (Qltb_spec 0 (weights_sum w)) as [Ht|]; [|apply unit_weights_base].
  unfold unit_weights, weights_sum in *. simpl.
  split_and!; apply Qle_shift_div_l || apply Qle_shift_div_r; try done; lra.
Qed.

Lemma dynamic_weights_unit_weights (p : UserProfile.t) :
  unit_weights (_calculate_dynamic_weights p).
Proof.
  unfold _calculate_dynamic_weights.
  destruct (UserProfile.budget p) as [b|]; [|apply unit_weights_base].
  cbv zeta.
  destruct (purpose_weights (UserProfile.purpose p)) as [w|] eqn:Hw.
  - apply purpose_weights_table in Hw as (_ & ? & ? & ? & ?).
    by apply unit_weights_normalized.
  - pose proof (performance_weights_range (UserProfile.performance_level p)).
    apply unit_weights_normalized; repeat case_match; simpl; lra.
Qed.

(** X8. Every weight [_calculate_dynamic_weights] returns lies between 0
    and 1, for every profile: the [MatchReason] constructor, which refuses
    a weight outside that range, accepts each of them. *)
Theorem dynamic_weights_unit (p : UserProfile.t) :
  unit_weights (_calculate_dynamic_weights p)
  ∧ ∀ factor text,
      is_Some (new_MatchReason factor (w_purpose (_calculate_dynamic_weights p)) text)
      ∧ is_Some (new_MatchReason factor (w_budget (_calculate_dynamic_weights p)) text)
      ∧ is_Some (new_MatchReason factor
                   (w_performance (_calculate_dynamic_weights p)) text)
      ∧ is_Some (new_MatchReason factor (w_brand (_calculate_dynamic_weights p)) text).
Proof.
  pose proof (dynamic_weights_unit_weights p) as Hu.
  split; [done|]. intros factor text.
  destruct Hu as (? & ? & ? & ?).
  split_and!; rewrite new_MatchReason_Some; done.
Qed.

(** X9. For a profile that has a budget and one of the five purposes the
    API accepts, the weights [_calculate_dynamic_weights] returns depend
    on the purpose only: the adjustments made beforehand for the width of
    the budget range and for the performance level are overwritten by
    the entry of the purpose table, so any other profile with a budget
    and the same purpose gets the same weights. Each weight is the
    table's entry divided by the sum of the entries, and lies within
    1e-9 of the entry (amounts here are rationals, on which the sum of
    each entry is 1 and the two are equal). *)
Theorem dynamic_weights_purpose_table (p : UserProfile.t) (b : Budget.t) :
  UserProfile.purpose p ∈ valid_purposes →
  UserProfile.budget p = Some b →
  (∃ w, purpose_weights (UserProfile.purpose p) = Some w
        ∧ _calculate_dynamic_weights p
          = {| w_purpose := w_purpose w / weights_sum w;
               w_budget := w_budget w / weights_sum w;
               w_performance := w_performance w / weights_sum w;
               w_brand := w_brand w / weights_sum w |}
        ∧ py_abs (w_purpose (_calculate_dynamic_weights p) - w_purpose w)
          <= 0.000000001
        ∧ py_abs (w_budget (_calculate_dynamic_weights p) - w_budget w)
          <= 0.000000001
        ∧ py_abs (w_performance (_calculate_dynamic_weights p) - w_performance w)
          <= 0.000000001
        ∧ py_abs (w_brand (_calculate_dynamic_weights p) - w_brand w)
          <= 0.000000001)
  ∧ ∀ p' b',
      UserProfile.purpose p' = UserProfile.purpose p →
      UserProfile.budget p' = Some b' →
      _calculate_dynamic_weights p' = _calculate_dynamic_weights p.
Proof.
  intros Hp Hb. destruct (purpose_weights_valid _ Hp) as [w Hw].
  assert (Heq : ∀ p' b', UserProfile.purpose p' = UserProfile.purpose p →
                 UserProfile.budget p' = Some b' →
                 _calculate_dynamic_weights p'
                 = {| w_purpose := w_purpose w / weights_sum w;
                      w_budget := w_budget w / weights_sum w;
                      w_performance := w_performance w / weights_sum w;
                      w_brand := w_brand w / weights_sum w |}).
  { intros p' b' Hp' Hb'. unfold _calculate_dynamic_weights.
    rewrite Hb'. cbv zeta. rewrite Hp', Hw.
    apply purpose_weights_table in Hw as (Hs & _).
    destruct (Qltb_spec 0 (weights_sum w)); [done|lra]. }
  split.
  - exists w. split; [done|]. split; [by eapply Heq|].
    rewrite (Heq p b eq_refl Hb). cbn [w_purpose w_budget w_performance w_brand].
    apply purpose_weights_table in Hw as (Hs & _).
    assert (∀ x, py_abs (x / weights_sum w - x) <= 0.000000001) as Habs.
    { intros x. assert (x / weights_sum w - x == 0) as E by (rewrite Hs; field).
      unfold py_abs. revert E. generalize (x / weights_sum w - x). intros t E.
      destruct (Qltb_spec t 0); lra. }
    split_and!; apply Habs.
  - intros p' b' Hp' Hb'. rewrite (Heq p' b' Hp' Hb'). symmetry. by eapply Heq.
Qed.

Lemma dynamic_weights_purpose_table_witness :
  (∃ w, purpose_weights "office" = Some w
        ∧ _calculate_dynamic_weights
            (UserProfile.mk "office" (Some (Budget.mk 500 5000))
               "professional" None None "s" None)
          = {| w_purpose := w_purpose w / weights_sum w;
               w_budget := w_budget w / weights_sum w;
               w_performance := w_performance w / weights_sum w;
               w_brand := w_brand w / weights_sum w |}
        ∧ py_abs (w_purpose (_calculate_dynamic_weights
                               (UserProfile.mk "office" (Some (Budget.mk 500 5000))
                                  "professional" None None "s" None)) - w_purpose w)
          <= 0.000000001
        ∧ py_abs (w_budget (_calculate_dynamic_weights
                              (UserProfile.mk "office" (Some (Budget.mk 500 5000))
                                 "professional" None None "s" None)) - w_budget w)
          <= 0.000000001
        ∧ py_abs (w_performance (_calculate_dynamic_weights
                                   (UserProfile.mk "office" (Some (Budget.mk 500 5000))
                                      "professional" None None "s" None))
                  - w_performance w)
          <= 0.000000001
        ∧ py_abs (w_brand (_calculate_dynamic_weights
                             (UserProfile.mk "office" (Some (Budget.mk 500 5000))
                                "professional" None None "s" None)) - w_brand w)
          <= 0.000000001)
  ∧ ∀ p' b',
      UserProfile.purpose p' = "office" →
      UserProfile.budget p' = Some b' →
      _calculate_dynamic_weights p'
      = _calculate_dynamic_weights
          (UserProfile.mk "office" (Some (Budget.mk 500 5000))
             "professional" None None "s" None).
Proof.
  apply (dynamic_weights_purpose_table
           (UserProfile.mk "office" (Some (Budget.mk 500 5000))
              "professional" None None "s" None)
           (Budget.mk 500 5000)).
  - vm_compute. repeat (first [left; reflexivity | right]).
  - reflexivity.
Defined.

(** ** The scorer *)

Lemma py_max_ub (a b c : Q) : a <= c → b <= c → py_max a b <= c.
Proof. unfold py_max. by destruct (a <? b). Qed.

Lemma py_min_lb (a b c : Q) : c <= a → c <= b → c <= py_min a b.
Proof. unfold py_min. by destruct (b <? a). Qed.

Lemma purpose_score_safe_floor (purpose : string) (s : gmap string pyval) :
  60 <= _calculate_purpose_score_safe purpose s.
Proof.
  unfold _calculate_purpose_score_safe, try_except.
  destruct (as_num _) as [q|]; simpl; [apply py_max_lb_l | lra].
Qed.

Lemma budget_fit_safe_within (price : Q) (b : Budget.t) :
  Budget.min b <= price <= Budget.max b →
  70 <= _calculate_budget_fit_safe (PNum price) b.
Proof.
  intros [Hlo Hhi]. unfold _calculate_budget_fit_safe, try_except. simpl.
  destruct (Qltb_spec price (Budget.min b)); [lra|].
  destruct (Qltb_spec (Budget.max b) price); [lra|].
  destruct (_ =? 0); simpl; [lra|]. apply py_max_lb_l.
Qed.

Lemma performance_score_safe_floor (level : string) (pp : gmap string pyval) :
  65 <= _calculate_performance_score_safe level pp.
Proof.
  unfold _calculate_performance_score_safe, try_except.
  destruct (as_num _) as [q|]; simpl; [|lra].
  destruct (q >=? _); simpl.
  { pose proof (py_max_lb_l 85 (py_min 100 q)). lra. }
  destruct (q >=? _); simpl; [lra|].
  destruct (q >=? _); simpl; lra.
Qed.

(** The brand step never lowers the confidence. *)
Lemma add_brand_bonus_ge
    (self : RecommendationEngine) (config : Config.t) (p : UserProfile.t)
    (brand_weight_of : Q → Q) (text : Explanation)
    (cs cs' : Q) (mr mr' : list MatchReason) :
  add_brand_bonus self config p brand_weight_of text (cs, mr) = Some (cs', mr') →
  cs <= cs'.
Proof.
  unfold add_brand_bonus.
  destruct (truthy_opt _); [|intros [= <- <-]; lra].
  set (bonus := _calculate_brand_preference_bonus _ _ _).
  destruct (Qltb_spec 0 bonus) as [Hb|]; [|intros [= <- <-]; lra].
  unfold new_MatchReason.
  destruct (Qleb_spec 0 (brand_weight_of bonus)); simpl; [|done].
  destruct (brand_weight_of bonus <=? 1); simpl; [|done].
  intros [= <- <-].
  assert (0 <= bonus * brand_weight_of bonus) by (apply Qmult_le_0_compat; lra).
  lra.
Qed.

(** The confidence and the price of a scored candidate. *)
Lemma score_configuration_confidence
    (self : RecommendationEngine) (config : Config.t) (p : UserProfile.t)
    (safe_mode : bool) (r : Scored.t) :
  _score_configuration self config p safe_mode = Some r →
  0 <= Scored.confidence_score r <= 100 ∧ 0 < Scored.total_price r.
Proof.
  unfold _score_configuration. intros H.
  destruct (Config.total_price config) as [price| |]; simpl in H; try done.
  destruct (Qleb_spec price 0) as [|Hprice]; [done|].
  destruct (get_dict (Config.suitability_scores config)) as [ss|]; simpl in H; [|done].
  destruct (get_dict (Config.performance_profile config)) as [pp|]; simpl in H; [|done].
  destruct (UserProfile.budget p) as [b|]; simpl in H; [|done].
  destruct (_check_budget_constraints price b) eqn:Hc; simpl in H; [|done].
  match type of H with mbind _ ?m = _ => destruct m as [[cs mr]|] end;
    simpl in H; [|done].
  destruct (_identify_trade_offs _ _ _ _ _); simpl in H; [|done].
  match type of H with mbind _ ?m = _ => destruct m end; simpl in H; [|done].
  simplify_eq/=. split; [|lra].
  pose proof (py_max_lb_l 0 (py_min 100 cs)).
  pose proof (py_max_ub 0 (py_min 100 cs) 100 ltac:(lra) (py_min_ub_l 100 cs)).
  split.
  - by apply (py_round1_lower 0).
  - by apply (py_round1_upper 1000).
Qed.

(** X10. Whatever [_score_configuration] returns carries a confidence
    score between 0 and 100, the range of [RecommendedConfig], and a
    price above zero. *)
Theorem score_configuration_confidence_range
    (self : RecommendationEngine) (config : Config.t) (p : UserProfile.t)
    (safe_mode : bool) (r : Scored.t) :
  _score_configuration self config p safe_mode = Some r →
  0 <= Scored.confidence_score r <= 100 ∧ 0 < Scored.total_price r.
Proof. apply score_configuration_confidence. Qed.

Lemma score_configuration_confidence_range_witness :
  Forall (λ r, 0 <= Scored.confidence_score r <= 100 ∧ 0 < Scored.total_price r)
    (omap (λ config,
             _score_configuration catalog_two config
               (sample_profile 800 1500 [] "s1") false)
          (configs_collection catalog_two)).
Proof.
  apply Forall_forall. intros r Hr. apply list_elem_of_omap in Hr as (config & _ & Hr).
  exact (score_configuration_confidence_range
           catalog_two config (sample_profile 800 1500 [] "s1") false r Hr).
Defined.

(** The confidence of a candidate scored in safe mode. *)
Lemma score_configuration_safe_floor
    (self : RecommendationEngine) (config : Config.t) (p : UserProfile.t)
    (r : Scored.t) :
  _score_configuration self config p true = Some r →
  58 <= Scored.confidence_score r.
Proof.
  unfold _score_configuration. intros H.
  destruct (Config.total_price config) as [price| |]; simpl in H; try done.
  destruct (Qleb_spec price 0) as [|Hprice]; [done|].
  destruct (get_dict (Config.suitability_scores config)) as [ss|]; simpl in H; [|done].
  destruct (get_dict (Config.performance_profile config)) as [pp|]; simpl in H; [|done].
  destruct (UserProfile.budget p) as [b|]; simpl in H; [|done].
  destruct (_check_budget_constraints price b) eqn:Hc; simpl in H; [|done].
  apply check_budget_spec in Hc.
  pose proof (purpose_score_safe_floor (UserProfile.purpose p) ss).
  pose proof (budget_fit_safe_within price b Hc).
  pose proof (performance_score_safe_floor (UserProfile.performance_level p) pp).
  assert (∃ cs mr, 58 <= cs
            ∧ (trade_offs ← _identify_trade_offs price b pp
                              (UserProfile.performance_level p) (UserProfile.purpose p);
               match_reasons ←
                 match Config._fallback_type config with
                 | Some fallback_type =>
                     if String.eqb fallback_type "" then Some mr else
                     match fallback_note fallback_type with
                     | Some text =>
                         r ← new_MatchReason "fallback_note" 0.0 text;
                         Some (mr ++ [r])
                     | None => Some mr
                     end
                 | None => Some mr
                 end;
               Some {| Scored.configuration_id := Config._id config;
                       Scored.name :=
                         default "Unnamed Configuration" (Config.name config);
                       Scored.total_price := price;
                       Scored.confidence_score :=
                         py_round1 (py_max 0 (py_min 100 cs));
                       Scored.match_reasons := match_reasons;
                       Scored.trade_offs := trade_offs;
                       Scored.fallback_type := Config._fallback_type config |})
              = Some r) as (cs & mr & Hcs & H').
  { destruct (truthy_opt (UserProfile.preferred_brands p)).
    - destruct (Qltb_spec 0 (_calculate_brand_preference_bonus self
                               (Config.components config)
                               (default [] (UserProfile.preferred_brands p)))).
      + eexists _, _. split; [|exact H]. lra.
      + eexists _, _. split; [|exact H]. lra.
    - eexists _, _. split; [|exact H]. lra. }
  clear H.
  destruct (_identify_trade_offs _ _ _ _ _); simpl in H'; [|done].
  match type of H' with mbind _ ?m = _ => destruct m end; simpl in H'; [|done].
  simplify_eq/=.
  apply (py_round1_lower 580); [done|].
  apply Qle_trans with (py_min 100 cs); [apply py_min_lb; lra | apply py_max_lb_r].
Qed.

(** X11. In safe mode the confidence score of every scored candidate is
    at least 58: the purpose score is at least 60, the budget fit of a
    price within the budget at least 70 and the performance score at
    least 65, weighted 0.4, 0.3 and 0.2, and the brand step adds nothing
    negative. *)
Theorem safe_mode_confidence_at_least_58
    (self : RecommendationEngine) (config : Config.t) (p : UserProfile.t)
    (r : Scored.t) :
  _score_configuration self config p true = Some r →
  58 <= Scored.confidence_score r.
Proof. apply score_configuration_safe_floor. Qed.

Lemma safe_mode_confidence_at_least_58_witness :
  Forall (λ r, 58 <= Scored.confidence_score r)
    (omap (λ config,
             _score_configuration catalog_two config
               (sample_profile 800 1500 [] "s1") true)
          (configs_collection catalog_two)).
Proof.
  apply Forall_forall. intros r Hr. apply list_elem_of_omap in Hr as (config & _ & Hr).
  exact (safe_mode_confidence_at_least_58
           catalog_two config (sample_profile 800 1500 [] "s1") r Hr).
Defined.

Lemma shortfall_Some
    (pp : gmap string pyval) (key : string) (threshold : Q) (t : TradeOff)
    (l : list TradeOff) :
  is_Some (as_num (dict_get pp key (PNum 50))) →
  ∃ l', shortfall pp key threshold t l = Some l' ∧ (l' = l ∨ l' = l ++ [t]).
Proof.
  intros [figure Hf]. unfold shortfall. rewrite Hf. simpl.
  destruct (figure <? threshold); eauto.
Qed.

Lemma Qhalf_eq0 (x : Q) : x / 2 == 0 → x == 0.
Proof. intros H. assert (x == x / 2 * 2) as -> by field. rewrite H. reflexivity. Qed.

(** What [_identify_trade_offs] returns when nothing in it raises. *)
Lemma identify_trade_offs_Some
    (price : Q) (b : Budget.t) (pp : gmap string pyval)
    (required_level purpose : string) :
  ¬ Budget.min b + Budget.max b == 0 →
  (∀ key, key ∈ ["overall_performance"; "cpu_performance";
                 "gpu_performance"; "ram_performance"] →
          is_Some (as_num (dict_get pp key (PNum 50)))) →
  ∃ trade_offs,
    _identify_trade_offs price b pp required_level purpose = Some trade_offs
    ∧ (length trade_offs ≤ 5)%nat
    ∧ Forall (λ t, impact t = "negative" ∨ impact t = "neutral") trade_offs.
Proof.
  intros Hcentre Hpp. unfold _identify_trade_offs. cbv zeta.
  set (first_step := if price >? _ then _ else _).
  assert (∃ l0, first_step = Some l0 ∧ (length l0 ≤ 1)%nat
                ∧ Forall (λ t, impact t = "negative" ∨ impact t = "neutral") l0)
    as (l0 & -> & Hlen0 & Himp0).
  { unfold first_step. destruct (price >? _).
    - destruct (Qeqb_spec ((Budget.min b + Budget.max b) / 2) 0) as [E|_].
      + exfalso. by apply Hcentre, Qhalf_eq0.
      + eexists. split; [done|]. split; [simpl; lia|].
        constructor; [by left | constructor].
    - destruct (price <? _).
      + eexists. split; [done|]. split; [simpl; lia|].
        constructor; [by right | constructor].
      + eexists. split; [done|]. split; [simpl; lia|]. constructor. }
  cbn [mbind option_bind].
  assert (∀ key threshold ty l,
            key ∈ ["overall_performance"; "cpu_performance";
                   "gpu_performance"; "ram_performance"] →
            Forall (λ t, impact t = "negative" ∨ impact t = "neutral") l →
            ∃ l', shortfall pp key threshold {| type := ty; impact := "negative" |} l
                  = Some l'
                  ∧ (length l' ≤ S (length l))%nat
                  ∧ Forall (λ t, impact t = "negative" ∨ impact t = "neutral") l')
    as Hstep.
  { intros key threshold ty l Hkey Hl.
    destruct (shortfall_Some pp key threshold {| type := ty; impact := "negative" |} l
                (Hpp key Hkey)) as (l' & -> & [->| ->]).
    - exists l. split_and!; [done | lia | done].
    - eexists. split_and!; [done | rewrite length_app; simpl; lia |].
      apply Forall_app. split; [done|]. constructor; [by left | constructor]. }
  destruct (Hstep "overall_performance"
              (level_requirements required_level * purpose_multiplier purpose)
              "performance" l0) as (l1 & -> & Hlen1 & Himp1); [set_solver | done |].
  cbn [mbind option_bind].
  destruct (Hstep "cpu_performance"
              (level_requirements required_level * cpu_factor purpose)
              "cpu" l1) as (l2 & -> & Hlen2 & Himp2); [set_solver | done |].
  cbn [mbind option_bind].
  destruct (Hstep "gpu_performance"
              (level_requirements required_level * gpu_factor purpose)
              "gpu" l2) as (l3 & -> & Hlen3 & Himp3); [set_solver | done |].
  cbn [mbind option_bind].
  destruct (Hstep "ram_performance"
              (level_requirements required_level * ram_factor purpose)
              "memory" l3) as (l4 & -> & Hlen4 & Himp4); [set_solver | done |].
  exists l4. split_and!; [done | lia | done].
Qed.

(** X12. [_identify_trade_offs] returns, for a budget whose centre is not
    zero and a profile whose overall, CPU, GPU and RAM figures are
    numbers or absent, a list of at most five trade-offs, each with the
    impact negative or neutral (two of the three values the [TradeOff]
    model allows). *)
Theorem identify_trade_offs_total
    (price : Q) (b : Budget.t) (pp : gmap string pyval)
    (required_level purpose : string) :
  ¬ Budget.min b + Budget.max b == 0 →
  (∀ key, key ∈ ["overall_performance"; "cpu_performance";
                 "gpu_performance"; "ram_performance"] →
          is_Some (as_num (dict_get pp key (PNum 50)))) →
  ∃ trade_offs,
    _identify_trade_offs price b pp required_level purpose = Some trade_offs
    ∧ (length trade_offs ≤ 5)%nat
    ∧ Forall (λ t, impact t = "negative" ∨ impact t = "neutral") trade_offs.
Proof. apply identify_trade_offs_Some. Qed.

Lemma identify_trade_offs_total_witness :
  ∃ trade_offs,
    _identify_trade_offs 1400 (Budget.mk 800 1500)
      (list_to_map [("overall_performance", PNum 60); ("cpu_performance", PNum 40)])
      "high" "gaming"
    = Some trade_offs
    ∧ (length trade_offs ≤ 5)%nat
    ∧ Forall (λ t, impact t = "negative" ∨ impact t = "neutral") trade_offs.
Proof.
  apply (identify_trade_offs_total 1400 (Budget.mk 800 1500)
           (list_to_map [("overall_performance", PNum 60); ("cpu_performance", PNum 40)])
           "high" "gaming").
  - vm_compute. discriminate.
  - intros key Hkey. apply list_elem_of_In in Hkey. simpl in Hkey.
    destruct_or!; subst; try done; vm_compute; eauto.
Defined.

Lemma add_brand_bonus_total
    (self : RecommendationEngine) (config : Config.t) (p : UserProfile.t)
    (brand_weight_of : Q → Q) (text : Explanation) (acc : Q * list MatchReason) :
  (∀ bonus, 0 < bonus → 0 <= brand_weight_of bonus <= 1) →
  is_Some (add_brand_bonus self config p brand_weight_of text acc).
Proof.
  intros Hw. unfold add_brand_bonus. destruct acc as [cs mr].
  destruct (truthy_opt _); [|done].
  set (bonus := _calculate_brand_preference_bonus _ _ _).
  destruct (Qltb_spec 0 bonus) as [Hb|]; [|done].
  rewrite new_MatchReason_Some by auto. done.
Qed.

Lemma fallback_note_total (fallback_type : option string) (mr : list MatchReason) :
  is_Some
    match fallback_type with
    | Some fallback_type =>
        if String.eqb fallback_type "" then Some mr else
        match fallback_note fallback_type with
        | Some text =>
            r ← new_MatchReason "fallback_note" 0.0 text;
            Some (mr ++ [r])
        | None => Some mr
        end
    | None => Some mr
    end.
Proof.
  destruct fallback_type as [ft|]; [|done].
  destruct (String.eqb ft ""); [done|].
  destruct (fallback_note ft); [|done].
  rewrite new_MatchReason_Some by lra. done.
Qed.

(** X13. [_score_configuration] returns a scored candidate, in either
    mode, for every configuration none of whose components has an id (so
    that neither the brand lookup nor [_get_component_summaries] reads a
    component document), whose price is a number above zero and within
    the profile's budget, whose two score fields are dictionaries or
    absent, and whose overall, CPU, GPU and RAM figures are numbers or
    absent, the budget minimum not being negative; in normal mode the
    suitability score of the purpose must be a number or absent as well
    (safe mode replaces a non-number by 70). *)
Theorem score_configuration_total
    (self : RecommendationEngine) (config : Config.t) (p : UserProfile.t)
    (safe_mode : bool) (price : Q) (ss pp : gmap string pyval) (b : Budget.t) :
  omap component_id (Config.components config) = [] →
  Config.total_price config = PNum price →
  0 < price →
  get_dict (Config.suitability_scores config) = Some ss →
  get_dict (Config.performance_profile config) = Some pp →
  UserProfile.budget p = Some b →
  0 <= Budget.min b →
  Budget.min b <= price <= Budget.max b →
  (∀ key, key ∈ ["overall_performance"; "cpu_performance";
                 "gpu_performance"; "ram_performance"] →
          is_Some (as_num (dict_get pp key (PNum 50)))) →
  (safe_mode = false →
   is_Some (as_num (dict_get ss (purpose_mapping (UserProfile.purpose p)) (PNum 50)))) →
  is_Some (_score_configuration self config p safe_mode).
Proof.
  intros _ Hprice Hpos Hss Hpp Hb Hmin Hin Hfig Hsuit.
  unfold _score_configuration. rewrite Hprice, Hss, Hpp, Hb.
  cbn [as_num mbind option_bind].
  destruct (Qleb_spec price 0); [lra|].
  pose proof Hin as Hc. apply check_budget_spec in Hc. rewrite Hc. cbn [negb].
  destruct (identify_trade_offs_Some price b pp
              (UserProfile.performance_level p) (UserProfile.purpose p))
    as (trade_offs & Htr & _); [lra | done |].
  rewrite Htr.
  pose proof (dynamic_weights_unit_weights p) as (Hw1 & Hw2 & Hw3 & Hw4).
  set (weights := _calculate_dynamic_weights p) in *.
  assert (∀ m : option (Q * list MatchReason),
            is_Some m →
            is_Some
              ('(confidence_score, match_reasons) ← m;
               trade_offs ← Some trade_offs;
               let confidence_score := py_max 0 (py_min 100 confidence_score) in
               match_reasons ←
                 match Config._fallback_type config with
                 | Some fallback_type =>
                     if String.eqb fallback_type "" then Some match_reasons else
                     match fallback_note fallback_type with
                     | Some text =>
                         r ← new_MatchReason "fallback_note" 0.0 text;
                         Some (match_reasons ++ [r])
                     | None => Some match_reasons
                     end
                 | None => Some match_reasons
                 end;
               Some {| Scored.configuration_id := Config._id config;
                       Scored.name :=
                         default "Unnamed Configuration" (Config.name config);
                       Scored.total_price := price;
                       Scored.confidence_score := py_round1 confidence_score;
                       Scored.match_reasons := match_reasons;
                       Scored.trade_offs := trade_offs;
                       Scored.fallback_type := Config._fallback_type config |}))
    as Hrest.
  { intros m [[cs mr] ->]. cbn [mbind option_bind].
    destruct (fallback_note_total (Config._fallback_type config) mr) as [mr' ->].
    done. }
  apply Hrest. clear Hrest.
  destruct safe_mode.
  - rewrite !new_MatchReason_Some by (simpl; lra). cbn [mbind option_bind].
    apply add_brand_bonus_total. intros _ _. simpl. lra.
  - destruct (Hsuit eq_refl) as [base Hbase].
    unfold _calculate_purpose_score. rewrite Hbase. cbn [mbind option_bind].
    rewrite !new_MatchReason_Some by done.
    destruct (Hfig "overall_performance" ltac:(constructor)) as [overall Hov].
    unfold _generate_performance_explanation. rewrite Hov.
    cbn [mbind option_bind].
    rewrite !new_MatchReason_Some by done.
    destruct (_ >? 0); cbn [mbind option_bind];
      rewrite ?new_MatchReason_Some by done; cbn [mbind option_bind];
      (apply add_brand_bonus_total; intros bonus Hbonus; cbv beta;
       unfold py_min; destruct (Qltb_spec (w_brand weights) (bonus * 0.1)); lra).
Qed.

Lemma score_configuration_total_witness :
  is_Some (_score_configuration catalog_two (sample_config "a" 900 90 85)
             (sample_profile 800 1500 [] "s1") false).
Proof.
  apply (score_configuration_total catalog_two (sample_config "a" 900 90 85)
           (sample_profile 800 1500 [] "s1") false 900
           (list_to_map [("gaming", PNum 90); ("office", PNum 90);
                         ("creative", PNum 90); ("programming", PNum 90);
                         ("general", PNum 90)])
           (list_to_map [("overall_performance", PNum 85);
                         ("cpu_performance", PNum 85);
                         ("gpu_performance", PNum 85);
                         ("ram_performance", PNum 85);
                         ("storage_performance", PNum 85)])
           (Budget.mk 800 1500)).
  - reflexivity.
  - reflexivity.
  - reflexivity.
  - reflexivity.
  - reflexivity.
  - reflexivity.
  - vm_compute. discriminate.
  - split; vm_compute; discriminate.
  - intros key Hkey. apply list_elem_of_In in Hkey. simpl in Hkey.
    destruct_or!; subst; try done; vm_compute; eauto.
  - intros _. vm_compute. eauto.
Defined.

(** ** Sub-scores *)

(** X14. [_calculate_purpose_score] fails exactly when the suitability
    score it reads is not a number; otherwise its result never exceeds
    100, and it is not negative when the stored score is not. *)
Theorem purpose_score_range (purpose : string) (ss : gmap string pyval) :
  match as_num (dict_get ss (purpose_mapping purpose) (PNum 50)) with
  | None => _calculate_purpose_score purpose ss = None
  | Some base_score =>
      ∃ s, _calculate_purpose_score purpose ss = Some s
           ∧ s <= 100 ∧ (0 <= base_score → 0 <= s)
  end.
Proof.
  unfold _calculate_purpose_score.
  destruct (as_num _) as [base|]; [|done]. cbn [mbind option_bind].
  eexists. split; [done|]. split; [apply py_min_ub_l|].
  intros Hbase. apply py_min_lb; [lra|].
  rewrite purpose_match. apply Qmult_le_0_compat; [done|].
  repeat case_match; lra.
Qed.

Lemma purpose_score_range_witness :
  ∃ s, _calculate_purpose_score "gaming" {["gaming" := PNum 90]} = Some s
       ∧ s <= 100 ∧ 0 <= s.
Proof.
  destruct (purpose_score_range "gaming" {["gaming" := PNum 90]})
    as (s & Hs & Hle & Hge).
  exists s. split_and!; [exact Hs | exact Hle | apply Hge; vm_compute; discriminate].
Defined.

Lemma component_weights_cases (purpose : string) :
  ∃ c1 w1 c2 w2 c3 w3 c4 w4,
    component_weights purpose = [(c1, w1); (c2, w2); (c3, w3); (c4, w4)]
    ∧ [c1; c2; c3; c4] ≡ₚ ["cpu"; "gpu"; "ram"; "storage"]
    ∧ 0 <= w1 ∧ 0 <= w2 ∧ 0 <= w3 ∧ 0 <= w4
    ∧ w1 + w2 + w3 + w4 == 1.
Proof.
  unfold component_weights. rewrite purpose_match.
  repeat case_match; do 8 eexists; (split; [reflexivity|]);
    (split; [|simpl; lra]); by (done || solve_Permutation).
Qed.

(** X15. [_calculate_performance_score] takes one of the four values
    25, 50, 75 and 100, and is 100 whenever the CPU, GPU, RAM and storage
    figures are all numbers at or above the score the required level
    stands for: the component weights of every purpose add up to 1. *)
Theorem performance_score_full_marks
    (required_level : string) (pp : gmap string pyval) (purpose : string) :
  (_calculate_performance_score required_level pp purpose = 25
   ∨ _calculate_performance_score required_level pp purpose = 50
   ∨ _calculate_performance_score required_level pp purpose = 75
   ∨ _calculate_performance_score required_level pp purpose = 100)
  ∧ ((∀ c, c ∈ ["cpu"; "gpu"; "ram"; "storage"] →
           ∃ v, dict_get pp (c +:+ "_performance") (PNum 50) = PNum v
                ∧ level_mapping required_level <= v) →
     _calculate_performance_score required_level pp purpose = 100).
Proof.
  split.
  { unfold _calculate_performance_score. cbv zeta.
    repeat (destruct (_ >=? _); [tauto|]). tauto. }
  intros Hfig. unfold _calculate_performance_score.
  destruct (component_weights_cases purpose)
    as (c1 & w1 & c2 & w2 & c3 & w3 & c4 & w4 & -> & Hperm & ? & ? & ? & ? & Hsum).
  assert (∀ c, c ∈ [c1; c2; c3; c4] →
               ∃ v, dict_get pp (c +:+ "_performance") (PNum 50) = PNum v
                    ∧ level_mapping required_level <= v) as Hfig'.
  { intros c Hc. apply Hfig. by rewrite <- Hperm. }
  destruct (Hfig' c1) as (v1 & E1 & ?); [set_solver|].
  destruct (Hfig' c2) as (v2 & E2 & ?); [set_solver|].
  destruct (Hfig' c3) as (v3 & E3 & ?); [set_solver|].
  destruct (Hfig' c4) as (v4 & E4 & ?); [set_solver|].
  cbn [foldl fst snd]. rewrite E1, E2, E3, E4. cbn [as_num].
  clear Hfig Hfig'.
  generalize dependent (level_mapping required_level). intros req ? ? ? ?.
  destruct (Qleb_spec req (0 + v1 * w1 + v2 * w2 + v3 * w3 + v4 * w4)); [done|].
  assert (req * w1 <= v1 * w1) by (apply Qmult_le_compat_r; done).
  assert (req * w2 <= v2 * w2) by (apply Qmult_le_compat_r; done).
  assert (req * w3 <= v3 * w3) by (apply Qmult_le_compat_r; done).
  assert (req * w4 <= v4 * w4) by (apply Qmult_le_compat_r; done).
  assert (req == req * (w1 + w2 + w3 + w4)) by (rewrite Hsum; ring).
  lra.
Qed.

Lemma performance_score_full_marks_witness :
  _calculate_performance_score "high"
    (list_to_map [("cpu_performance", PNum 70); ("gpu_performance", PNum 90);
                  ("ram_performance", PNum 75); ("storage_performance", PNum 70)])
    "gaming" = 100.
Proof.
  apply (performance_score_full_marks "high"
           (list_to_map [("cpu_performance", PNum 70); ("gpu_performance", PNum 90);
                         ("ram_performance", PNum 75); ("storage_performance", PNum 70)])
           "gaming").
  intros c Hc. apply list_elem_of_In in Hc. simpl in Hc.
  destruct_or!; subst; try done; eexists; (split; [vm_compute; reflexivity|]);
    vm_compute; discriminate.
Defined.

Lemma filter_length_le {A : Type} (f : A → bool) (l : list A) :
  (length (List.filter f l) ≤ length l)%nat.
Proof. induction l as [|x l IH]; simpl; [lia|]. destruct (f x); simpl; lia. Qed.

(** X16. [_calculate_brand_preference_bonus] lies between 0 and 100, and is
    0 when no brand is preferred, when the configuration names no
    component, and when none of the named components is in the
    collection. *)
Theorem brand_bonus_range
    (self : RecommendationEngine) (components : list ComponentRef)
    (preferred_brands : list string) :
  0 <= _calculate_brand_preference_bonus self components preferred_brands <= 100
  ∧ (preferred_brands = [] ∨ omap component_id components = []
     ∨ (∀ doc, doc ∈ components_collection self →
               Component._id doc ∉ omap component_id components) →
     _calculate_brand_preference_bonus self components preferred_brands = 0).
Proof.
  unfold _calculate_brand_preference_bonus.
  set (ids := omap component_id components).
  set (docs := List.filter _ (components_collection self)).
  set (matching := List.filter _ docs).
  pose proof (filter_length_le
                (λ doc, bool_decide (upper (default "" (Component.brand doc))
                                       ∈ (upper <$> preferred_brands))) docs) as Hle.
  fold matching in Hle.
  split.
  - destruct (truthy preferred_brands); cbn [negb]; [|lra].
    destruct (truthy ids); cbn [negb]; [|lra].
    destruct (length docs =? 0)%nat eqn:E; [lra|]. apply Nat.eqb_neq in E.
    assert (0 < inject_Z (Z.of_nat (length docs))) as Ht.
    { rewrite <- (Zlt_Qlt 0). lia. }
    assert (0 <= inject_Z (Z.of_nat (length matching))) as Hm.
    { rewrite <- (Zle_Qle 0). lia. }
    assert (inject_Z (Z.of_nat (length matching))
            <= inject_Z (Z.of_nat (length docs))) as Hmt.
    { rewrite <- Zle_Qle. lia. }
    assert (0 <= inject_Z (Z.of_nat (length matching))
                 / inject_Z (Z.of_nat (length docs)) <= 1) as [H0 H1].
    { split; [apply Qle_shift_div_l | apply Qle_shift_div_r]; try done; lra. }
    generalize dependent (inject_Z (Z.of_nat (length matching))
                          / inject_Z (Z.of_nat (length docs))).
    intros q ? ?. lra.
  - intros [->|[Hids|Hnone]]; [done| |].
    + destruct (truthy preferred_brands); cbn [negb]; [|done].
      by rewrite Hids.
    + destruct (truthy preferred_brands); cbn [negb]; [|done].
      destruct (truthy ids); cbn [negb]; [|done].
      assert (docs = []) as ->; [|done].
      apply filter_nil. intros doc Hdoc. apply bool_decide_eq_false. by apply Hnone.
Qed.

Lemma brand_bonus_range_witness :
  0 <= _calculate_brand_preference_bonus catalog_brands
         [ {| component_id := Some "gpu-n" |} ] ["nvidia"] <= 100
  ∧ _calculate_brand_preference_bonus catalog_brands
      [ {| component_id := Some "gpu-n" |} ] [] = 0.
Proof.
  split.
  - apply (brand_bonus_range catalog_brands [ {| component_id := Some "gpu-n" |} ]
             ["nvidia"]).
  - apply (brand_bonus_range catalog_brands [ {| component_id := Some "gpu-n" |} ] []).
    left. reflexivity.
Defined.

(** ** Candidate retrieval *)

Lemma gte_mono (v : pyval) (q q' : Q) : q' <= q → gte v q = true → gte v q' = true.
Proof.
  intros Hq. destruct v as [x| |]; simpl; try done.
  destruct (Qleb_spec q x); [|done]. intros _.
  destruct (Qleb_spec q' x); [done|lra].
Qed.

Lemma gte_num (v : pyval) (q : Q) : gte v q = true → ∃ x, v = PNum x.
Proof. destruct v; simpl; try done. eauto. Qed.

(** A document that passes a [$match] with thresholds has numbers in both
    fields, so its relevance can be computed. *)
Lemma relevance_score_matches (pl : Pipeline) (c : Config.t) :
  is_Some (thresholds pl) → matches pl c = true → is_Some (relevance_score pl c).
Proof.
  intros [[ms mp] Ht]. unfold matches, relevance_score. rewrite Ht.
  rewrite !andb_true_iff. intros (_ & (Hs%gte_num & Hp%gte_num)).
  destruct Hs as [x ->], Hp as [y ->]. by eexists.
Qed.

(** What an aggregation that ran returns: the first [limit] documents of
    a rearrangement of those that pass the [$match] stage. *)
Lemma aggregate_Some (collection : list Config.t) (pl : Pipeline) (l : list Config.t) :
  aggregate collection pl = Some l →
  ∃ sorted_configs,
    sorted_configs ≡ₚ List.filter (matches pl) collection
    ∧ l = take (limit pl) sorted_configs.
Proof.
  unfold aggregate. intros H.
  destruct (mapM _ _) as [scored|] eqn:Hm; simpl in H; [|done].
  injection H as <-. eexists. split; [|done].
  rewrite stable_sort_perm.
  apply (mapM_fmap_Some_inv _ fst) in Hm as ->; [done|].
  intros c [c' r]. destruct (relevance_score pl c); simpl; [|done].
  by intros [= -> _].
Qed.

Lemma filter_elem {A : Type} (f : A → bool) (l : list A) (x : A) :
  x ∈ List.filter f l ↔ x ∈ l ∧ f x = true.
Proof.
  rewrite !list_elem_of_In, List.filter_In. done.
Qed.

Lemma aggregate_elem
    (collection : list Config.t) (pl : Pipeline) (l : list Config.t) (c : Config.t) :
  aggregate collection pl = Some l → c ∈ l → c ∈ collection ∧ matches pl c = true.
Proof.
  intros (s & Hs & ->)%aggregate_Some Hc.
  apply elem_of_take in Hc as (i & Hc & _). apply list_elem_of_lookup_2 in Hc.
  rewrite Hs in Hc. by apply filter_elem.
Qed.

Lemma aggregate_nil_inv (collection : list Config.t) (pl : Pipeline) :
  aggregate collection pl = Some [] → (1 ≤ limit pl)%nat →
  List.filter (matches pl) collection = [].
Proof.
  intros (s & Hs & Hl)%aggregate_Some Hlim.
  destruct s as [|c s]; [by apply Permutation_nil_l in Hs|].
  destruct (limit pl); [lia|done].
Qed.

Lemma aggregate_filter_nil (collection : list Config.t) (pl : Pipeline) :
  List.filter (matches pl) collection = [] → aggregate collection pl = Some [].
Proof. unfold aggregate. intros ->. simpl. by rewrite take_nil. Qed.

Lemma aggregate_thresholds_total (collection : list Config.t) (pl : Pipeline) :
  is_Some (thresholds pl) → is_Some (aggregate collection pl).
Proof.
  intros Ht. unfold aggregate.
  destruct (mapM_is_Some_2 (λ c, r ← relevance_score pl c; Some (c, r))
              (List.filter (matches pl) collection)) as [scored ->]; [|done].
  apply Forall_forall. intros c [_ Hc]%filter_elem.
  destruct (relevance_score_matches pl c Ht Hc) as [r Hr].
  simpl. rewrite Hr. done.
Qed.

Lemma unique_configs_elem (seen : gset string) (l : list Config.t) (c : Config.t) :
  c ∈ unique_configs seen l → c ∈ l ∧ Config._id c ∉ seen.
Proof.
  revert seen. induction l as [|x l IH]; intros seen; simpl.
  - by intros ?%elem_of_nil.
  - destruct (decide (Config._id x ∈ seen)).
    + intros [? ?]%IH. split; [by apply list_elem_of_further | done].
    + intros [->|[? Hns]%IH]%elem_of_cons.
      * split; [apply list_elem_of_here | done].
      * split; [by apply list_elem_of_further |].
        intros Hs. by apply Hns, elem_of_union_r.
Qed.

Lemma unique_configs_first (seen : gset string) (l : list Config.t) (c : Config.t) :
  c ∈ unique_configs seen l →
  ∃ l1 l2, l = l1 ++ c :: l2 ∧ Config._id c ∉ Config._id <$> l1.
Proof.
  revert seen. induction l as [|x l IH]; intros seen; simpl.
  - by intros ?%elem_of_nil.
  - destruct (decide (Config._id x ∈ seen)) as [Hin|Hnin].
    + intros Hc. pose proof (unique_configs_elem _ _ _ Hc) as [_ Hns].
      destruct (IH _ Hc) as (l1 & l2 & -> & Hl1).
      exists (x :: l1), l2. split; [done|].
      cbn [fmap list_fmap]. rewrite not_elem_of_cons. split; [|done].
      intros E. apply Hns. by rewrite E.
    + intros [->|Hc]%elem_of_cons.
      * exists [], l. split; [done|]. cbn [fmap list_fmap]. apply not_elem_of_nil.
      * pose proof (unique_configs_elem _ _ _ Hc) as [_ Hns].
        destruct (IH _ Hc) as (l1 & l2 & -> & Hl1).
        exists (x :: l1), l2. split; [done|].
        cbn [fmap list_fmap]. rewrite not_elem_of_cons. split; [|done].
        intros E. apply Hns, elem_of_union_l, elem_of_singleton. done.
Qed.

(** X18. The loop that drops duplicates keeps, for every [_id] of its
    input, exactly one document, the first with that [_id], and nothing
    else: the result has no two documents with the same [_id], is a
    sublist of the input, has every [_id] the input has, and each
    document it keeps stands in the input at a place before which no
    document has the same [_id]. *)
Theorem unique_configs_spec (combined : list Config.t) :
  NoDup (Config._id <$> unique_configs ∅ combined)
  ∧ unique_configs ∅ combined `sublist_of` combined
  ∧ (∀ c, c ∈ combined →
          Config._id c ∈ Config._id <$> unique_configs ∅ combined)
  ∧ (unique_configs ∅ combined = [] → combined = [])
  ∧ (∀ c, c ∈ unique_configs ∅ combined →
          ∃ l1 l2, combined = l1 ++ c :: l2 ∧ Config._id c ∉ Config._id <$> l1).
Proof.
  assert (∀ seen l,
            NoDup (Config._id <$> unique_configs seen l)
            ∧ unique_configs seen l `sublist_of` l
            ∧ (∀ c, c ∈ l → Config._id c ∈ seen
                             ∨ Config._id c ∈ Config._id <$> unique_configs seen l))
    as Hgen.
  { intros seen l. revert seen. induction l as [|x l IH]; intros seen; simpl.
    - split_and!; [constructor | done | by intros c ?%elem_of_nil].
    - destruct (decide (Config._id x ∈ seen)) as [Hin|Hnin].
      + destruct (IH seen) as (Hnd & Hsub & Hall). split_and!; [done | |].
        * by apply sublist_cons.
        * intros c [->|Hc]%elem_of_cons; [by left | by apply Hall].
      + destruct (IH ({[Config._id x]} ∪ seen)) as (Hnd & Hsub & Hall).
        split_and!.
        * cbn [fmap list_fmap]. apply NoDup_cons. split; [|done].
          intros (c & Hid & Hc%unique_configs_elem)%list_elem_of_fmap.
          destruct Hc as [_ Hc]. apply Hc, elem_of_union_l, elem_of_singleton.
          done.
        * by apply sublist_skip.
        * intros c [->|Hc]%elem_of_cons.
          -- right. cbn [fmap list_fmap]. apply list_elem_of_here.
          -- destruct (Hall c Hc) as [Hs|Hs].
             ++ apply elem_of_union in Hs as [Hs%elem_of_singleton|Hs].
                ** right. cbn [fmap list_fmap]. rewrite Hs. apply list_elem_of_here.
                ** by left.
             ++ right. cbn [fmap list_fmap]. by apply list_elem_of_further. }
  destruct (Hgen ∅ combined) as (Hnd & Hsub & Hall).
  split_and!; [done | done | | |].
  - intros c Hc. destruct (Hall c Hc) as [?|?]; [set_solver | done].
  - intros Hnil. destruct combined as [|c l]; [done|].
    destruct (Hall c (list_elem_of_here _ _)) as [?|Hc]; [set_solver|].
    rewrite Hnil in Hc. by apply elem_of_nil in Hc.
  - intros c. apply unique_configs_first.
Qed.

(** Two documents with the same [_id] and different prices: the one
    that comes first is kept. *)
Lemma unique_configs_spec_witness :
  unique_configs ∅ [sample_config "a" 900 90 85; sample_config "b" 1000 90 85;
                    sample_config "a" 1400 50 50]
  = [sample_config "a" 900 90 85; sample_config "b" 1000 90 85]
  ∧ NoDup (Config._id
             <$> unique_configs ∅ [sample_config "a" 900 90 85;
                                   sample_config "b" 1000 90 85;
                                   sample_config "a" 1400 50 50])
  ∧ unique_configs ∅ [sample_config "a" 900 90 85; sample_config "b" 1000 90 85;
                      sample_config "a" 1400 50 50]
    `sublist_of` [sample_config "a" 900 90 85; sample_config "b" 1000 90 85;
                  sample_config "a" 1400 50 50].
Proof.
  split; [vm_compute; reflexivity|].
  pose proof (unique_configs_spec [sample_config "a" 900 90 85;
                                   sample_config "b" 1000 90 85;
                                   sample_config "a" 1400 50 50])
    as (Hnd & Hsub & _).
  by split.
Defined.

(** ** The fallback stages after an empty first query *)

Lemma py_max_mono (a b b' : Q) : b <= b' → py_max a b <= py_max a b'.
Proof.
  intros H. unfold py_max.
  destruct (Qltb_spec a b), (Qltb_spec a b'); lra.
Qed.

Lemma safe_purpose_thresholds_le (purpose : string) :
  safe_purpose_thresholds purpose <= purpose_thresholds purpose.
Proof.
  unfold safe_purpose_thresholds, purpose_thresholds. rewrite !purpose_match.
  repeat case_match; lra.
Qed.

Lemma safe_performance_thresholds_le (level : string) :
  safe_performance_thresholds level <= performance_thresholds level.
Proof.
  unfold safe_performance_thresholds, performance_thresholds. rewrite !level_match.
  repeat case_match; lra.
Qed.

(** Lower thresholds on the same price range let the same documents
    through, and more. *)
Lemma matches_weaken (lo hi : Q) (field : string) (s f s' f' : Q) (n n' : nat)
    (c : Config.t) :
  s' <= s → f' <= f →
  matches {| price_gte := lo; price_lte := hi; purpose_field := field;
             thresholds := Some (s, f); limit := n |} c = true →
  matches {| price_gte := lo; price_lte := hi; purpose_field := field;
             thresholds := Some (s', f'); limit := n' |} c = true.
Proof.
  intros Hs Hf. unfold matches. simpl. rewrite !andb_true_iff.
  intros (Hfirst & Hg1 & Hg2). split; [done|].
  split; by eapply gte_mono.
Qed.

Lemma unique_configs_nil_inv (l : list Config.t) : unique_configs ∅ l = [] → l = [].
Proof.
  destruct l as [|c l]; [done|]. simpl.
  destruct (decide (Config._id c ∈ ∅)) as [H|]; [|done].
  by apply elem_of_empty in H.
Qed.

Lemma take_nil_inv {A : Type} (n : nat) (l : list A) :
  take n l = [] → (1 ≤ n)%nat → l = [].
Proof. destruct n, l; simpl; try done; lia. Qed.

Lemma filter_nil_inv {A : Type} (f : A → bool) (l : list A) (x : A) :
  List.filter f l = [] → x ∈ l → f x = false.
Proof.
  intros Hnil Hx. destruct (f x) eqn:E; [|done].
  assert (x ∈ List.filter f l) as Hin by by apply filter_elem.
  rewrite Hnil in Hin. by apply elem_of_nil in Hin.
Qed.

(** The thresholds of the first query, by mode. *)
Lemma query_configurations_nil
    (self : RecommendationEngine) (p : UserProfile.t) (b : Budget.t)
    (max_recommendations : nat) (safe_mode : bool) (n : nat) (c : Config.t) :
  query_configurations self p b max_recommendations safe_mode = [] →
  c ∈ configs_collection self →
  matches {| price_gte := Budget.min b; price_lte := Budget.max b;
             purpose_field := UserProfile.purpose p;
             thresholds :=
               Some (purpose_thresholds (UserProfile.purpose p),
                     performance_thresholds (UserProfile.performance_level p));
             limit := n |} c = false
  ∧ ((1 ≤ max_recommendations)%nat →
     matches {| price_gte := Budget.min b; price_lte := Budget.max b;
                purpose_field := UserProfile.purpose p;
                thresholds :=
                  Some (py_max 20 (purpose_thresholds (UserProfile.purpose p) - 20),
                        py_max 20 (performance_thresholds
                                     (UserProfile.performance_level p) - 20));
                limit := n |} c = false).
Proof.
  intros Hq Hc. unfold query_configurations, try_except in Hq. cbv zeta in Hq.
  set (ms := if safe_mode then safe_purpose_thresholds (UserProfile.purpose p)
             else purpose_thresholds (UserProfile.purpose p)) in *.
  set (mp := if safe_mode
             then safe_performance_thresholds (UserProfile.performance_level p)
             else performance_thresholds (UserProfile.performance_level p)) in *.
  assert (ms <= purpose_thresholds (UserProfile.purpose p)) as Hms.
  { unfold ms. destruct safe_mode; [apply safe_purpose_thresholds_le | lra]. }
  assert (mp <= performance_thresholds (UserProfile.performance_level p)) as Hmp.
  { unfold mp. destruct safe_mode; [apply safe_performance_thresholds_le | lra]. }
  set (pl := {| price_gte := Budget.min b; price_lte := Budget.max b;
                purpose_field := UserProfile.purpose p;
                thresholds := Some (ms, mp);
                limit := max_recommendations + 20 |}) in *.
  set (pl' := {| price_gte := Budget.min b; price_lte := Budget.max b;
                 purpose_field := UserProfile.purpose p;
                 thresholds := Some (py_max 20 (ms - 20), py_max 20 (mp - 20));
                 limit := max_recommendations + 15 |}) in *.
  destruct (aggregate_thresholds_total (configs_collection self) pl) as [configs Ha];
    [by eexists|].
  destruct (aggregate_thresholds_total (configs_collection self) pl') as [fb Ha'];
    [by eexists|].
  rewrite Ha in Hq. cbn [mbind option_bind] in Hq.
  assert (configs = [] ∧ ((1 ≤ max_recommendations)%nat → fb = [])) as [-> Hfb].
  { destruct (length configs <? max_recommendations)%nat eqn:Hlen.
    - rewrite Ha' in Hq. simpl in Hq.
      apply take_nil_inv in Hq; [|lia]. apply unique_configs_nil_inv in Hq.
      apply app_eq_nil in Hq as [-> ->]. done.
    - simpl in Hq. subst configs. split; [done|].
      apply Nat.ltb_ge in Hlen. simpl in Hlen. lia. }
  apply aggregate_nil_inv in Ha; [|simpl; lia].
  split.
  - destruct (matches _ c) eqn:Hm; [|done].
    rewrite <- (filter_nil_inv _ _ c Ha Hc).
    symmetry. eapply matches_weaken; [exact Hms | exact Hmp | exact Hm].
  - intros Hmax. rewrite (Hfb Hmax) in Ha'.
    apply aggregate_nil_inv in Ha'; [|simpl; lia].
    destruct (matches _ c) eqn:Hm; [|done].
    rewrite <- (filter_nil_inv _ _ c Ha' Hc).
    symmetry. eapply matches_weaken; [| | exact Hm]; apply py_max_mono; lra.
Qed.

Lemma fmap_mark_nil (mark : string) (configs : list Config.t) :
  configs = [] →
  (λ config,
     Config.mk (Config._id config) (Config.name config) (Config.total_price config)
       (Config.suitability_scores config) (Config.performance_profile config)
       (Config.components config) (Some mark)) <$> configs = [].
Proof. by intros ->. Qed.

Lemma first_two_stages_nil
    (self : RecommendationEngine) (p : UserProfile.t) (b : Budget.t)
    (max_recommendations : nat) (safe_mode : bool) :
  UserProfile.budget p = Some b →
  query_configurations self p b max_recommendations safe_mode = [] →
  fallback_query self p max_recommendations RelaxPreferredBrands = []
  ∧ ((1 ≤ max_recommendations)%nat →
     fallback_query self p max_recommendations RelaxPerformance = []).
Proof.
  intros Hb Hq. unfold fallback_query, _try_fallback_query, try_except.
  rewrite Hb. cbn [mbind option_bind]. split; [|intros Hmax].
  - rewrite aggregate_filter_nil; [done|].
    apply filter_nil. intros c Hc.
    by apply (query_configurations_nil self p b max_recommendations safe_mode).
  - rewrite aggregate_filter_nil; [done|].
    apply filter_nil. intros c Hc.
    by apply (query_configurations_nil self p b max_recommendations safe_mode).
Qed.

(** X19. When the first query of [generate_recommendations] (strict, then
    broadened) has returned nothing, in either mode, the stage
    RelaxPreferredBrands returns nothing, and so does RelaxPerformance
    when at least one recommendation is asked for: the first repeats the
    strict thresholds on the same price range, the second the broadened
    ones, and the safe-mode thresholds are lower than both. *)
Theorem first_fallback_stages_repeat_the_query
    (self : RecommendationEngine) (p : UserProfile.t) (b : Budget.t)
    (max_recommendations : nat) (safe_mode : bool) :
  UserProfile.budget p = Some b →
  query_configurations self p b max_recommendations safe_mode = [] →
  (1 ≤ max_recommendations)%nat →
  fallback_query self p max_recommendations RelaxPreferredBrands = []
  ∧ fallback_query self p max_recommendations RelaxPerformance = [].
Proof.
  intros Hb Hq Hmax.
  destruct (first_two_stages_nil self p b max_recommendations safe_mode Hb Hq).
  auto.
Qed.

Lemma first_fallback_stages_repeat_the_query_witness :
  fallback_query catalog_weak (sample_profile 1000 2000 ["NVIDIA"] "s1") 3
    RelaxPreferredBrands = []
  ∧ fallback_query catalog_weak (sample_profile 1000 2000 ["NVIDIA"] "s1") 3
      RelaxPerformance = [].
Proof.
  apply (first_fallback_stages_repeat_the_query catalog_weak
           (sample_profile 1000 2000 ["NVIDIA"] "s1") (Budget.mk 1000 2000) 3 false).
  - reflexivity.
  - vm_compute. reflexivity.
  - lia.
Defined.

Lemma fallback_query_elem
    (self : RecommendationEngine) (p : UserProfile.t) (b : Budget.t)
    (max_recommendations : nat) (c : Config.t) :
  UserProfile.budget p = Some b →
  c ∈ fallback_query self p max_recommendations ExpandBudget →
  ∃ c0 lo hi,
    c0 ∈ configs_collection self
    ∧ Config.total_price c = Config.total_price c0
    ∧ matches {| price_gte := lo; price_lte := hi;
                 purpose_field := UserProfile.purpose p;
                 thresholds :=
                   Some (purpose_thresholds (UserProfile.purpose p),
                         performance_thresholds (UserProfile.performance_level p));
                 limit := max_recommendations + 10 |} c0 = true.
Proof.
  intros Hb. unfold fallback_query, _try_fallback_query, try_except.
  rewrite Hb. cbn [mbind option_bind].
  match goal with
  | |- context [aggregate ?coll ?pl] => destruct (aggregate coll pl) as [l|] eqn:Ha
  end; simpl; [|by intros ?%elem_of_nil].
  intros (c0 & -> & Hc0)%list_elem_of_fmap.
  destruct (aggregate_elem _ _ _ _ Ha Hc0) as [Hin Hm].
  by eexists c0, _, _.
Qed.

(** A configuration whose price fails the check against the profile's
    budget is dropped by the scorer. *)
Lemma score_configuration_outside
    (self : RecommendationEngine) (config : Config.t) (p : UserProfile.t)
    (safe_mode : bool) (b : Budget.t) :
  UserProfile.budget p = Some b →
  price_in_range (Budget.min b) (Budget.max b) config = false →
  _score_configuration self config p safe_mode = None.
Proof.
  intros Hb Hout. unfold _score_configuration. rewrite Hb.
  unfold price_in_range, gte, lte in Hout.
  destruct (Config.total_price config) as [price| |]; simpl; try done.
  destruct (price <=? 0); [done|].
  destruct (get_dict (Config.suitability_scores config)); simpl; [|done].
  destruct (get_dict (Config.performance_profile config)); simpl; [|done].
  unfold _check_budget_constraints. rewrite Hout. done.
Qed.

Lemma expand_budget_rejected
    (self : RecommendationEngine) (p : UserProfile.t) (b : Budget.t)
    (max_recommendations : nat) (safe_mode safe_mode' : bool) (c : Config.t) :
  UserProfile.budget p = Some b →
  query_configurations self p b max_recommendations safe_mode = [] →
  c ∈ fallback_query self p max_recommendations ExpandBudget →
  _score_configuration self c p safe_mode' = None.
Proof.
  intros Hb Hq Hc.
  destruct (fallback_query_elem self p b max_recommendations c Hb Hc)
    as (c0 & lo & hi & Hin & Hprice & Hm).
  apply score_configuration_outside with b; [done|].
  destruct (price_in_range (Budget.min b) (Budget.max b) c) eqn:Hr; [|done].
  destruct (query_configurations_nil self p b max_recommendations safe_mode
              (max_recommendations + 10) c0 Hq Hin) as [Hno _].
  rewrite <- Hno. symmetry. revert Hm Hr. unfold matches, price_in_range. simpl.
  rewrite Hprice, !andb_true_iff. intros ((? & _) & ?) ?. done.
Qed.

Lemma omap_all_None {A B : Type} (f : A → option B) (l : list A) :
  (∀ x, x ∈ l → f x = None) → omap f l = [].
Proof.
  induction l as [|x l IH]; intros H; simpl; [done|].
  rewrite (H x) by apply list_elem_of_here.
  apply IH. intros y Hy. apply H. by apply list_elem_of_further.
Qed.

(** X20. The ExpandBudget stage cannot contribute a recommendation. When
    the first query has returned nothing, every configuration that stage
    finds lies outside the profile's own budget (one inside would have
    passed the first query) and the scorer drops it. As the stage's
    result is not empty, RemoveAllConstraints is not tried, and a request
    for at least one recommendation ends with the [ValueError] raised
    after scoring. *)
Theorem expand_budget_stage_ends_in_failure
    (self : RecommendationEngine) (cache : Cache.t) (now : Z)
    (p : UserProfile.t) (b : Budget.t) (max_recommendations : nat) (safe_mode : bool) :
  UserProfile.budget p = Some b →
  cache_miss cache now p max_recommendations safe_mode →
  (1 ≤ max_recommendations)%nat →
  query_configurations self p b max_recommendations safe_mode = [] →
  fallback_query self p max_recommendations ExpandBudget ≠ [] →
  (∀ c, c ∈ fallback_query self p max_recommendations ExpandBudget →
        _score_configuration self c p safe_mode = None)
  ∧ fst (retrieve self p b max_recommendations safe_mode)
    = fallback_query self p max_recommendations ExpandBudget
  ∧ fst (generate_recommendations self cache now p max_recommendations safe_mode)
    = Raise (ValueError
         "No PC configurations meet the minimum requirements after detailed scoring").
Proof.
  intros Hb Hmiss Hmax Hq Hne.
  assert (∀ c, c ∈ fallback_query self p max_recommendations ExpandBudget →
               _score_configuration self c p safe_mode = None) as Hrej.
  { intros c Hc. by eapply expand_budget_rejected. }
  destruct (first_two_stages_nil self p b max_recommendations safe_mode Hb Hq)
    as [H1 H2]. specialize (H2 Hmax).
  assert (fst (retrieve self p b max_recommendations safe_mode)
          = fallback_query self p max_recommendations ExpandBudget) as Hret.
  { unfold retrieve, progressive_fallback, attempt. rewrite Hq.
    revert H1 H2 Hne. generalize (fallback_query self p max_recommendations) as q.
    intros q H1 H2 Hne. simpl.
    destruct (truthy_opt (UserProfile.preferred_brands p)); simpl;
      rewrite ?H1, ?H2; simpl; rewrite ?H2; simpl;
      destruct (q ExpandBudget); done. }
  split_and!; [done | done |].
  unfold generate_recommendations. unfold cache_miss in Hmiss. rewrite Hb.
  revert Hmiss.
  generalize (cache_key p max_recommendations safe_mode) as key. intros key.
  destruct (Cache.get cache now key) as [cached cache1]. simpl. intros ->.
  rewrite Hret. unfold score_all. rewrite (omap_all_None _ _ Hrej).
  apply truthy_true in Hne. rewrite Hne. done.
Qed.

Lemma expand_budget_stage_ends_in_failure_witness :
  (∀ c, c ∈ fallback_query catalog_360 (sample_profile 200 350 [] "s1") 3 ExpandBudget →
        _score_configuration catalog_360 c (sample_profile 200 350 [] "s1") false = None)
  ∧ fst (retrieve catalog_360 (sample_profile 200 350 [] "s1") (Budget.mk 200 350)
           3 false)
    = fallback_query catalog_360 (sample_profile 200 350 [] "s1") 3 ExpandBudget
  ∧ fst (generate_recommendations catalog_360 empty_cache 0
           (sample_profile 200 350 [] "s1") 3 false)
    = Raise (ValueError
         "No PC configurations meet the minimum requirements after detailed scoring").
Proof.
  apply (expand_budget_stage_ends_in_failure catalog_360 empty_cache 0
           (sample_profile 200 350 [] "s1") (Budget.mk 200 350) 3 false).
  - reflexivity.
  - apply cache_miss_empty.
  - lia.
  - vm_compute. reflexivity.
  - vm_compute. discriminate.
Defined.

(** ** Request validation ([app/api/routes/recommendations.py]) *)

Lemma validate_strings_nil (name : string) (v : pyobj) :
  validate_strings name v = [] →
  ∃ l, v = OList l ∧ Forall (λ e, ∃ s, e = OStr s ∧ strip_truthy s = true) l.
Proof.
  destruct v as [| | | | | | |l|]; try done. simpl. intros H. exists l. split; [done|].
  induction l as [|e l IH]; [constructor|].
  simpl in H. apply app_eq_nil in H as [He Hl].
  constructor; [|by apply IH].
  destruct e as [| | | | | |s| |]; try done.
  exists s. split; [done|]. by destruct (strip_truthy s).
Qed.

Lemma value_of_number (v : pyobj) (q : Q) :
  value_of v = Some (Finite q) ↔ number_of v = Some q.
Proof. destruct v as [|b| | | | | | |]; simpl; split; intros H; by simplify_eq. Qed.

Lemma float_lt_Finite (x y : Q) : float_lt (Finite x) (Finite y) = (x <? y).
Proof. reflexivity. Qed.

(** The two range tests on a pair of bounds neither of which is a NaN. *)
Lemma budget_tests_pass (lo hi : float_value) :
  float_lt lo (Finite 0) || float_lt hi lo = false →
  float_lt lo (Finite 100) || float_lt (Finite 10000) hi = false →
  lo = NotANumber ∨ hi = NotANumber
  ∨ ∃ l h, lo = Finite l ∧ hi = Finite h ∧ 100 <= l ∧ l <= h ∧ h <= 10000.
Proof.
  destruct lo as [l|[]|], hi as [h|[]|]; simpl; auto; try done;
    rewrite !orb_false_iff; intros [_ H1] [H2 H3]; try done.
  right. right. exists l, h.
  destruct (Qltb_spec h l); [done|]. destruct (Qltb_spec l 100); [done|].
  destruct (Qltb_spec 10000 h); [done|]. split_and!; try done; lra.
Qed.

Lemma validate_budget_nil (budget : pyobj) :
  fst (validate_budget budget) = [] →
  is_Some (value_of budget)
  ∨ ∃ d bmin bmax lo hi,
      budget = ODict d ∧ snd (validate_budget budget) = budget
      ∧ item d "min" = Some bmin ∧ item d "max" = Some bmax
      ∧ value_of bmin = Some lo ∧ value_of bmax = Some hi
      ∧ (lo = NotANumber ∨ hi = NotANumber
         ∨ ∃ l h, lo = Finite l ∧ hi = Finite h ∧ 100 <= l ∧ l <= h ∧ h <= 10000).
Proof.
  unfold validate_budget.
  destruct (value_of budget) as [q|] eqn:Hn; [by left; eexists|].
  destruct budget as [| | | | | | | |d]; try done. cbn [fst snd].
  destruct (item d "min") as [bmin|] eqn:Hmin; [|done].
  destruct (item d "max") as [bmax|] eqn:Hmax; [|done].
  destruct (value_of bmin) as [lo|] eqn:Hlo; [|done].
  destruct (value_of bmax) as [hi|] eqn:Hhi; [|done].
  destruct (float_lt lo (Finite 0) || float_lt hi lo) eqn:H1; [done|].
  destruct (float_lt lo (Finite 100) || float_lt (Finite 10000) hi) eqn:H2; [done|].
  intros _. right. exists d, bmin, bmax, lo, hi. split_and!; try done.
  by apply budget_tests_pass.
Qed.

(** What a request that passes validation looks like. *)
Lemma validate_nil (request : gmap string pyobj) :
  fst (validate_recommendation_request request) = [] →
  (∃ purpose, request !! "purpose" = Some (OStr purpose) ∧ purpose ∈ valid_purposes)
  ∧ (∃ budget, request !! "budget" = Some budget
               ∧ fst (validate_budget budget) = []
               ∧ snd (validate_recommendation_request request)
                 = <["budget" := snd (validate_budget budget)]> request)
  ∧ (∃ level, request !! "performance_level" = Some (OStr level)
              ∧ level ∈ valid_levels)
  ∧ (∀ v, request !! "max_recommendations" = Some v →
          v = ONone ∨ ∃ n, int_of v = Some n ∧ (1 <= n <= 10)%Z)
  ∧ (∀ v, request !! "preferred_brands" = Some v →
          v = ONone ∨ validate_strings "preferred_brands" v = [])
  ∧ (∀ v, request !! "must_have_features" = Some v →
          v = ONone ∨ validate_strings "must_have_features" v = []).
Proof.
  unfold validate_recommendation_request. cbv zeta.
  destruct (request !! "budget") as [budget|] eqn:Hb.
  2: { cbn [fst]. intros H. do 5 (apply app_eq_nil in H as [H _]).
       apply app_eq_nil in H as [_ H].
       unfold validate_required in H. cbn [flat_map app] in H. rewrite Hb in H.
       by destruct (request !! "purpose"). }
  destruct (validate_budget budget) as [budget_errors budget'] eqn:Hvb.
  cbn [fst snd]. intros H.
  apply app_eq_nil in H as [H Hfeat]. apply app_eq_nil in H as [H Hbrand].
  apply app_eq_nil in H as [H Hmax]. apply app_eq_nil in H as [H Hlevel].
  apply app_eq_nil in H as [H Hbudget]. apply app_eq_nil in H as [H Hpurpose].
  apply app_eq_nil in H as [_ H].
  unfold validate_required in H. cbn [flat_map app] in H.
  revert Hlevel Hmax Hbrand Hfeat.
  unfold validate_purpose, validate_performance_level, validate_max_recommendations,
    validate_optional_strings in *.
  rewrite !lookup_insert_ne by done. intros Hlevel Hmax Hbrand Hfeat.
  split_and!.
  - destruct (request !! "purpose") as [purpose|] eqn:Hp.
    + destruct purpose as [| | | | | |purpose| |]; try done.
      exists purpose. split; [done|]. cbn [in_strings] in Hpurpose.
      destruct (bool_decide (purpose ∈ valid_purposes)) eqn:E; [|done].
      by apply bool_decide_eq_true in E.
    + done.
  - exists budget. rewrite Hvb. by subst.
  - destruct (request !! "performance_level") as [level|]; [|done].
    destruct level as [| | | | | |level| |]; try done.
    exists level. split; [done|]. cbn [in_strings] in Hlevel.
    destruct (bool_decide (level ∈ valid_levels)) eqn:E; [|done].
    by apply bool_decide_eq_true in E.
  - intros v Hv. rewrite Hv in Hmax.
    destruct (int_of v) as [n|] eqn:Hn.
    + destruct v; try done; [right..]; exists n; (split; [done|]);
        destruct (n <? 1)%Z eqn:E1, (10 <? n)%Z eqn:E2; try done; lia.
    + destruct v; try done. by left.
  - intros v Hv. rewrite Hv in Hbrand. destruct v; auto.
  - intros v Hv. rewrite Hv in Hfeat. destruct v; auto.
Qed.

(** X21. A request for which [validate_recommendation_request] returns
    no error has a purpose and a performance level that are texts of the
    two lists; a budget that is a number, or a dictionary whose [min] and
    [max] are numbers: two finite ones with 100 <= min <= max <= 10000,
    or one of them a NaN, on which each of the four comparisons of the
    range check is false; when given, a [max_recommendations] that is an
    integer from 1 to 10; and, when given, brand and feature lists made
    of texts that are not blank. *)
Theorem validate_recommendation_request_sound (request : gmap string pyobj) :
  fst (validate_recommendation_request request) = [] →
  (∃ purpose, request !! "purpose" = Some (OStr purpose) ∧ purpose ∈ valid_purposes)
  ∧ (∃ level, request !! "performance_level" = Some (OStr level)
              ∧ level ∈ valid_levels)
  ∧ (∃ budget, request !! "budget" = Some budget
       ∧ (is_Some (value_of budget)
          ∨ ∃ d bmin bmax lo hi,
              budget = ODict d
              ∧ item d "min" = Some bmin ∧ item d "max" = Some bmax
              ∧ value_of bmin = Some lo ∧ value_of bmax = Some hi
              ∧ (lo = NotANumber ∨ hi = NotANumber
                 ∨ ∃ l h, lo = Finite l ∧ hi = Finite h
                          ∧ 100 <= l ∧ l <= h ∧ h <= 10000)))
  ∧ (∀ v, request !! "max_recommendations" = Some v →
          v = ONone ∨ ∃ n, int_of v = Some n ∧ (1 <= n <= 10)%Z)
  ∧ (∀ name v, name ∈ ["preferred_brands"; "must_have_features"] →
               request !! name = Some v →
               v = ONone
               ∨ ∃ l, v = OList l
                      ∧ Forall (λ e, ∃ s, e = OStr s ∧ strip_truthy s = true) l).
Proof.
  intros (Hp & (budget & Hb & Hvb & _) & Hl & Hm & Hbr & Hf)%validate_nil.
  split_and!; [done | done | | done |].
  - exists budget. split; [done|].
    destruct (validate_budget_nil budget Hvb)
      as [?|(d & bmin & bmax & lo & hi & ? & _ & ?)]; [by left|].
    right. by exists d, bmin, bmax, lo, hi.
  - intros name v Hname Hv. apply list_elem_of_In in Hname. simpl in Hname.
    destruct Hname as [<-|[<-|[]]].
    + destruct (Hbr v Hv) as [?|?%validate_strings_nil]; auto.
    + destruct (Hf v Hv) as [?|?%validate_strings_nil]; auto.
Qed.

Lemma validate_recommendation_request_sound_witness :
  (∃ purpose, sample_request 500 1500 !! "purpose" = Some (OStr purpose)
              ∧ purpose ∈ valid_purposes)
  ∧ (∃ level, sample_request 500 1500 !! "performance_level" = Some (OStr level)
              ∧ level ∈ valid_levels)
  ∧ (∃ budget, sample_request 500 1500 !! "budget" = Some budget
       ∧ (is_Some (value_of budget)
          ∨ ∃ d bmin bmax lo hi,
              budget = ODict d
              ∧ item d "min" = Some bmin ∧ item d "max" = Some bmax
              ∧ value_of bmin = Some lo ∧ value_of bmax = Some hi
              ∧ (lo = NotANumber ∨ hi = NotANumber
                 ∨ ∃ l h, lo = Finite l ∧ hi = Finite h
                          ∧ 100 <= l ∧ l <= h ∧ h <= 10000)))
  ∧ (∀ v, sample_request 500 1500 !! "max_recommendations" = Some v →
          v = ONone ∨ ∃ n, int_of v = Some n ∧ (1 <= n <= 10)%Z)
  ∧ (∀ name v, name ∈ ["preferred_brands"; "must_have_features"] →
               sample_request 500 1500 !! name = Some v →
               v = ONone
               ∨ ∃ l, v = OList l
                      ∧ Forall (λ e, ∃ s, e = OStr s ∧ strip_truthy s = true) l).
Proof.
  apply (validate_recommendation_request_sound (sample_request 500 1500)).
  vm_compute. reflexivity.
Defined.

(** Bounds that are NaN pass the validation, whatever the other bound
    when it is within the limits; an infinite bound does not. *)
Example nan_bounds_pass_validation :
  fst (validate_recommendation_request (request_with_bounds ONaN ONaN)) = []
  ∧ fst (validate_recommendation_request (request_with_bounds ONaN (OInt (-5)))) = []
  ∧ fst (validate_recommendation_request (request_with_bounds (OInf false) ONaN)) = []
  ∧ fst (validate_recommendation_request (request_with_bounds (OInt 500) ONaN)) = []
  ∧ fst (validate_recommendation_request
           (request_with_bounds (OInt 500) (OInf false)))
    = ["Budget must be between $100 and $10,000"]
  ∧ fst (validate_recommendation_request
           (request_with_bounds (OInf true) (OInt 500)))
    = ["Invalid budget range"].
Proof. split_and!; vm_compute; reflexivity. Qed.

(** The errors of a request are those of its budget, between errors
    that do not depend on the budget. *)
Lemma validate_insert_budget (request : gmap string pyobj) :
  ∃ before after,
    ∀ budget,
      validate_recommendation_request (<["budget" := budget]> request)
      = (before ++ fst (validate_budget budget) ++ after,
         <["budget" := snd (validate_budget budget)]> request).
Proof.
  exists (match request !! "purpose" with
          | Some _ => []
          | None => ["Missing required field: purpose"]
          end ++ validate_purpose request),
         (validate_performance_level request
            ++ validate_max_recommendations request
            ++ validate_optional_strings "preferred_brands" request
            ++ validate_optional_strings "must_have_features" request).
  intros budget.
  unfold validate_recommendation_request. cbv zeta.
  rewrite lookup_insert_eq. destruct (validate_budget budget) as [e b'].
  unfold validate_required, validate_purpose, validate_performance_level,
    validate_max_recommendations, validate_optional_strings.
  cbn [flat_map app fst snd].
  rewrite lookup_insert_eq, !lookup_insert_ne by done.
  rewrite insert_insert_eq. f_equal.
  rewrite <- !app_assoc. by destruct (request !! "purpose").
Qed.

(** X22. A budget given as a bare number is not checked against any
    bound: whatever the number (negative, zero, above 10000), the errors
    returned are those of the same request with a budget of 500 to 1000,
    and the request leaves the function with the budget
    [{"min": number, "max": number}]. *)
Theorem numeric_budget_not_range_checked
    (request : gmap string pyobj) (budget : pyobj) :
  is_Some (number_of budget) →
  fst (validate_recommendation_request (<["budget" := budget]> request))
  = fst (validate_recommendation_request
           (<["budget" := ODict [("min", OInt 500); ("max", OInt 1000)]]> request))
  ∧ snd (validate_recommendation_request (<["budget" := budget]> request)) !! "budget"
    = Some (ODict [("min", budget); ("max", budget)]).
Proof.
  intros [q Hq]. destruct (validate_insert_budget request) as (pre & post & Hv).
  rewrite !Hv. cbn [fst snd]. rewrite lookup_insert_eq.
  apply value_of_number in Hq.
  assert (validate_budget budget = ([], ODict [("min", budget); ("max", budget)]))
    as -> by (unfold validate_budget; by rewrite Hq).
  assert (validate_budget (ODict [("min", OInt 500); ("max", OInt 1000)])
          = ([], ODict [("min", OInt 500); ("max", OInt 1000)]))
    as -> by (vm_compute; reflexivity).
  done.
Qed.

Lemma numeric_budget_not_range_checked_witness :
  fst (validate_recommendation_request
         (<["budget" := OInt (-5)]> (sample_request 500 1500)))
  = fst (validate_recommendation_request
           (<["budget" := ODict [("min", OInt 500); ("max", OInt 1000)]]>
              (sample_request 500 1500)))
  ∧ snd (validate_recommendation_request
           (<["budget" := OInt (-5)]> (sample_request 500 1500))) !! "budget"
    = Some (ODict [("min", OInt (-5)); ("max", OInt (-5))]).
Proof.
  apply (numeric_budget_not_range_checked (sample_request 500 1500) (OInt (-5))).
  simpl. eauto.
Defined.

(** ** From a validated request to the engine *)

Section ValidatedRequests.
Variable float_of : pyobj → option Q.
Variable str_of : pyobj → option string.
Hypothesis float_of_int : ∀ n, float_of (OInt n) = Some (inject_Z n).
Hypothesis float_of_float : ∀ q, float_of (OFloat q) = Some q.
Hypothesis str_of_str : ∀ s, str_of (OStr s) = Some s.

Lemma float_of_number (v : pyobj) (q : Q) :
  number_of v = Some q → 100 <= q → float_of v = Some q.
Proof.
  destruct v as [|b|n|x| | | | |]; simpl; try done.
  - destruct b; intros [= <-]; lra.
  - intros [= <-] _. apply float_of_int.
  - intros [= <-] _. apply float_of_float.
Qed.

Lemma optional_strings_validated (name : string) (v : option pyobj) :
  (∀ x, v = Some x → x = ONone ∨ validate_strings name x = []) →
  is_Some (optional_strings str_of (default (OList []) v)).
Proof.
  intros H. destruct v as [x|]; [|by eexists].
  destruct (H x eq_refl) as [->|(l & -> & Hl)%validate_strings_nil]; [by eexists|].
  simpl.
  destruct (mapM_is_Some_2 str_of l) as [l' ->]; [|by eexists].
  eapply Forall_impl; [exact Hl|]. intros e (s & -> & _). simpl.
  rewrite str_of_str. by eexists.
Qed.

(** The profile made from a validated request whose budget is a
    dictionary. *)
Lemma validated_profile
    (request : gmap string pyobj) (generated : string) (d : list (string * pyobj)) :
  fst (validate_recommendation_request request) = [] →
  request !! "budget" = Some (ODict d) →
  item d "min" ≠ Some ONaN → item d "max" ≠ Some ONaN →
  item d "currency" = None →
  (∀ v, request !! "session_id" = Some v → v = ONone ∨ ∃ s, v = OStr s) →
  ∃ purpose level bmin bmax lo hi brands features session,
    create_user_profile_from_request float_of str_of
      (snd (validate_recommendation_request request)) generated
    = Some (UserProfile.mk purpose (Some (Budget.mk lo hi)) level
              brands features session None)
    ∧ purpose ∈ valid_purposes ∧ level ∈ valid_levels
    ∧ item d "min" = Some bmin ∧ item d "max" = Some bmax
    ∧ number_of bmin = Some lo ∧ number_of bmax = Some hi
    ∧ 100 <= lo ∧ lo <= hi ∧ hi <= 10000.
Proof.
  intros Hv Hb Hnan_min Hnan_max Hcur Hsess.
  destruct (validate_nil request Hv)
    as ((purpose & Hp & Hpv) & (budget & Hb' & Hvb & Hreq) & (level & Hl & Hlv)
        & _ & Hbr & Hf).
  rewrite Hb in Hb'. injection Hb' as <-.
  destruct (validate_budget_nil (ODict d) Hvb)
    as [[? ?]|(d' & bmin & bmax & vlo & vhi & [= <-] & Hsame & Hmin & Hmax
               & Hlo & Hhi & Hrange)]; [done|].
  assert (∃ lo hi, vlo = Finite lo ∧ vhi = Finite hi
                   ∧ 100 <= lo ∧ lo <= hi ∧ hi <= 10000)
    as (lo & hi & -> & -> & H100 & Hle & H10k).
  { destruct Hrange as [->|[->|?]]; [| |done].
    - by destruct bmin.
    - by destruct bmax. }
  apply value_of_number in Hlo, Hhi.
  rewrite Hreq, Hsame. unfold create_user_profile_from_request.
  rewrite lookup_insert_eq, !lookup_insert_ne by done.
  rewrite Hp, Hl. cbn [mbind option_bind].
  destruct (optional_strings_validated "preferred_brands"
              (request !! "preferred_brands") Hbr) as [brands Hbrands].
  destruct (optional_strings_validated "must_have_features"
              (request !! "must_have_features") Hf) as [features Hfeatures].
  set (session_id := match request !! "session_id" with
                     | Some session_id =>
                         if truthy_obj session_id then session_id else OStr generated
                     | None => OStr generated
                     end).
  assert (∃ session, session_id = OStr session) as [session Hsession].
  { unfold session_id. destruct (request !! "session_id") as [v|]; [|by eexists].
    destruct (Hsess v eq_refl) as [->|[s ->]]; [by eexists|].
    simpl. destruct (negb _); by eexists. }
  exists purpose, level, bmin, bmax, lo, hi, brands, features, session.
  split; [|done].
  unfold new_UserProfileCreate, new_Budget.
  rewrite Hsession, !str_of_str, Hmin, Hmax, Hcur, Hbrands, Hfeatures.
  cbn [mbind option_bind].
  rewrite (float_of_number bmin lo), (float_of_number bmax hi) by (done || lra).
  cbn [mbind option_bind].
  destruct (Qltb_spec 0 lo); [|lra]. destruct (Qltb_spec 0 hi); [|lra].
  cbn [negb].
  rewrite !bool_decide_eq_true_2; [done| |].
  - revert Hlv. unfold valid_levels. done.
  - revert Hpv. unfold valid_purposes. rewrite !elem_of_cons. tauto.
Qed.

(** X23. For a request that passed validation, with a budget dictionary
    neither bound of which is a NaN, that names no currency, and a
    session id that is a text or absent,
    [create_user_profile_from_request] succeeds; the profile has a
    budget with 100 <= min <= max <= 10000, so the engine never raises
    the [AttributeError] of a missing budget for it, and its purpose is a
    key of the weight table. (A NaN bound passes the validation and is
    then refused by the [Budget] model, whose bounds must be above
    zero.) *)
Theorem validated_request_gives_profile
    (request : gmap string pyobj) (generated : string) (d : list (string * pyobj)) :
  fst (validate_recommendation_request request) = [] →
  request !! "budget" = Some (ODict d) →
  item d "min" ≠ Some ONaN → item d "max" ≠ Some ONaN →
  item d "currency" = None →
  (∀ v, request !! "session_id" = Some v → v = ONone ∨ ∃ s, v = OStr s) →
  ∃ p b,
    create_user_profile_from_request float_of str_of
      (snd (validate_recommendation_request request)) generated = Some p
    ∧ UserProfile.budget p = Some b
    ∧ 100 <= Budget.min b ∧ Budget.min b <= Budget.max b ∧ Budget.max b <= 10000
    ∧ is_Some (purpose_weights (UserProfile.purpose p))
    ∧ UserProfile.performance_level p ∈ valid_levels
    ∧ ∀ self cache now max_recommendations safe_mode,
        fst (generate_recommendations self cache now p max_recommendations safe_mode)
        ≠ Raise AttributeError.
Proof.
  intros Hv Hb Hnan_min Hnan_max Hcur Hsess.
  destruct (validated_profile request generated d Hv Hb Hnan_min Hnan_max Hcur Hsess)
    as (purpose & level & bmin & bmax & lo & hi & brands & features & session
        & -> & Hp & Hl & _ & _ & _ & _ & ? & ? & ?).
  eexists _, _. split; [reflexivity|]. cbn.
  split_and!; try done.
  - by apply purpose_weights_valid.
  - intros self cache now max_recommendations safe_mode.
    unfold generate_recommendations. cbn [UserProfile.budget].
    destruct (Cache.get cache now _) as [cached cache1].
    destruct (truthy_opt cached); [done|].
    destruct (negb _); [done|]. destruct (_ && _); done.
Qed.

(** X24. The validator accepts a budget whose two bounds are equal, but
    the scorer of normal mode takes [min >= max] for an invalid budget:
    for such a validated request the budget fit of every price is 0,
    where safe mode gives 85 to a price on the bound. *)
Theorem equal_bounds_accepted_but_unfit
    (request : gmap string pyobj) (generated : string) (d : list (string * pyobj))
    (n : Z) :
  fst (validate_recommendation_request request) = [] →
  request !! "budget" = Some (ODict d) →
  item d "min" = Some (OInt n) → item d "max" = Some (OInt n) →
  item d "currency" = None →
  (∀ v, request !! "session_id" = Some v → v = ONone ∨ ∃ s, v = OStr s) →
  ∃ p b,
    create_user_profile_from_request float_of str_of
      (snd (validate_recommendation_request request)) generated = Some p
    ∧ UserProfile.budget p = Some b
    ∧ (∀ price, _calculate_budget_fit price b = 0)
    ∧ _calculate_budget_fit_safe (PNum (inject_Z n)) b = 85.
Proof.
  intros Hv Hb Hmin Hmax Hcur Hsess.
  destruct (validated_profile request generated d Hv Hb
              ltac:(by rewrite Hmin) ltac:(by rewrite Hmax) Hcur Hsess)
    as (purpose & level & bmin & bmax & lo & hi & brands & features & session
        & -> & _ & _ & Hmin' & Hmax' & Hlo & Hhi & ? & ? & ?).
  rewrite Hmin in Hmin'. rewrite Hmax in Hmax'.
  injection Hmin' as <-. injection Hmax' as <-.
  injection Hlo as <-. injection Hhi as <-.
  eexists _, _. split; [reflexivity|]. split; [reflexivity|]. split.
  - intros price. unfold _calculate_budget_fit. cbn [Budget.min Budget.max].
    destruct (as_num price) as [q|]; [|done]. destruct (q <? 0); [done|].
    destruct (Qleb_spec (inject_Z n) (inject_Z n)); [done|lra].
  - unfold _calculate_budget_fit_safe, try_except. cbn.
    destruct (Qltb_spec (inject_Z n) (inject_Z n)); [lra|].
    destruct (Qeqb_spec (inject_Z n - inject_Z n) 0) as [|Hne]; [done|].
    destruct Hne. ring.
Qed.
End ValidatedRequests.

Lemma validated_request_gives_profile_witness :
  ∃ p b,
    create_user_profile_from_request number_of exact_str
      (snd (validate_recommendation_request (sample_request 500 1500))) "session_0"
    = Some p
    ∧ UserProfile.budget p = Some b
    ∧ 100 <= Budget.min b ∧ Budget.min b <= Budget.max b ∧ Budget.max b <= 10000
    ∧ is_Some (purpose_weights (UserProfile.purpose p))
    ∧ UserProfile.performance_level p ∈ valid_levels
    ∧ ∀ self cache now max_recommendations safe_mode,
        fst (generate_recommendations self cache now p max_recommendations safe_mode)
        ≠ Raise AttributeError.
Proof.
  apply (validated_request_gives_profile number_of exact_str
           (λ n, eq_refl) (λ q, eq_refl) (λ s, eq_refl)
           (sample_request 500 1500) "session_0"
           [("min", OInt 500); ("max", OInt 1500)]).
  - vm_compute. reflexivity.
  - reflexivity.
  - discriminate.
  - discriminate.
  - reflexivity.
  - intros v Hv. left. vm_compute in Hv. congruence.
Defined.

Lemma equal_bounds_accepted_but_unfit_witness :
  ∃ p b,
    create_user_profile_from_request number_of exact_str
      (snd (validate_recommendation_request (sample_request 800 800))) "session_0"
    = Some p
    ∧ UserProfile.budget p = Some b
    ∧ (∀ price, _calculate_budget_fit price b = 0)
    ∧ _calculate_budget_fit_safe (PNum (inject_Z 800)) b = 85.
Proof.
  apply (equal_bounds_accepted_but_unfit number_of exact_str
           (λ n, eq_refl) (λ q, eq_refl) (λ s, eq_refl)
           (sample_request 800 800) "session_0"
           [("min", OInt 800); ("max", OInt 800)] 800).
  - vm_compute. reflexivity.
  - reflexivity.
  - reflexivity.
  - reflexivity.
  - reflexivity.
  - intros v Hv. left. vm_compute in Hv. congruence.
Defined.

(** ** What a fresh call returns *)

Lemma Sorted_take {A : Type} (R : A → A → Prop) (n : nat) (l : list A) :
  Sorted R l → Sorted R (take n l).
Proof.
  intros H. revert n. induction H as [|x l Hs IH Hhd]; intros n.
  - rewrite take_nil. constructor.
  - destruct n as [|n]; simpl; [constructor|].
    constructor; [apply IH|].
    destruct Hhd as [|y l Hxy]; [rewrite take_nil; constructor|].
    destruct n; simpl; by constructor.
Qed.

(** X25. The list computed on a cache miss is ordered by confidence, the
    highest first; every confidence is between 0 and 100, and at least
    58 in safe mode; no more than [max_recommendations] candidates are
    returned. *)
Theorem fresh_recommendations_ranked
    (self : RecommendationEngine) (cache : Cache.t) (now : Z)
    (p : UserProfile.t) (b : Budget.t) (max_recommendations : nat) (safe_mode : bool)
    (recs : list Scored.t) (cache' : Cache.t) :
  UserProfile.budget p = Some b →
  generate_recommendations self cache now p max_recommendations safe_mode
  = (Return recs false, cache') →
  Sorted (λ x y, Scored.confidence_score y <= Scored.confidence_score x) recs
  ∧ Forall (λ r, 0 <= Scored.confidence_score r <= 100
                 ∧ (safe_mode = true → 58 <= Scored.confidence_score r)) recs
  ∧ (length recs ≤ max_recommendations)%nat.
Proof.
  intros Hb Hgen.
  destruct (generate_recommendations_Return _ _ _ _ _ _ _ _ _ _ Hb Hgen)
    as [(? & _)|(_ & _ & -> & _)]; [done|].
  split_and!.
  - apply Sorted_take. apply stable_sort_Sorted.
    + intros x y H. destruct (Qltb_spec (Scored.confidence_score y)
                                        (Scored.confidence_score x)); [lra|done].
    + intros x y H. destruct (Qltb_spec (Scored.confidence_score y)
                                        (Scored.confidence_score x)); [done|lra].
  - apply Forall_forall. intros r Hr.
    apply elem_of_take in Hr as (i & Hr & _).
    apply list_elem_of_lookup_2 in Hr. rewrite rank_perm in Hr.
    apply score_all_elem in Hr as (config & _ & Hr). split.
    + by apply (score_configuration_confidence self config p safe_mode r).
    + intros ->. by apply (score_configuration_safe_floor self config p r).
  - rewrite length_take. lia.
Qed.

Lemma fresh_recommendations_ranked_witness :
  Sorted (λ x y, Scored.confidence_score y <= Scored.confidence_score x)
    (recommendations_of
       (fst (generate_recommendations catalog_two empty_cache 0
               (sample_profile 800 1500 [] "s1") 3 false)))
  ∧ Forall (λ r, 0 <= Scored.confidence_score r <= 100
                 ∧ (false = true → 58 <= Scored.confidence_score r))
      (recommendations_of
         (fst (generate_recommendations catalog_two empty_cache 0
                 (sample_profile 800 1500 [] "s1") 3 false)))
  ∧ (length (recommendations_of
               (fst (generate_recommendations catalog_two empty_cache 0
                       (sample_profile 800 1500 [] "s1") 3 false))) ≤ 3)%nat.
Proof.
  apply (fresh_recommendations_ranked catalog_two empty_cache 0
           (sample_profile 800 1500 [] "s1") (Budget.mk 800 1500) 3 false
           (recommendations_of
              (fst (generate_recommendations catalog_two empty_cache 0
                      (sample_profile 800 1500 [] "s1") 3 false)))
           (snd (generate_recommendations catalog_two empty_cache 0
                   (sample_profile 800 1500 [] "s1") 3 false))).
  - reflexivity.
  - vm_compute. reflexivity.
Defined.

(** ** The text of a float in a cache key *)

Lemma no_comma_app (a b : string) : no_comma (a +:+ b) ↔ no_comma a ∧ no_comma b.
Proof.
  unfold no_comma. induction a as [|c a IH]; simpl.
  - split; [intros H; split; [constructor | done] | by intros [_ H]].
  - rewrite !Forall_cons, IH. tauto.
Qed.

Lemma no_comma_String (c : Ascii.ascii) (s : string) :
  no_comma (String c s) ↔ Ascii.N_of_ascii c ≠ 44%N ∧ no_comma s.
Proof. unfold no_comma. simpl. by rewrite Forall_cons. Qed.

Lemma no_comma_empty : no_comma EmptyString.
Proof. constructor. Qed.

Lemma digit_code (d : Z) :
  (0 <= d < 10)%Z → Ascii.N_of_ascii (pyfloat.digit d) = Z.to_N (48 + d).
Proof.
  intros Hd. unfold pyfloat.digit. apply Ascii.N_ascii_embedding. lia.
Qed.

Lemma digit_no_comma (d : Z) :
  (0 <= d < 10)%Z → Ascii.N_of_ascii (pyfloat.digit d) ≠ 44%N.
Proof. intros Hd. rewrite digit_code by done. lia. Qed.

Lemma digits_from_no_comma (fuel : nat) (c : Z) (acc : string) :
  no_comma acc → no_comma (pyfloat.digits_from fuel c acc).
Proof.
  revert c acc. induction fuel as [|fuel IH]; intros c acc Hacc; simpl; [done|].
  assert (no_comma (String (pyfloat.digit (c mod 10)) acc)) as Hnext.
  { apply no_comma_String. split; [|done].
    apply digit_no_comma, Z.mod_pos_bound. lia. }
  destruct (c <? 10)%Z; [done|]. by apply IH.
Qed.

Lemma digits_no_comma (c : Z) : no_comma (pyfloat.digits c).
Proof. apply digits_from_no_comma, no_comma_empty. Qed.

Lemma zeros_no_comma (n : Z) : no_comma (pyfloat.zeros n).
Proof.
  unfold pyfloat.zeros. induction (seq 0 (Z.to_nat n)) as [|x l IH]; simpl.
  - apply no_comma_empty.
  - apply no_comma_String. split; [|done]. apply digit_no_comma. lia.
Qed.

Lemma substring_no_comma (n m : nat) (s : string) :
  no_comma s → no_comma (String.substring n m s).
Proof.
  revert n m. induction s as [|c s IH]; intros n m Hs.
  - destruct n, m; simpl; apply no_comma_empty.
  - apply no_comma_String in Hs as [Hc Hs].
    destruct n as [|n]; simpl.
    + destruct m as [|m]; [apply no_comma_empty|].
      apply no_comma_String. split; [done|]. by apply IH.
    + by apply IH.
Qed.

Ltac no_comma_text :=
  repeat first
    [ apply no_comma_empty
    | apply no_comma_String; split; [by vm_compute|] ].

Lemma layout_no_comma (ds : string) (dp : Z) :
  no_comma ds → no_comma (pyfloat.layout ds dp).
Proof.
  intros Hds. unfold pyfloat.layout.
  destruct (_ || _).
  - apply no_comma_app. split.
    + destruct ds as [|d1 [|d2 rest]]; try done.
      apply no_comma_String in Hds as [H1 Hrest].
      apply no_comma_String. split; [done|].
      apply no_comma_app. split; [no_comma_text | done].
    + apply no_comma_app. split; [no_comma_text|].
      apply no_comma_app. split; [destruct (_ <? 0)%Z; no_comma_text|].
      apply no_comma_app. split; [destruct (_ <? 10)%Z; no_comma_text|].
      apply digits_no_comma.
  - destruct (dp <=? 0)%Z.
    + apply no_comma_app. split; [no_comma_text|].
      apply no_comma_app. split; [apply zeros_no_comma | done].
    + destruct (_ <=? dp)%Z.
      * apply no_comma_app. split; [done|].
        apply no_comma_app. split; [apply zeros_no_comma | no_comma_text].
      * apply no_comma_app. split; [by apply substring_no_comma|].
        apply no_comma_app. split; [no_comma_text | by apply substring_no_comma].
Qed.

Lemma repr_pos_no_comma (a b : Z) : no_comma (pyfloat.repr_pos a b).
Proof.
  unfold pyfloat.repr_pos.
  destruct (pyfloat.nearest_double a b) as [[m e]|]; [|no_comma_text].
  destruct (m =? 0)%Z; [no_comma_text|].
  destruct (if (0 <=? e)%Z then _ else _) as [va vb].
  destruct (pyfloat.shortest _ _ _ _ _ _) as [c x].
  destruct (pyfloat.strip_zeros _ _ _) as [c' x'].
  apply layout_no_comma, digits_no_comma.
Qed.

Lemma repr_no_comma (q : Q) : no_comma (pyfloat.repr q).
Proof.
  unfold pyfloat.repr. cbv zeta.
  destruct (_ =? 0)%Z; [no_comma_text|].
  destruct (_ <? 0)%Z; [|apply repr_pos_no_comma].
  apply no_comma_app. split; [no_comma_text | apply repr_pos_no_comma].
Qed.

Lemma dumps_float_no_comma (q : Q) : no_comma (json.dumps_float q).
Proof.
  unfold json.dumps_float. cbv zeta.
  destruct (String.eqb _ _); [no_comma_text|].
  destruct (String.eqb _ _); [no_comma_text | apply repr_no_comma].
Qed.

(** Which rationals are doubles: 800 is one and has the text [800.0];
    the rational beside it has the same text and is not one; one tenth
    is not one, the double nearest to it is. *)
Example is_double_examples :
  is_double 800 = true
  ∧ json.dumps_float 800 = "800.0"
  ∧ json.dumps_float (800 + 1 / 100000000000000000000) = "800.0"
  ∧ is_double (800 + 1 / 100000000000000000000) = false
  ∧ is_double 0.1 = false
  ∧ is_double (3602879701896397 # 36028797018963968) = true
  ∧ json.dumps_float (3602879701896397 # 36028797018963968) = "0.1".
Proof. split_and!; vm_compute; reflexivity. Qed.

(** A float is determined by its text, among doubles. *)
Lemma dumps_float_inj (q1 q2 : Q) :
  is_double q1 = true → is_double q2 = true →
  json.dumps_float q1 = json.dumps_float q2 → q1 == q2.
Proof.
  unfold is_double. intros H1 H2 E. rewrite E in H1.
  destruct (float_of_text (json.dumps_float q2)) as [q|]; [|done].
  destruct (Qeqb_spec q q1); [|done]. destruct (Qeqb_spec q q2); [|done].
  by transitivity q.
Qed.

Lemma append_String (x : Ascii.ascii) (a b : string) :
  String x a +:+ b = String x (a +:+ b).
Proof. reflexivity. Qed.

Lemma append_empty (b : string) : "" +:+ b = b.
Proof. reflexivity. Qed.

Lemma string_app_assoc (a b c : string) : (a +:+ b) +:+ c = a +:+ (b +:+ c).
Proof.
  induction a as [|x a IH]; rewrite ?append_empty, ?append_String; [done | by f_equal].
Qed.

Lemma string_app_inv_head (a b c : string) : a +:+ b = a +:+ c → b = c.
Proof.
  induction a as [|x a IH]; rewrite ?append_empty, ?append_String; [done|].
  intros [= H]. by apply IH.
Qed.

(** Two texts that run up to a first comma are equal up to it, and
    after it. *)
Lemma split_at_comma (a a' r r' : string) (c0 : Ascii.ascii) :
  Ascii.N_of_ascii c0 = 44%N → no_comma a → no_comma a' →
  a +:+ String c0 r = a' +:+ String c0 r' → a = a' ∧ r = r'.
Proof.
  intros Hc0. revert a'. induction a as [|c a IH]; intros a' Ha Ha' E.
  - destruct a' as [|c' a']; rewrite ?append_empty, ?append_String in E.
    + by injection E.
    + injection E as <- _. apply no_comma_String in Ha' as [Hc' _]. done.
  - destruct a' as [|c' a']; rewrite ?append_empty, ?append_String in E.
    + injection E as -> _. apply no_comma_String in Ha as [Hc _]. done.
    + injection E as -> E.
      apply no_comma_String in Ha as [_ Ha]. apply no_comma_String in Ha' as [_ Ha'].
      destruct (IH a' Ha Ha' E) as [-> ->]. done.
Qed.

Lemma key_text_shape (p : UserProfile.t) (m : nat) (s : bool) :
  ∃ rest,
    key_text p m s
    = "recommendations" +:+ "|" +:+ "{" +:+ json.dumps_str "budget_max" +:+ ": "
        +:+ dumps_num (np_budget_max (normalized_profile p m s))
        +:+ ", " +:+ json.dumps_str "budget_min" +:+ ": "
        +:+ dumps_num (np_budget_min (normalized_profile p m s))
        +:+ ", " +:+ rest.
Proof.
  unfold key_text, dumps_profile.
  generalize (normalized_profile p m s) as d. intros d.
  cbn [json.join].
  eexists. rewrite !string_app_assoc. reflexivity.
Qed.
Lemma key_text_budget
    (p1 p2 : UserProfile.t) (b1 b2 : Budget.t) (m1 m2 : nat) (s1 s2 : bool) :
  UserProfile.budget p1 = Some b1 → UserProfile.budget p2 = Some b2 →
  double_budget b1 → double_budget b2 →
  key_text p1 m1 s1 = key_text p2 m2 s2 →
  Budget.min b1 == Budget.min b2 ∧ Budget.max b1 == Budget.max b2.
Proof.
  intros Hb1 Hb2 [Hmin1 Hmax1] [Hmin2 Hmax2] E.
  destruct (key_text_shape p1 m1 s1) as [r1 E1].
  destruct (key_text_shape p2 m2 s2) as [r2 E2].
  rewrite E1, E2 in E. clear E1 E2.
  unfold normalized_profile in E. cbn [np_budget_max np_budget_min] in E.
  rewrite Hb1, Hb2 in E. cbn [dumps_num] in E.
  do 5 apply string_app_inv_head in E.
  change (", " +:+ ?x) with (String (Ascii.ascii_of_N 44) (" " +:+ x)) in E.
  apply split_at_comma in E as [Emax E];
    [|done | apply dumps_float_no_comma..].
  do 3 apply string_app_inv_head in E.
  apply split_at_comma in E as [Emin _];
    [|done | apply dumps_float_no_comma..].
  split; by apply dumps_float_inj.
Qed.

(** ** Lists served from a store the engine wrote *)

Lemma fresh_within_budget
    (self : RecommendationEngine) (p : UserProfile.t) (b : Budget.t)
    (max_recommendations : nat) (safe_mode : bool) (configs : list Config.t) :
  UserProfile.budget p = Some b →
  Forall (within_budget b)
         (take max_recommendations (rank (score_all self p safe_mode configs))).
Proof.
  intros Hb. apply Forall_forall. intros r Hr.
  apply elem_of_take in Hr as (i & Hr & _).
  apply list_elem_of_lookup_2 in Hr. rewrite rank_perm in Hr.
  apply score_all_elem in Hr as (config & _ & Hr).
  by eapply score_configuration_within_budget.
Qed.

Lemma cache_get_entries
    (c : Cache.t) (now : Z) (key k : string) (e : Cache.entry) :
  Cache.memory_cache (snd (Cache.get c now key)) !! k = Some e →
  Cache.memory_cache c !! k = Some e.
Proof.
  unfold Cache.get. destruct (Cache.memory_cache c !! _) as [e'|]; [|done].
  destruct (now <? _)%Z; [done|]. simpl. rewrite lookup_delete_Some. by intros [_ ?].
Qed.

(** An entry of the store after a call was there before it, or is the
    list the call computed for its own profile, under its own key. *)
Lemma generate_recommendations_entries
    (self : RecommendationEngine) (cache : Cache.t) (now : Z)
    (p : UserProfile.t) (max_recommendations : nat) (safe_mode : bool)
    (k : string) (e : Cache.entry) :
  Cache.memory_cache
    (snd (generate_recommendations self cache now p max_recommendations safe_mode))
    !! k = Some e →
  Cache.memory_cache cache !! k = Some e
  ∨ ∃ b, UserProfile.budget p = Some b
         ∧ k = Cache._get_cache_key (cache_key p max_recommendations safe_mode)
         ∧ Forall (within_budget b) (Cache.value e).
Proof.
  unfold generate_recommendations.
  generalize (cache_key p max_recommendations safe_mode) as key. intros key.
  pose proof (cache_get_entries cache now key k e) as Hold.
  destruct (Cache.get cache now key) as [cached cache1]. simpl in Hold.
  destruct (UserProfile.budget p) as [b|] eqn:Hb; [|by left; apply Hold].
  destruct (truthy_opt cached); [by left; apply Hold|].
  pose proof (fresh_within_budget self p b max_recommendations safe_mode
                (fst (retrieve self p b max_recommendations safe_mode)) Hb) as HF.
  revert HF.
  generalize (fst (retrieve self p b max_recommendations safe_mode)) as configs.
  intros configs. destruct (truthy configs); simpl; [|by left; apply Hold].
  generalize (rank (score_all self p safe_mode configs)) as scored.
  intros [|r scored] HF; simpl; [by left; apply Hold|].
  assert (Hset : ∀ v, Forall (within_budget b) v →
            Cache.memory_cache (Cache.set cache1 now key v (Some 1800%Z)) !! k = Some e →
            Cache.memory_cache cache !! k = Some e
            ∨ ∃ b0, Some b = Some b0 ∧ k = Cache._get_cache_key key
                    ∧ Forall (within_budget b0) (Cache.value e)).
  { intros v Hv. unfold Cache.set. simpl. rewrite lookup_insert_Some.
    intros [[<- <-]|[_ He]]; [right; by exists b | left; by apply Hold]. }
  destruct max_recommendations as [|n]; simpl; by apply Hset.
Qed.

Lemma cache_after_snoc (events : list Event) (e : Event) :
  cache_after (events ++ [e]) = after_event (cache_after events) e.
Proof. unfold cache_after. by rewrite foldl_app. Qed.

(** Every entry of a store with a history was written by a request of
    the history that had a budget, under that request's key, and holds
    candidates within that request's budget. *)
Lemma cache_after_entries (events : list Event) (k : string) (e : Cache.entry) :
  Cache.memory_cache (cache_after events) !! k = Some e →
  ∃ self now p max_recommendations safe_mode b,
    Served self now p max_recommendations safe_mode ∈ events
    ∧ UserProfile.budget p = Some b
    ∧ k = Cache._get_cache_key (cache_key p max_recommendations safe_mode)
    ∧ Forall (within_budget b) (Cache.value e).
Proof.
  revert k e. induction events as [|ev events IH] using rev_ind; intros k e.
  - unfold cache_after, empty_cache. simpl. by rewrite lookup_empty.
  - rewrite cache_after_snoc. intros H.
    assert (Hold : Cache.memory_cache (cache_after events) !! k = Some e →
              ∃ self now p max_recommendations safe_mode b,
                Served self now p max_recommendations safe_mode ∈ events ++ [ev]
                ∧ UserProfile.budget p = Some b
                ∧ k = Cache._get_cache_key (cache_key p max_recommendations safe_mode)
                ∧ Forall (within_budget b) (Cache.value e)).
    { intros H0. destruct (IH _ _ H0) as (self & now & p & m & s & b & Hin & Hrest).
      exists self, now, p, m, s, b. split; [|done]. apply elem_of_app. by left. }
    destruct ev as [self now p m s|recommendation_id]; simpl in H.
    + apply generate_recommendations_entries in H as [H|(b & Hb & Hk & HF)];
        [by apply Hold|].
      exists self, now, p, m, s, b. split; [|done].
      apply elem_of_app. right. by apply list_elem_of_singleton.
    + unfold Cache.clear_pattern in H. simpl in H.
      apply map_lookup_filter_Some in H as [H _]. by apply Hold.
Qed.

Lemma cache_key_text (p : UserProfile.t) (max_recommendations : nat) (safe_mode : bool) :
  cache_key p max_recommendations safe_mode
  = hashlib.md5_hexdigest (key_text p max_recommendations safe_mode).
Proof. reflexivity. Qed.

(** What a call returns on a store with a history lies within the
    budget of the call: a fresh list by the scorer's check, a stored list
    because the request that stored it had, the key being the same, the
    same two amounts. *)
Lemma served_list_within_budget
    (events : list Event) (self : RecommendationEngine) (now : Z)
    (p : UserProfile.t) (b : Budget.t) (max_recommendations : nat) (safe_mode : bool)
    (recs : list Scored.t) (hit : bool) (cache' : Cache.t) :
  UserProfile.budget p = Some b →
  double_budget b →
  (∀ self' now' p' max_recommendations' safe_mode' b',
     Served self' now' p' max_recommendations' safe_mode' ∈ events →
     UserProfile.budget p' = Some b' →
     double_budget b'
     ∧ no_collision (key_text p' max_recommendations' safe_mode')
                    (key_text p max_recommendations safe_mode)) →
  generate_recommendations self (cache_after events) now p max_recommendations safe_mode
  = (Return recs hit, cache') →
  Forall (within_budget b) recs.
Proof.
  intros Hb Hd Hev Hgen.
  destruct (generate_recommendations_Return _ _ _ _ _ _ _ _ _ _ Hb Hgen)
    as [(_ & Hget & _)|(_ & _ & -> & _)]; [|by apply fresh_within_budget].
  unfold Cache.get in Hget.
  destruct (Cache.memory_cache (cache_after events) !! _) as [e|] eqn:He; [|done].
  destruct (now <? Cache.expires_at e)%Z; [|done]. simpl in Hget. injection Hget as <-.
  apply cache_after_entries in He
    as (self' & now' & p' & m' & s' & b' & Hin & Hb' & Hk & HF).
  destruct (Hev _ _ _ _ _ _ Hin Hb') as [Hd' Hnc].
  apply get_cache_key_inj in Hk. rewrite !cache_key_text in Hk.
  symmetry in Hk. apply Hnc in Hk.
  destruct (key_text_budget _ _ _ _ _ _ _ _ Hb' Hb Hd' Hd Hk) as [Emin Emax].
  eapply Forall_impl; [exact HF|]. intros r [H1 H2]. unfold within_budget.
  split; [by rewrite <- Emin | by rewrite <- Emax].
Qed.

(** C10. Every candidate [generate_recommendations] returns, whatever its
    fallback mark, lies within the bounds of the profile's own budget,
    and the scorer returns nothing for a configuration outside them. The
    store the call reads is any store the engine itself has written: the
    empty store after any sequence of earlier calls and invalidations,
    with any catalogs, clock readings and profiles. A list served from it
    was computed for a request with the same key. The budget amounts are
    doubles, as Python floats are, and the MD5 digest is taken not to
    collide between the key text of the call and the key texts of the
    earlier calls. *)
Theorem returned_candidates_within_original_budget
    (events : list Event) (self : RecommendationEngine) (now : Z)
    (p : UserProfile.t) (b : Budget.t) (max_recommendations : nat) (safe_mode : bool)
    (recs : list Scored.t) (hit : bool) (cache' : Cache.t) :
  UserProfile.budget p = Some b →
  double_budget b →
  (∀ self' now' p' max_recommendations' safe_mode' b',
     Served self' now' p' max_recommendations' safe_mode' ∈ events →
     UserProfile.budget p' = Some b' →
     double_budget b'
     ∧ no_collision (key_text p' max_recommendations' safe_mode')
                    (key_text p max_recommendations safe_mode)) →
  generate_recommendations self (cache_after events) now p max_recommendations safe_mode
  = (Return recs hit, cache') →
  Forall (within_budget b) recs
  ∧ (∀ config r,
       _score_configuration self config p safe_mode = Some r → within_budget b r)
  ∧ (∀ config,
       (∀ price, Config.total_price config = PNum price →
                 ¬ (Budget.min b <= price <= Budget.max b)) →
       _score_configuration self config p safe_mode = None).
Proof.
  intros Hb Hd Hev Hgen. split_and!.
  - by eapply served_list_within_budget.
  - intros config r. by apply score_configuration_within_budget.
  - intros config Hout.
    destruct (_score_configuration self config p safe_mode) as [r|] eqn:Hr; [|done].
    destruct (score_configuration_Some _ _ _ _ _ _ Hr Hb) as (Hprice & Hc & _).
    apply check_budget_spec in Hc. by destruct (Hout _ Hprice).
Qed.

(** C2. Every returned candidate that carries no fallback mark lies
    within the bounds of the profile's budget, on any store the engine
    itself has written, as in the previous theorem. *)
Theorem unmarked_candidates_within_budget
    (events : list Event) (self : RecommendationEngine) (now : Z)
    (p : UserProfile.t) (b : Budget.t) (max_recommendations : nat) (safe_mode : bool)
    (recs : list Scored.t) (hit : bool) (cache' : Cache.t) :
  UserProfile.budget p = Some b →
  double_budget b →
  (∀ self' now' p' max_recommendations' safe_mode' b',
     Served self' now' p' max_recommendations' safe_mode' ∈ events →
     UserProfile.budget p' = Some b' →
     double_budget b'
     ∧ no_collision (key_text p' max_recommendations' safe_mode')
                    (key_text p max_recommendations safe_mode)) →
  generate_recommendations self (cache_after events) now p max_recommendations safe_mode
  = (Return recs hit, cache') →
  Forall (λ r, Scored.fallback_type r = None → within_budget b r) recs.
Proof.
  intros Hb Hd Hev Hgen.
  eapply Forall_impl; [by eapply served_list_within_budget|]. done.
Qed.

(** An earlier call stored, for the budget 1000 to 2000, a candidate it
    found in the last fallback stage; the store was then invalidated for
    one recommendation and used for another budget. The same request from
    another session, sixty seconds after the first and against another
    catalog, is served the stored candidate, with its mark. *)
Lemma returned_candidates_within_original_budget_witness :
  (λ r, (Scored.configuration_id r, Qred (Scored.total_price r), Scored.fallback_type r))
    <$> recommendations_of
          (fst (generate_recommendations catalog_360
                  (cache_after
                     [Served catalog_weak 0 (sample_profile 1000 2000 [] "s1") 3 false;
                      Invalidated "r1";
                      Served catalog_two 30 (sample_profile 800 1500 [] "s3") 3 false])
                  60 (sample_profile 1000 2000 [] "s2") 3 false))
  = [("c2", 1500, Some "no_constraints")]
  ∧ Forall (within_budget (Budget.mk 1000 2000))
      (recommendations_of
         (fst (generate_recommendations catalog_360
                 (cache_after
                    [Served catalog_weak 0 (sample_profile 1000 2000 [] "s1") 3 false;
                     Invalidated "r1";
                     Served catalog_two 30 (sample_profile 800 1500 [] "s3") 3 false])
                 60 (sample_profile 1000 2000 [] "s2") 3 false)))
  ∧ (∀ config r,
       _score_configuration catalog_360 config (sample_profile 1000 2000 [] "s2") false
       = Some r →
       within_budget (Budget.mk 1000 2000) r)
  ∧ (∀ config,
       (∀ price, Config.total_price config = PNum price →
                 ¬ (Budget.min (Budget.mk 1000 2000) <= price
                    <= Budget.max (Budget.mk 1000 2000))) →
       _score_configuration catalog_360 config (sample_profile 1000 2000 [] "s2") false
       = None).
Proof.
  split; [vm_compute; reflexivity|].
  apply (returned_candidates_within_original_budget
           [Served catalog_weak 0 (sample_profile 1000 2000 [] "s1") 3 false;
            Invalidated "r1";
            Served catalog_two 30 (sample_profile 800 1500 [] "s3") 3 false]
           catalog_360 60 (sample_profile 1000 2000 [] "s2")
           (Budget.mk 1000 2000) 3 false
           (recommendations_of
              (fst (generate_recommendations catalog_360
                      (cache_after
                         [Served catalog_weak 0 (sample_profile 1000 2000 [] "s1") 3 false;
                          Invalidated "r1";
                          Served catalog_two 30 (sample_profile 800 1500 [] "s3") 3 false])
                      60 (sample_profile 1000 2000 [] "s2") 3 false)))
           true
           (snd (generate_recommendations catalog_360
                   (cache_after
                      [Served catalog_weak 0 (sample_profile 1000 2000 [] "s1") 3 false;
                       Invalidated "r1";
                       Served catalog_two 30 (sample_profile 800 1500 [] "s3") 3 false])
                   60 (sample_profile 1000 2000 [] "s2") 3 false))).
  - reflexivity.
  - split; vm_compute; reflexivity.
  - intros self' now' p' m' s' b' Hin Hb'.
    apply list_elem_of_In in Hin.
    destruct Hin as [Hin|[Hin|[Hin|[]]]]; [|discriminate Hin|];
      injection Hin as <- <- <- <- <-; injection Hb' as <-.
    + split; [split; vm_compute; reflexivity|].
      intros _. vm_compute. reflexivity.
    + split; [split; vm_compute; reflexivity|].
      intros H. vm_compute in H. discriminate H.
  - vm_compute. reflexivity.
Defined.

(** An earlier call stored two unmarked candidates for the budget 800 to
    1500 in safe mode; the same request from another session is served
    them from the store. *)
Lemma unmarked_candidates_within_budget_witness :
  (λ r, (Scored.configuration_id r, Qred (Scored.total_price r), Scored.fallback_type r))
    <$> recommendations_of
          (fst (generate_recommendations catalog_weak
                  (cache_after
                     [Served catalog_weak 0 (sample_profile 1000 2000 [] "s1") 2 true;
                      Served catalog_two 10 (sample_profile 800 1500 [] "s1") 2 true])
                  100 (sample_profile 800 1500 [] "s2") 2 true))
  = [("a", 900, None); ("b", 1400, None)]
  ∧ Forall (λ r, Scored.fallback_type r = None → within_budget (Budget.mk 800 1500) r)
      (recommendations_of
         (fst (generate_recommendations catalog_weak
                 (cache_after
                    [Served catalog_weak 0 (sample_profile 1000 2000 [] "s1") 2 true;
                     Served catalog_two 10 (sample_profile 800 1500 [] "s1") 2 true])
                 100 (sample_profile 800 1500 [] "s2") 2 true))).
Proof.
  split; [vm_compute; reflexivity|].
  apply (unmarked_candidates_within_budget
           [Served catalog_weak 0 (sample_profile 1000 2000 [] "s1") 2 true;
            Served catalog_two 10 (sample_profile 800 1500 [] "s1") 2 true]
           catalog_weak 100 (sample_profile 800 1500 [] "s2")
           (Budget.mk 800 1500) 2 true
           (recommendations_of
              (fst (generate_recommendations catalog_weak
                      (cache_after
                         [Served catalog_weak 0 (sample_profile 1000 2000 [] "s1") 2 true;
                          Served catalog_two 10 (sample_profile 800 1500 [] "s1") 2 true])
                      100 (sample_profile 800 1500 [] "s2") 2 true)))
           true
           (snd (generate_recommendations catalog_weak
                   (cache_after
                      [Served catalog_weak 0 (sample_profile 1000 2000 [] "s1") 2 true;
                       Served catalog_two 10 (sample_profile 800 1500 [] "s1") 2 true])
                   100 (sample_profile 800 1500 [] "s2") 2 true))).
  - reflexivity.
  - split; vm_compute; reflexivity.
  - intros self' now' p' m' s' b' Hin Hb'.
    apply list_elem_of_In in Hin.
    destruct Hin as [Hin|[Hin|[]]];
      injection Hin as <- <- <- <- <-; injection Hb' as <-.
    + split; [split; vm_compute; reflexivity|].
      intros H. vm_compute in H. discriminate H.
    + split; [split; vm_compute; reflexivity|].
      intros _. vm_compute. reflexivity.
  - vm_compute. reflexivity.
Defined.
